(** * Forecasting orchestration service ([src/app.py]): model and properties

    The service is a Flask application with two operations,
    [predict_demand] and [predict_supplier_performance].  Both are glue
    around two collaborators: pandas (frame construction, date parsing,
    numeric coercion, standard deviation) and the Prophet forecasting
    engine.  The glue is embedded here as executable functions; the
    collaborators are the fields of a record [Env], so that every theorem
    holds for any engine and any date parser.

    Numbers.  A Python [float] is modelled by its value: a rational, an
    infinity or NaN.  Comparisons, [abs], [min] and [max] are exact on such
    values; [/] and [+] are the exact operations, without rounding. *)

From Stdlib Require Import ZArith QArith Qabs Lia Lqa String Ascii List Bool.
From stdpp Require Import base option list gmap strings.

#[local] Set Warnings "-register-all".
#[local] Open Scope string_scope.
#[local] Open Scope list_scope.
#[local] Open Scope Z_scope.

(** ** Python floats *)

Inductive pyfloat :=
| PNaN
| PInf (neg : bool)
| PFin (q : Q).

Module Float.

Definition Qltb (a b : Q) : bool := negb (Qle_bool b a).

Definition isnan (x : pyfloat) : bool :=
  match x with PNaN => true | _ => false end.

(** [x < y]; every comparison with NaN is false. *)
Definition lt (x y : pyfloat) : bool :=
  match x, y with
  | PNaN, _ | _, PNaN => false
  | PInf true, PInf true => false
  | PInf true, _ => true
  | _, PInf true => false
  | PInf false, _ => false
  | _, PInf false => true
  | PFin a, PFin b => Qltb a b
  end.

Definition gt (x y : pyfloat) : bool := lt y x.

(** [x <= y]. *)
Definition le (x y : pyfloat) : bool :=
  match x, y with
  | PNaN, _ | _, PNaN => false
  | PInf true, _ => true
  | _, PInf false => true
  | PInf false, _ => false
  | _, PInf true => false
  | PFin a, PFin b => Qle_bool a b
  end.

(** The builtins [min(a, b)] and [max(a, b)]: the first argument is kept
    unless the second one compares strictly below (above) it. *)
Definition min (a b : pyfloat) : pyfloat := if lt b a then b else a.
Definition max (a b : pyfloat) : pyfloat := if gt b a then b else a.

Definition abs (x : pyfloat) : pyfloat :=
  match x with
  | PNaN => PNaN
  | PInf _ => PInf false
  | PFin q => PFin (Qabs q)
  end.

Definition is_zero (x : pyfloat) : bool :=
  match x with PFin q => Qeq_bool q 0 | _ => false end.

Definition Qneg (q : Q) : bool := Qltb q 0.

(** [x / y] for a divisor that is not zero. *)
Definition div_nz (x y : pyfloat) : pyfloat :=
  match x, y with
  | PNaN, _ | _, PNaN => PNaN
  | PInf _, PInf _ => PNaN
  | PInf s, PFin b => PInf (xorb s (Qneg b))
  | PFin _, PInf _ => PFin 0
  | PFin a, PFin b => PFin (a / b)
  end.

Definition add (x y : pyfloat) : pyfloat :=
  match x, y with
  | PNaN, _ | _, PNaN => PNaN
  | PInf s, PInf s' => if Bool.eqb s s' then PInf s else PNaN
  | PInf s, PFin _ | PFin _, PInf s => PInf s
  | PFin a, PFin b => PFin (a + b)
  end.

Definition of_Z (z : Z) : pyfloat := PFin (inject_Z z).

(** Membership in the closed interval [[0.0, 1.0]]; NaN is outside. *)
Definition in_unit (x : pyfloat) : bool := le (PFin 0) x && le x (PFin 1).

End Float.

(** ** Request bodies

    [request.json] is a decoded JSON document: the handlers receive whatever
    the caller sent, so nothing below assumes a shape. *)

Inductive json :=
| JNull
| JBool (b : bool)
| JInt (z : Z)
| JFloat (f : pyfloat)
| JStr (s : string)
| JList (l : list json)
| JDict (d : gmap string json).

(** ** Exceptions

    The handlers route on the class of an exception only:
    [pd.errors.EmptyDataError] and [ValueError] are answered with 400,
    everything else with 500. *)

Inductive exn :=
| KeyError (key : string)
| IndexError
| TypeError (what : string)
| AttributeError (what : string)
| ValueError (what : string)
| EmptyDataError
| ZeroDivisionError
| OtherError (class what : string).

Definition exn_class (e : exn) : string :=
  match e with
  | KeyError _ => "KeyError"
  | IndexError => "IndexError"
  | TypeError _ => "TypeError"
  | AttributeError _ => "AttributeError"
  | ValueError _ => "ValueError"
  | EmptyDataError => "EmptyDataError"
  | ZeroDivisionError => "ZeroDivisionError"
  | OtherError c _ => c
  end.

Inductive result (A : Type) :=
| Ok (a : A)
| Raise (e : exn).
Arguments Ok {A} a.
Arguments Raise {A} e.

Definition rbind {A B} (r : result A) (k : A -> result B) : result B :=
  match r with
  | Ok a => k a
  | Raise e => Raise e
  end.

Declare Scope result_scope.
Delimit Scope result_scope with result.
Notation "'let?' x := r 'in' k" := (rbind r (fun x => k))
  (at level 10, x pattern, r at level 100, k at level 200) : result_scope.

(** ** The Python operations the handlers apply to JSON values *)

Module Py.

#[local] Open Scope result_scope.

(** [type(x).__name__] *)
Definition type_name (x : json) : string :=
  match x with
  | JNull => "NoneType"
  | JBool _ => "bool"
  | JInt _ => "int"
  | JFloat _ => "float"
  | JStr _ => "str"
  | JList _ => "list"
  | JDict _ => "dict"
  end.

(** The three classes the validators test with [isinstance].  [bool] is
    a subclass of [int]. *)
Inductive pytype := TList | TInt | TStr.

Definition pytype_name (t : pytype) : string :=
  match t with TList => "list" | TInt => "int" | TStr => "str" end.

Definition isinstance (x : json) (t : pytype) : bool :=
  match t, x with
  | TList, JList _ => true
  | TInt, JInt _ | TInt, JBool _ => true
  | TStr, JStr _ => true
  | _, _ => false
  end.

Fixpoint is_prefix (p s : string) : bool :=
  match p, s with
  | EmptyString, _ => true
  | String a p', String b s' => Ascii.eqb a b && is_prefix p' s'
  | String _ _, EmptyString => false
  end.

Fixpoint is_substring (p s : string) : bool :=
  is_prefix p s ||
  match s with
  | EmptyString => false
  | String _ s' => is_substring p s'
  end.

(** [key in x] for a string [key]: key membership in a dict, element
    membership in a list, substring test in a string, [TypeError] for
    the rest. *)
Definition contains (x : json) (key : string) : result bool :=
  match x with
  | JDict d => Ok (bool_decide (is_Some (d !! key)))
  | JList l =>
      Ok (existsb (fun e => match e with JStr s => String.eqb s key | _ => false end) l)
  | JStr s => Ok (is_substring key s)
  | _ => Raise (TypeError "argument is not iterable")
  end.

(** [x[key]] for a string [key]. *)
Definition getitem (x : json) (key : string) : result json :=
  match x with
  | JDict d =>
      match d !! key with
      | Some v => Ok v
      | None => Raise (KeyError key)
      end
  | _ => Raise (TypeError "indices must be integers or not subscriptable")
  end.

(** [x.get(key, dflt)]: only dicts have the method. *)
Definition get (x : json) (key : string) (dflt : json) : result json :=
  match x with
  | JDict d => Ok (default dflt (d !! key))
  | _ => Raise (AttributeError "get")
  end.

(** [len(x)] *)
Definition len (x : json) : result nat :=
  match x with
  | JList l => Ok (length l)
  | JDict d => Ok (size d)
  | JStr s => Ok (String.length s)
  | _ => Raise (TypeError "object has no len()")
  end.

(** [x[0]] on a list. *)
Definition first (x : json) : result json :=
  match x with
  | JList (e :: _) => Ok e
  | JList [] => Raise IndexError
  | _ => Raise (TypeError "not a list")
  end.

(** Truth value of [x] in a condition. *)
Definition truthy (x : json) : bool :=
  match x with
  | JNull => false
  | JBool b => b
  | JInt z => negb (z =? 0)
  | JFloat f => negb (Float.is_zero f)
  | JStr s => negb (String.eqb s "")
  | JList l => negb (Nat.eqb (length l) 0)
  | JDict d => negb (Nat.eqb (size d) 0)
  end.

(** [pd.isnull] on one cell: [None] and NaN. *)
Definition isnull (x : json) : bool :=
  match x with
  | JNull => true
  | JFloat f => Float.isnan f
  | _ => false
  end.

End Py.

(** ** Input validation ([validate_demand_input],
       [validate_supplier_performance_input])

    Both validators run the same three steps over their own tables of
    required fields; the steps are written once and instantiated twice. *)

Module Validator.

#[local] Open Scope result_scope.

Definition missing_field (field : string) : string :=
  "Missing required field: " +:+ field.

Definition invalid_type (field : string) (expected : Py.pytype) (actual : json) : string :=
  "Invalid type for " +:+ field +:+ ": expected " +:+ Py.pytype_name expected
    +:+ ", got " +:+ Py.type_name actual.

Definition empty_array : string := "historicalData array is empty".

Definition missing_point_field (field : string) : string :=
  "Missing required field in historicalData points: " +:+ field.

(** One round of [for field, expected_type in required_fields.items()]. *)
Definition check_field (data : json) (issues : list string)
    (entry : string * Py.pytype) : result (list string) :=
  let '(field, expected_type) := entry in
  let? present := Py.contains data field in
  if negb present then Ok (issues ++ [missing_field field])
  else
    let? v := Py.getitem data field in
    if negb (Py.isinstance v expected_type)
    then Ok (issues ++ [invalid_type field expected_type v])
    else Ok issues.

Fixpoint check_fields (data : json) (issues : list string)
    (required_fields : list (string * Py.pytype)) : result (list string) :=
  match required_fields with
  | [] => Ok issues
  | entry :: rest =>
      let? issues := check_field data issues entry in
      check_fields data issues rest
  end.

(** [if not issues and len(data["historicalData"]) == 0] *)
Definition check_nonempty (data : json) (issues : list string) : result (list string) :=
  match issues with
  | [] =>
      let? hd := Py.getitem data "historicalData" in
      let? n := Py.len hd in
      if Nat.eqb n 0 then Ok (issues ++ [empty_array]) else Ok issues
  | _ :: _ => Ok issues
  end.

Fixpoint check_point_fields (sample_point : json) (issues : list string)
    (required_point_fields : list string) : result (list string) :=
  match required_point_fields with
  | [] => Ok issues
  | field :: rest =>
      let? present := Py.contains sample_point field in
      check_point_fields sample_point
        (if negb present then issues ++ [missing_point_field field] else issues) rest
  end.

(** [if not issues: sample_point = data["historicalData"][0] ...] *)
Definition check_sample (data : json) (issues : list string)
    (required_point_fields : list string) : result (list string) :=
  match issues with
  | [] =>
      let? hd := Py.getitem data "historicalData" in
      let? sample_point := Py.first hd in
      check_point_fields sample_point issues required_point_fields
  | _ :: _ => Ok issues
  end.

Definition validate (required_fields : list (string * Py.pytype))
    (required_point_fields : list string) (data : json) : result (list string) :=
  let? issues := check_fields data [] required_fields in
  let? issues := check_nonempty data issues in
  check_sample data issues required_point_fields.

End Validator.

Definition demand_required_fields : list (string * Py.pytype) :=
  [("historicalData", Py.TList); ("futurePeriods", Py.TInt)].

Definition validate_demand_input (data : json) : result (list string) :=
  Validator.validate demand_required_fields ["date"; "demand"] data.

Definition supplier_required_fields : list (string * Py.pytype) :=
  [("historicalData", Py.TList); ("futurePeriods", Py.TInt); ("supplierId", Py.TStr)].

Definition validate_supplier_performance_input (data : json) : result (list string) :=
  Validator.validate supplier_required_fields
    ["date"; "qualityRating"; "leadTimeReliability"] data.

(** ** Frames and timestamps

    A timestamp is a number of nanoseconds; [None] is [NaT].  A frame built
    by [pd.DataFrame(historical_data)] keeps, for every record, its label in
    the [RangeIndex], the parsed [ds] and the cells of the record.  A cell a
    record does not have reads as NaN. *)

Definition day_ns : Z := 86400000000000.

Record row := Row {
  label : nat;
  ds : option Z;
  cells : gmap string json }.

Definition cell (column : string) (r : row) : json :=
  default (JFloat PNaN) (cells r !! column).

(** [column in df.columns] *)
Definition has_column (df : list row) (column : string) : bool :=
  existsb (fun r => bool_decide (is_Some (cells r !! column))) df.

Module Ts.

(** Order of [sort_values]: ascending, [NaT] last. *)
Definition le (a b : option Z) : bool :=
  match a, b with
  | _, None => true
  | None, Some _ => false
  | Some x, Some y => x <=? y
  end.

(** [a - b] *)
Definition sub (a b : option Z) : option Z :=
  match a, b with
  | Some x, Some y => Some (x - y)
  | _, _ => None
  end.

(** [Series.max()] and [Series.min()] skip [NaT]. *)
Definition max (l : list (option Z)) : option Z :=
  fold_right (fun t acc =>
    match t, acc with
    | Some x, Some y => Some (Z.max x y)
    | Some x, None => Some x
    | None, _ => acc
    end) None l.

Definition min (l : list (option Z)) : option Z :=
  fold_right (fun t acc =>
    match t, acc with
    | Some x, Some y => Some (Z.min x y)
    | Some x, None => Some x
    | None, _ => acc
    end) None l.

(** [Timedelta.days]: whole days, rounded down; NaN on [NaT]. *)
Definition days (delta : option Z) : option Z :=
  match delta with
  | Some d => Some (d / day_ns)
  | None => None
  end.

(** [delta > pd.Timedelta(days=n)]; false on [NaT]. *)
Definition exceeds_days (delta : option Z) (n : Z) : bool :=
  match delta with
  | Some d => n * day_ns <? d
  | None => false
  end.

(** [Series.diff()]: [NaT] first, then the difference with the previous
    entry. *)
Fixpoint diff_from (prev : option Z) (l : list (option Z)) : list (option Z) :=
  match l with
  | [] => []
  | t :: l' => sub t prev :: diff_from t l'
  end.

Definition diff (l : list (option Z)) : list (option Z) :=
  match l with
  | [] => []
  | t :: l' => None :: diff_from t l'
  end.

End Ts.

(** [df.sort_values("ds")]: rows in ascending order of [ds], rows with
    equal [ds] in their original order. *)
Fixpoint insert_by_ds (r : row) (l : list row) : list row :=
  match l with
  | [] => [r]
  | r' :: l' => if Ts.le (ds r) (ds r') then r :: l else r' :: insert_by_ds r l'
  end.

Definition sort_values (df : list row) : list row :=
  fold_right insert_by_ds [] df.

(** [df.loc[i, "ds"]]: the row is found by label. *)
Fixpoint loc_ds (df : list row) (i : Z) : result (option Z) :=
  match df with
  | [] => Raise (KeyError "label")
  | r :: df' => if Z.of_nat (label r) =? i then Ok (ds r) else loc_ds df' i
  end.

(** ** The forecasting engine and the other collaborators *)

Record prophet_config := {
  interval_width : option Q;
  yearly_seasonality : option bool;
  weekly_seasonality : option bool;
  daily_seasonality : option bool;
  changepoint_prior_scale : option Q;
  extra_regressors : list string }.

(** What the engine is fit on: [ds], [y] and the remaining columns. *)
Record hrow := HRow {
  h_ds : option Z;
  h_y : json;
  h_x : gmap string json }.

Record future_frame := {
  fut_ds : list (option Z);
  fut_x : list (string * list json) }.

Record frow := {
  f_ds : Z;
  yhat : pyfloat;
  yhat_lower : pyfloat;
  yhat_upper : pyfloat }.

(** A forecast: one row per requested timestamp, and the decomposition
    columns, which a forecast may or may not carry. *)
Record forecast_frame := {
  frows : list frow;
  trend : option (list pyfloat);
  yearly : option (list pyfloat) }.

Record Env := {
  (** exception of [pd.DataFrame] (or of the first column access after it)
      on a list whose elements are not all records *)
  bad_frame : list json -> exn;
  (** [pd.to_datetime(column).dt.tz_localize(None)] *)
  to_datetime : list json -> result (list (option Z));
  (** [pd.to_numeric(column, errors="coerce")] *)
  to_numeric : list json -> list json;
  (** [frame.duplicated()] on a two-column frame *)
  duplicated : list (option Z * json) -> result (list bool);
  (** [column == value] *)
  column_eq : list json -> json -> result (list bool);
  (** [frame[name] = value] for a value that is not a list *)
  set_scalar : json -> nat -> result (list json);
  (** [Series.std()] *)
  std : list pyfloat -> pyfloat;
  (** [Prophet(...).fit(history)]: the exception, if any *)
  prophet_fit : prophet_config -> list hrow -> option exn;
  (** [model.predict(future)] of the model fit on [history] *)
  prophet_predict : prophet_config -> list hrow -> future_frame -> result forecast_frame;
  (** [model.plot], [savefig] and base64 encoding *)
  render_plot : prophet_config -> forecast_frame -> string }.

(** What the orchestration relies on: parsing keeps the number of rows and
    the engine answers with one row per requested timestamp. *)
Record env_ok (env : Env) : Prop := {
  to_datetime_length : forall col dates,
    to_datetime env col = Ok dates -> length dates = length col;
  predict_rows : forall cfg history future fc,
    prophet_predict env cfg history future = Ok fc ->
    map (fun r => Some (f_ds r)) (frows fc) = fut_ds future }.

(** ** Effects: a log, early [return] and exceptions *)

Inductive warning :=
| LowDensity (density : pyfloat)
| GapsFound (n : nat)
| Gap (gap_start gap_end : option Z) (days : option Z)
| NullValues (column : string) (n : nat)
| NonNumericValues (column : string)
| StrengthError (e : exn).

Inductive error_line :=
| LengthMismatch (regressor : string) (values rows : nat)
| NaNValues (regressor : string) (n : nat).

(** The log keeps the warnings, the two error lines of the regressor loop
    and the calls to the engine.  Info lines are not kept (what they
    evaluate is, where it can raise), nor is the line that repeats an error
    response. *)
Inductive event :=
| Warn (w : warning)
| LogError (l : error_line)
| CallPredictRegressor (regressor_name : string)
| Fit (cfg : prophet_config) (history : list hrow)
| Predict (cfg : prophet_config) (future : future_frame).

(** A computation yields a value or raises, and appends to the log.  Every
    [return] of the handlers is the last statement of its branch, so it is
    modelled as the value of that branch. *)
Definition M (A : Type) : Type := result A * list event.

Module Import Monad.

Definition ret {A} (a : A) : M A := (Ok a, []).

Definition bind {A B} (m : M A) (k : A -> M B) : M B :=
  match m with
  | (Ok a, log) => let '(r, log') := k a in (r, log ++ log')
  | (Raise e, log) => (Raise e, log)
  end.

Definition emit (e : event) : M unit := (Ok tt, [e]).

Definition raise {A} (e : exn) : M A := (Raise e, []).

Definition lift {A} (r : result A) : M A := (r, []).

(** [try: body except Exception as e: handler(e)] *)
Definition try_except {A} (body : M A) (handler : exn -> M A) : M A :=
  match body with
  | (Raise e, log) => let '(r, log') := handler e in (r, log ++ log')
  | (Ok a, log) => (Ok a, log)
  end.

Definition when (b : bool) (m : M unit) : M unit :=
  if b then m else ret tt.

End Monad.

Declare Scope monad_scope.
Delimit Scope monad_scope with monad.
Notation "x <- m ;; k" := (bind m (fun x => k))
  (at level 20, m at level 99, k at level 200, only parsing) : monad_scope.
Notation "' p <- m ;; k" := (bind m (fun p => k))
  (at level 20, p pattern, m at level 99, k at level 200, only parsing) : monad_scope.
Notation "m ;; k" := (bind m (fun _ => k))
  (at level 100, k at level 200, only parsing, right associativity) : monad_scope.

(** ** Responses *)

(** The body of an error response; [error_message] is its ["error"] field. *)
Inductive error_body :=
| InvalidInput (details : list string)
| MissingDemandValues (n : nat) (example_dates : list (option Z))
| NonNumericDemand
| InsufficientDensity (density : pyfloat)
| EmptyDataset
| DataProcessingError (e : exn)
| UnexpectedError (e : exn)
| FatalError (e : exn).

Definition error_message (b : error_body) : string :=
  match b with
  | InvalidInput _ => "Invalid input data"
  | MissingDemandValues _ _ => "Missing demand values detected"
  | NonNumericDemand => "Non-numeric demand values detected"
  | InsufficientDensity _ => "Insufficient data density"
  | EmptyDataset => "Empty dataset provided"
  | DataProcessingError _ => "Data processing error"
  | UnexpectedError _ => "Unexpected error during data processing"
  | FatalError _ => "Fatal error"
  end.

Inductive response (B : Type) :=
| Success (body : B)
| Failure (status : Z) (err : error_body).
Arguments Success {B} body.
Arguments Failure {B} status err.

Record forecast_point := {
  date : Z;
  value : pyfloat;
  lower : pyfloat;
  upper : pyfloat }.

Record demand_body := {
  forecast : list forecast_point;
  plot : string;
  locationId : json;
  modelId : json;
  confidenceInterval : Q;
  seasonalityStrength : pyfloat;
  trendStrength : pyfloat;
  futureRegressors_mti : json;
  futureRegressors_inflation : json;
  dataPoints : nat;
  dateRange_start : Z;
  dateRange_end : Z;
  regressorsUsed : list string;
  futurePeriods : json;
  generatedRegressors : list string }.

Record supplier_body := {
  supplierId : json;
  qualityForecast : list forecast_point;
  leadTimeForecast : list forecast_point;
  s_confidenceInterval : Q;
  s_seasonalityStrength : pyfloat;
  s_trendStrength : pyfloat;
  plot_quality : string;
  plot_leadTime : string;
  s_dataPoints : nat;
  s_dateRange_start : Z;
  s_dateRange_end : Z;
  s_futurePeriods : json }.

(** ** Pure steps shared by the two handlers *)

(** [pd.DataFrame(historical_data)] followed by
    [df["ds"] = pd.to_datetime(df["date"]).dt.tz_localize(None)]. *)
Definition records_of (l : list json) : option (list (gmap string json)) :=
  mapM (fun j => match j with JDict d => Some d | _ => None end) l.

Fixpoint index_rows (i : nat) (dates : list (option Z))
    (records : list (gmap string json)) : list row :=
  match dates, records with
  | t :: dates', d :: records' => Row i t d :: index_rows (S i) dates' records'
  | _, _ => []
  end.

Definition column_of (records : list (gmap string json)) (name : string) : result (list json) :=
  if existsb (fun d => bool_decide (is_Some (d !! name))) records
  then Ok (map (fun d => default (JFloat PNaN) (d !! name)) records)
  else Raise (KeyError name).

Definition DataFrame (env : Env) (historical_data : json) : result (list row) :=
  match historical_data with
  | JList l =>
      match records_of l with
      | Some records =>
          (let? dates_col := column_of records "date" in
           let? dates := to_datetime env dates_col in
           Ok (index_rows 0 dates records))%result
      | None => Raise (bad_frame env l)
      end
  | _ => Raise (ValueError "DataFrame constructor not properly called!")
  end.

(** [(df["ds"].max() - df["ds"].min()).days] *)
Definition date_range (df : list row) : option Z :=
  Ts.days (Ts.sub (Ts.max (map ds df)) (Ts.min (map ds df))).

(** [density = len(df) / expected_points]; the span of a frame without a
    valid timestamp is NaN, and so is its density. *)
Definition density (df : list row) : result pyfloat :=
  match date_range df with
  | None => Ok PNaN
  | Some days =>
      let expected_points := days + 1 in
      if expected_points =? 0 then Raise ZeroDivisionError
      else Ok (PFin (inject_Z (Z.of_nat (length df)) / inject_Z expected_points))
  end.

(** The threshold [0.7], as the rational 7/10.  The double nearest to 0.7
    is less than 1e-16 away from it, and no quotient of a row count by a
    number of days below 1e15 lies in between: the comparison with the
    density comes out the same. *)
Definition density_threshold : pyfloat := PFin (7 # 10).

(** [gaps[gaps > pd.Timedelta(days=7)]] on the sorted frame: the labels and
    the deltas that are kept. *)
Definition large_gaps (df_sorted : list row) : list (nat * option Z) :=
  List.filter (fun g => Ts.exceeds_days (snd g) 7)
    (combine (map label df_sorted) (Ts.diff (map ds df_sorted))).

(** [x / y] of Python: a zero divisor raises. *)
Definition truediv (x y : pyfloat) : result pyfloat :=
  if Float.is_zero y then Raise ZeroDivisionError else Ok (Float.div_nz x y).

Definition notnull (x : pyfloat) : bool := negb (Float.isnan x).

(** [min(1.0, max(0.0, float(x)))] *)
Definition clamp01 (x : pyfloat) : pyfloat :=
  Float.min (PFin 1) (Float.max (PFin 0) x).

(** ** The engine's horizon ([Prophet.make_future_dataframe])

    Modelled from the spec: the engine is not part of the repository; it
    predicts [periods] daily steps after the last historical timestamp, and
    [include_history] puts the historical timestamps in front of them. *)

Fixpoint insert_ts (t : option Z) (l : list (option Z)) : list (option Z) :=
  match l with
  | [] => [t]
  | t' :: l' => if Ts.le t t' then t :: l else t' :: insert_ts t l'
  end.

Definition history_dates (history : list hrow) : list (option Z) :=
  fold_right insert_ts [] (remove_dups (map h_ds history)).

(** [pd.date_range(start, periods=n, freq="D")] *)
Definition pd_date_range (start : Z) (n : nat) : list Z :=
  map (fun k => start + Z.of_nat k * day_ns) (seq 0 n).

(** [l[:n]] *)
Definition slice_to {A} (n : Z) (l : list A) : list A :=
  if 0 <=? n then firstn (Z.to_nat n) l
  else firstn (length l - Z.to_nat (- n)) l.

Definition make_future_dataframe (history : list hrow) (periods : Z)
    (include_history : bool) : result (list (option Z)) :=
  match Ts.max (map h_ds history) with
  | None => Raise (ValueError "Neither `start` nor `end` can be NaT")
  | Some last_date =>
      if periods + 1 <? 0
      then Raise (ValueError "Number of periods must be non-negative")
      else
        let dates := pd_date_range last_date (Z.to_nat (periods + 1)) in
        let dates := List.filter (fun t => last_date <? t) dates in
        let dates := slice_to periods dates in
        Ok ((if include_history then history_dates history else []) ++ map Some dates)
  end.

(** The integer a validated [futurePeriods] stands for. *)
Definition as_int (x : json) : result Z :=
  match x with
  | JInt z => Ok z
  | JBool b => Ok (Z.b2z b)
  | _ => Raise (TypeError "periods")
  end.

(** ** The handlers *)

Section Handlers.

Context (env : Env).

#[local] Open Scope monad_scope.

(** *** Calls to the engine *)

Definition fit (cfg : prophet_config) (history : list hrow) : M unit :=
  emit (Fit cfg history) ;;
  match prophet_fit env cfg history with
  | Some e => raise e
  | None => ret tt
  end.

Definition predict (cfg : prophet_config) (history : list hrow)
    (future : future_frame) : M forecast_frame :=
  emit (Predict cfg future) ;;
  lift (prophet_predict env cfg history future).

(** *** Data quality *)

(** Lines 187-192: one warning per large gap, with the timestamps read
    back from the sorted frame by label. *)
Fixpoint log_gap_lines (df_sorted : list row) (index : list nat) : M unit :=
  match index with
  | [] => ret tt
  | idx :: rest =>
      gap_start <- lift (loc_ds df_sorted (Z.of_nat idx - 1)) ;;
      gap_end <- lift (loc_ds df_sorted (Z.of_nat idx)) ;;
      emit (Warn (Gap gap_start gap_end (Ts.days (Ts.sub gap_end gap_start)))) ;;
      log_gap_lines df_sorted rest
  end.

(** Lines 181-192 of [predict_demand]. *)
Definition find_gaps_demand (df : list row) : M unit :=
  let df_sorted := sort_values df in
  let gaps := large_gaps df_sorted in
  match gaps with
  | [] => ret tt
  | _ :: _ =>
      emit (Warn (GapsFound (length gaps))) ;;
      log_gap_lines df_sorted (map fst gaps)
  end.

(** Lines 466-471 of [predict_supplier_performance]. *)
Definition find_gaps_supplier (df : list row) : M unit :=
  let df_sorted := sort_values df in
  let gaps := large_gaps df_sorted in
  match gaps with
  | [] => ret tt
  | _ :: _ => emit (Warn (GapsFound (length gaps)))
  end.

(** *** Regressor projection *)

Definition regressor_config : prophet_config :=
  {| interval_width := None;
     yearly_seasonality := Some true;
     weekly_seasonality := None;
     daily_seasonality := None;
     changepoint_prior_scale := None;
     extra_regressors := [] |}.

(** Rows of [l] whose entry in [mask] is [keep]. *)
Fixpoint select {A} (keep : bool) (mask : list bool) (l : list A) : list A :=
  match mask, l with
  | b :: mask', x :: l' =>
      if Bool.eqb b keep then x :: select keep mask' l' else select keep mask' l'
  | _, _ => []
  end.

(** [forecast[forecast["ds"] > last]["yhat"].tolist()] *)
Definition future_values (last : option Z) (fc : forecast_frame) : list pyfloat :=
  match last with
  | Some m => map yhat (List.filter (fun r => m <? f_ds r) (frows fc))
  | None => []
  end.

Definition predict_regressor (historical_df : list row) (regressor_name : string)
    (periods : json) (location_id : json) : M (list pyfloat) :=
  emit (CallPredictRegressor regressor_name) ;;
  df <- (if Py.truthy location_id && has_column historical_df "locationId"
         then
           mask <- lift (column_eq env (map (cell "locationId") historical_df) location_id) ;;
           ret (select true mask historical_df)
         else ret historical_df) ;;
  let prophet_df := map (fun r => HRow (ds r) (cell regressor_name r) ∅) df in
  fit regressor_config prophet_df ;;
  n <- lift (as_int periods) ;;
  future <- lift (make_future_dataframe prophet_df n true) ;;
  fc <- predict regressor_config prophet_df {| fut_ds := future; fut_x := [] |} ;;
  ret (future_values (Ts.max (map h_ds prophet_df)) fc).

(** [df[["ds", "mti"]].drop_duplicates()] *)
Definition all_mti_data (df : list row) : M (list row) :=
  mask <- lift (duplicated env (map (fun r => (ds r, cell "mti" r)) df)) ;;
  ret (select false mask
         (map (fun r => Row (label r) (ds r) {[ "mti" := cell "mti" r ]}) df)).

(** ["futureRegressors" in data and "mti" in data["futureRegressors"]] *)
Definition mti_supplied (data : json) : result bool :=
  (let? declared := Py.contains data "futureRegressors" in
   if declared
   then let? fr := Py.getitem data "futureRegressors" in Py.contains fr "mti"
   else Ok false)%result.

Definition projected (values : list pyfloat) : json := JList (map JFloat values).

(** Lines 197-228: the regressors added to the model, and the dict
    [future_regressors] in insertion order. *)
Definition resolve_regressors (data : json) (df : list row) (future_periods : json)
    (location_id : json) : M (list string * list (string * json)) :=
  '(regressors_added, future_regressors) <-
    (if has_column df "mti"
     then
       supplied <- lift (mti_supplied data) ;;
       if (supplied : bool)
       then
         fr <- lift (Py.getitem data "futureRegressors") ;;
         v <- lift (Py.getitem fr "mti") ;;
         ret (["mti"], [("mti", v)])
       else
         mti_data <- all_mti_data df ;;
         values <- predict_regressor mti_data "mti" future_periods JNull ;;
         ret (["mti"], [("mti", projected values)])
     else ret ([], [])) ;;
  if has_column df "inflation"
  then
    values <- predict_regressor df "inflation" future_periods location_id ;;
    ret (regressors_added ++ ["inflation"],
         future_regressors ++ [("inflation", projected values)])
  else ret (regressors_added, future_regressors).

(** [future[regressor_name] = regressor_values] *)
Definition set_column (n_rows : nat) (values : json) : result (list json) :=
  match values with
  | JList l =>
      if Nat.eqb (length l) n_rows then Ok l
      else Raise (ValueError "Length of values does not match length of index")
  | _ => set_scalar env values n_rows
  end.

(** Lines 256-276: the loop over [future_regressors.items()]. *)
Fixpoint attach_regressors (n_rows : nat) (future_regressors : list (string * json))
    : M (list (string * list json)) :=
  match future_regressors with
  | [] => ret []
  | (regressor_name, regressor_values) :: rest =>
      n <- lift (Py.len regressor_values) ;;
      when (negb (Nat.eqb n n_rows))
        (emit (LogError (LengthMismatch regressor_name n n_rows))) ;;
      column <- lift (set_column n_rows regressor_values) ;;
      let nan_count := length (List.filter Py.isnull column) in
      when (negb (Nat.eqb nan_count 0))
        (emit (LogError (NaNValues regressor_name nan_count))) ;;
      columns <- attach_regressors n_rows rest ;;
      ret ((regressor_name, column) :: columns)
  end.

(** *** Strength metrics *)

Definition column {A} (name : string) (c : option (list A)) : result (list A) :=
  match c with
  | Some l => Ok l
  | None => Raise (KeyError name)
  end.

(** Lines 310-313 and 315-318: [abs(component_std / yhat_std)] behind
    its guard. *)
Definition strength (component_std yhat_std : pyfloat) : result pyfloat :=
  if notnull component_std && notnull yhat_std && Float.gt yhat_std (PFin 0)
  then (let? ratio := truediv component_std yhat_std in Ok (Float.abs ratio))%result
  else Ok (PFin 0).

(** Lines 303-324 *)
Definition demand_strengths (fc : forecast_frame) : M (pyfloat * pyfloat) :=
  try_except
    (yearly_col <- lift (column "yearly" (yearly fc)) ;;
     let yearly_std := std env yearly_col in
     let yhat_std := std env (map yhat (frows fc)) in
     trend_col <- lift (column "trend" (trend fc)) ;;
     let trend_std := std env trend_col in
     seasonality_strength <- lift (strength yearly_std yhat_std) ;;
     trend_strength <- lift (strength trend_std yhat_std) ;;
     ret (seasonality_strength, trend_strength))
    (fun e => emit (Warn (StrengthError e)) ;; ret (PFin 0, PFin 0)).

(** Lines 600-618: the supplier handler clamps inside the guard. *)
Definition capped_strength (component_std yhat_std : pyfloat) : result pyfloat :=
  if notnull component_std && notnull yhat_std && Float.gt yhat_std (PFin 0)
  then (let? ratio := truediv component_std yhat_std in
        Ok (Float.min (PFin 1) (Float.abs ratio)))%result
  else Ok (PFin 0).

(** [(a + b) / 2] *)
Definition average (a b : pyfloat) : pyfloat :=
  Float.div_nz (Float.add a b) (PFin 2).

(** Lines 587-627 *)
Definition supplier_strengths (quality lead_time : forecast_frame)
    : M (pyfloat * pyfloat) :=
  try_except
    (q_yearly <- lift (column "yearly" (yearly quality)) ;;
     let quality_yearly_std := std env q_yearly in
     let quality_yhat_std := std env (map yhat (frows quality)) in
     q_trend <- lift (column "trend" (trend quality)) ;;
     let quality_trend_std := std env q_trend in
     l_yearly <- lift (column "yearly" (yearly lead_time)) ;;
     let lead_time_yearly_std := std env l_yearly in
     let lead_time_yhat_std := std env (map yhat (frows lead_time)) in
     l_trend <- lift (column "trend" (trend lead_time)) ;;
     let lead_time_trend_std := std env l_trend in
     quality_seasonality_strength <- lift (capped_strength quality_yearly_std quality_yhat_std) ;;
     quality_trend_strength <- lift (capped_strength quality_trend_std quality_yhat_std) ;;
     lead_time_seasonality_strength <-
       lift (capped_strength lead_time_yearly_std lead_time_yhat_std) ;;
     lead_time_trend_strength <-
       lift (capped_strength lead_time_trend_std lead_time_yhat_std) ;;
     ret (average quality_seasonality_strength lead_time_seasonality_strength,
          average quality_trend_strength lead_time_trend_strength))
    (fun e => emit (Warn (StrengthError e)) ;; ret (PFin 0, PFin 0)).

(** *** Responses and exception handlers *)

Definition forecast_result (fc : forecast_frame) : list forecast_point :=
  map (fun r => {| date := f_ds r; value := yhat r;
                   lower := yhat_lower r; upper := yhat_upper r |})
      (frows fc).

(** Lines 522-530 and 577-585 *)
Definition clamped_forecast (fc : forecast_frame) : list forecast_point :=
  map (fun r => {| date := f_ds r; value := clamp01 (yhat r);
                   lower := clamp01 (yhat_lower r); upper := clamp01 (yhat_upper r) |})
      (frows fc).

(** [Timestamp.strftime]; [NaT] has none. *)
Definition strftime (t : option Z) : result Z :=
  match t with
  | Some z => Ok z
  | None => Raise (ValueError "NaTType does not support strftime")
  end.

(** [future_regressors.get(name, [])] *)
Definition regressor_get (future_regressors : list (string * json)) (name : string) : json :=
  match List.find (fun kv => String.eqb (fst kv) name) future_regressors with
  | Some kv => snd kv
  | None => JList []
  end.

(** The [except] clauses of the inner [try]. *)
Definition data_processing_handler {B} (e : exn) : response B :=
  match e with
  | EmptyDataError => Failure 400 EmptyDataset
  | ValueError _ => Failure 400 (DataProcessingError e)
  | _ => Failure 500 (UnexpectedError e)
  end.

(** The [except Exception] clause of the outer [try]. *)
Definition fatal_handler {B} (e : exn) : response B :=
  Failure 500 (FatalError e).

(** The outer [try]: what the operation answers, and its log. *)
Definition handle {B} (body : M (response B)) (handler : exn -> response B)
    : response B * list event :=
  match body with
  | (Ok r, log) => (r, log)
  | (Raise e, log) => (handler e, log)
  end.

(** *** [predict_demand] *)

Definition demand_config (regressors_added : list string) : prophet_config :=
  {| interval_width := Some (95 # 100);
     yearly_seasonality := None;
     weekly_seasonality := None;
     daily_seasonality := None;
     changepoint_prior_scale := None;
     extra_regressors := regressors_added |}.

Definition demand_history (df : list row) : list hrow :=
  map (fun r => HRow (ds r) (cell "demand" r) (cells r)) df.

(** Lines 130-352: the body of the inner [try]. *)
Definition demand_forecast (data historical_data location_id model_id : json)
    : M (response demand_body) :=
  df <- lift (DataFrame env historical_data) ;;
  y <- lift (if has_column df "demand" then Ok (map (cell "demand") df)
             else Raise (KeyError "demand")) ;;
  if existsb Py.isnull y
  then
    let null_dates := map ds (List.filter (fun r => Py.isnull (cell "demand" r)) df) in
    ret (Failure 400 (MissingDemandValues (length null_dates) (firstn 3 null_dates)))
  else if negb (forallb (fun v => negb (Py.isnull v)) (to_numeric env y))
  then ret (Failure 400 NonNumericDemand)
  else
    density <- lift (density df) ;;
    if Float.lt density density_threshold
    then ret (Failure 400 (InsufficientDensity density))
    else
      find_gaps_demand df ;;
      future_periods <- lift (Py.get data "futurePeriods" (JInt 90)) ;;
      ' (regressors_added, future_regressors) <-
        resolve_regressors data df future_periods location_id ;;
      let cfg := demand_config regressors_added in
      let history := demand_history df in
      fit cfg history ;;
      n <- lift (as_int future_periods) ;;
      future <- lift (make_future_dataframe history n false) ;;
      columns <- attach_regressors (length future) future_regressors ;;
      fc <- predict cfg history {| fut_ds := future; fut_x := columns |} ;;
      let plot_url := render_plot env cfg fc in
      ' (seasonality_strength, trend_strength) <- demand_strengths fc ;;
      start <- lift (strftime (Ts.min (map ds df))) ;;
      stop <- lift (strftime (Ts.max (map ds df))) ;;
      ret (Success
        {| forecast := forecast_result fc;
           plot := plot_url;
           locationId := location_id;
           modelId := model_id;
           confidenceInterval := 95 # 100;
           seasonalityStrength := Float.min seasonality_strength (PFin 1);
           trendStrength := Float.min trend_strength (PFin 1);
           futureRegressors_mti := regressor_get future_regressors "mti";
           futureRegressors_inflation := regressor_get future_regressors "inflation";
           dataPoints := length df;
           dateRange_start := start;
           dateRange_end := stop;
           regressorsUsed := regressors_added;
           futurePeriods := future_periods;
           generatedRegressors := map fst future_regressors |}).

(** Lines 109-128: the body of the outer [try] up to the inner one. *)
Definition demand_request (data : json) : M (response demand_body) :=
  hd <- lift (Py.get data "historicalData" (JList [])) ;;
  lift (Py.len hd) ;;
  validation_issues <- lift (validate_demand_input data) ;;
  match validation_issues with
  | _ :: _ => ret (Failure 400 (InvalidInput validation_issues))
  | [] =>
      historical_data <- lift (Py.getitem data "historicalData") ;;
      location_id <- lift (Py.getitem data "locationId") ;;
      model_id <- lift (Py.getitem data "modelId") ;;
      try_except (demand_forecast data historical_data location_id model_id)
        (fun e => ret (data_processing_handler e))
  end.

Definition predict_demand (data : json) : response demand_body * list event :=
  handle (demand_request data) fatal_handler.

(** *** [predict_supplier_performance] *)

Definition supplier_config (scale : Q) : prophet_config :=
  {| interval_width := Some (95 # 100);
     yearly_seasonality := Some true;
     weekly_seasonality := Some true;
     daily_seasonality := Some false;
     changepoint_prior_scale := Some scale;
     extra_regressors := [] |}.

(** [df[["ds", column]].copy()] with [y] set to the column. *)
Definition metric_frame (df : list row) (column : string) : result (list hrow) :=
  if has_column df column
  then Ok (map (fun r => HRow (ds r) (cell column r) {[ column := cell column r ]}) df)
  else Raise (KeyError column).

(** [frame.dropna(subset=["y"])] *)
Definition dropna (frame : list hrow) : list hrow :=
  List.filter (fun r => negb (Py.isnull (h_y r))) frame.

Fixpoint set_y (frame : list hrow) (y : list json) : list hrow :=
  match frame, y with
  | r :: frame', v :: y' => HRow (h_ds r) v (h_x r) :: set_y frame' y'
  | _, _ => []
  end.

(** Lines 483-490 and 538-545: the cleaning step of one metric. *)
Definition clean_metric (column : string) (frame : list hrow) : M (list hrow) :=
  frame <- (if existsb (fun r => Py.isnull (h_y r)) frame
            then
              emit (Warn (NullValues column
                      (length (List.filter (fun r => Py.isnull (h_y r)) frame)))) ;;
              ret (dropna frame)
            else ret frame) ;;
  let coerced := to_numeric env (map h_y frame) in
  if negb (forallb (fun v => negb (Py.isnull v)) coerced)
  then
    emit (Warn (NonNumericValues column)) ;;
    ret (dropna (set_y frame coerced))
  else ret frame.

(** Lines 477-530 for the quality rating and 532-585 for the lead time
    reliability: the two blocks differ in the column and in the
    changepoint scale only. *)
Definition metric_forecast (df : list row) (column : string) (scale : Q)
    (future_periods : json) : M (list forecast_point * string * forecast_frame) :=
  frame <- lift (metric_frame df column) ;;
  frame <- clean_metric column frame ;;
  let cfg := supplier_config scale in
  fit cfg frame ;;
  n <- lift (as_int future_periods) ;;
  future <- lift (make_future_dataframe frame n false) ;;
  fc <- predict cfg frame {| fut_ds := future; fut_x := [] |} ;;
  ret (clamped_forecast fc, render_plot env cfg fc, fc).

(** Lines 444-654: the body of the inner [try]. *)
Definition supplier_forecast (historical_data future_periods supplier_id : json)
    : M (response supplier_body) :=
  df <- lift (DataFrame env historical_data) ;;
  density <- lift (density df) ;;
  when (Float.lt density density_threshold) (emit (Warn (LowDensity density))) ;;
  find_gaps_supplier df ;;
  ' (quality_forecast, quality_plot_url, quality_fc) <-
    metric_forecast df "qualityRating" (5 # 100) future_periods ;;
  ' (lead_time_forecast, lead_time_plot_url, lead_time_fc) <-
    metric_forecast df "leadTimeReliability" (1 # 10) future_periods ;;
  ' (seasonality_strength, trend_strength) <- supplier_strengths quality_fc lead_time_fc ;;
  start <- lift (strftime (Ts.min (map ds df))) ;;
  stop <- lift (strftime (Ts.max (map ds df))) ;;
  ret (Success
    {| supplierId := supplier_id;
       qualityForecast := quality_forecast;
       leadTimeForecast := lead_time_forecast;
       s_confidenceInterval := 95 # 100;
       s_seasonalityStrength := seasonality_strength;
       s_trendStrength := trend_strength;
       plot_quality := quality_plot_url;
       plot_leadTime := lead_time_plot_url;
       s_dataPoints := length df;
       s_dateRange_start := start;
       s_dateRange_end := stop;
       s_futurePeriods := future_periods |}).

(** Lines 423-442: the body of the outer [try] up to the inner one. *)
Definition supplier_request (data : json)
    : M (response supplier_body) :=
  lift (Py.get data "supplierId" JNull) ;;
  hd <- lift (Py.get data "historicalData" (JList [])) ;;
  lift (Py.len hd) ;;
  validation_issues <- lift (validate_supplier_performance_input data) ;;
  match validation_issues with
  | _ :: _ => ret (Failure 400 (InvalidInput validation_issues))
  | [] =>
      historical_data <- lift (Py.getitem data "historicalData") ;;
      future_periods <- lift (Py.get data "futurePeriods" (JInt 90)) ;;
      supplier_id <- lift (Py.getitem data "supplierId") ;;
      try_except (supplier_forecast historical_data future_periods supplier_id)
        (fun e => ret (data_processing_handler e))
  end.

Definition predict_supplier_performance (data : json)
    : response supplier_body * list event :=
  handle (supplier_request data) fatal_handler.

End Handlers.

(** ** A small environment to run the handlers

    ISO dates, a parser of integer literals and an engine that continues
    the last step of the history.  The theorems do not depend on it; the examples do. *)

Module Naive.

Definition digit (a : ascii) : option Z :=
  let n := Z.of_N (N_of_ascii a) in
  if (48 <=? n) && (n <=? 57) then Some (n - 48) else None.

Fixpoint digits (acc : Z) (s : string) : option Z :=
  match s with
  | EmptyString => Some acc
  | String a s' =>
      match digit a with
      | Some d => digits (10 * acc + d) s'
      | None => None
      end
  end.

Definition number (s : string) : option Z :=
  match s with
  | EmptyString => None
  | String "-" s' => if String.eqb s' "" then None else Z.opp <$> digits 0 s'
  | _ => digits 0 s
  end.

(** Days between 1970-01-01 and the given civil date. *)
Definition days_from_civil (y m d : Z) : Z :=
  let y := if m <=? 2 then y - 1 else y in
  let era := y / 400 in
  let yoe := y mod 400 in
  let doy := (153 * (if 2 <? m then m - 3 else m + 9) + 2) / 5 + d - 1 in
  let doe := yoe * 365 + yoe / 4 - yoe / 100 + doy in
  era * 146097 + doe - 719468.

(** ["YYYY-MM-DD"] *)
Definition iso_date (s : string) : option Z :=
  if negb (Nat.eqb (String.length s) 10) then None
  else
    match digits 0 (substring 0 4 s), digits 0 (substring 5 2 s),
          digits 0 (substring 8 2 s) with
    | Some y, Some m, Some d =>
        if String.eqb (substring 4 1 s) "-" && String.eqb (substring 7 1 s) "-"
           && (1 <=? m) && (m <=? 12) && (1 <=? d) && (d <=? 31)
        then Some (days_from_civil y m d * day_ns)
        else None
    | _, _, _ => None
    end.

Fixpoint to_datetime (col : list json) : result (list (option Z)) :=
  match col with
  | [] => Ok []
  | c :: col' =>
      (let? t := match c with
                 | JStr s =>
                     match iso_date s with
                     | Some t => Ok (Some t)
                     | None => Raise (ValueError "Unknown datetime string format")
                     end
                 | JInt z => Ok (Some z)
                 | JNull => Ok None
                 | JFloat PNaN => Ok None
                 | _ => Raise (TypeError "is not convertible to datetime")
                 end in
       let? rest := to_datetime col' in
       Ok (t :: rest))%result
  end.

Definition to_numeric (col : list json) : list json :=
  map (fun c =>
         match c with
         | JInt _ | JFloat _ => c
         | JBool b => JInt (Z.b2z b)
         | JStr s => match number s with Some z => JInt z | None => JFloat PNaN end
         | _ => JFloat PNaN
         end) col.

Definition number_of (c : json) : option pyfloat :=
  match c with
  | JInt z => Some (Float.of_Z z)
  | JBool b => Some (Float.of_Z (Z.b2z b))
  | JFloat f => Some f
  | _ => None
  end.

Definition float_eqb (x y : pyfloat) : bool :=
  match x, y with
  | PNaN, PNaN => true
  | PInf s, PInf s' => Bool.eqb s s'
  | PFin a, PFin b => Qeq_bool a b
  | _, _ => false
  end.

(** Equality of two cells, [None] on a cell that is a list or a dict. *)
Definition scalar_eqb (a b : json) : option bool :=
  match a, b with
  | JList _, _ | JDict _, _ | _, JList _ | _, JDict _ => None
  | JStr s, JStr s' => Some (String.eqb s s')
  | JNull, JNull => Some true
  | _, _ =>
      match number_of a, number_of b with
      | Some x, Some y => Some (float_eqb x y)
      | _, _ => Some false
      end
  end.

Definition same_pair (p q : option Z * json) : option bool :=
  match scalar_eqb (snd p) (snd q) with
  | Some b => Some (bool_decide (fst p = fst q) && b)
  | None => None
  end.

Fixpoint seen_in (p : option Z * json) (seen : list (option Z * json)) : option bool :=
  match seen with
  | [] => Some false
  | q :: seen' =>
      match same_pair p q, seen_in p seen' with
      | Some b, Some b' => Some (b || b')
      | _, _ => None
      end
  end.

Fixpoint duplicated_from (seen rows : list (option Z * json)) : result (list bool) :=
  match rows with
  | [] => Ok []
  | p :: rows' =>
      match seen_in p seen, scalar_eqb (snd p) (snd p) with
      | Some b, Some _ =>
          (let? rest := duplicated_from (seen ++ [p]) rows' in Ok (b :: rest))%result
      | _, _ => Raise (TypeError "unhashable type")
      end
  end.

Fixpoint column_eq (col : list json) (v : json) : result (list bool) :=
  match col with
  | [] => Ok []
  | c :: col' =>
      match scalar_eqb c v with
      | Some b => (let? rest := column_eq col' v in Ok (b :: rest))%result
      | None => Raise (ValueError "Lengths must match to compare")
      end
  end.

Definition set_scalar (v : json) (n : nat) : result (list json) :=
  match v with
  | JDict _ => Ok (repeat (JFloat PNaN) n)
  | _ => Ok (repeat v n)
  end.

Definition finite (x : pyfloat) : option Q :=
  match x with PFin q => Some q | _ => None end.

Definition Qsum (l : list Q) : Q := fold_right Qplus 0%Q l.

(** Square root of a non-negative rational, rounded down to nine
    decimals. *)
Definition Qsqrt (q : Q) : Q :=
  Z.sqrt (Qnum q * 10 ^ 18 / Z.pos (Qden q)) # 10 ^ 9.

(** Sample standard deviation: NaN below two values. *)
Definition std (l : list pyfloat) : pyfloat :=
  match mapM finite l with
  | Some ((_ :: _ :: _) as xs) =>
      let n := inject_Z (Z.of_nat (length xs)) in
      let mean := (Qsum xs / n)%Q in
      let var := (Qsum (map (fun x => (x - mean) * (x - mean)) xs) / (n - 1))%Q in
      PFin (Qred (Qsqrt (Qred var)))
  | Some _ => PNaN
  | None => PNaN
  end.

Definition usable (r : hrow) : bool := negb (Py.isnull (h_y r)).

(** [fit] refuses a history with fewer than two usable rows or a [NaT]. *)
Definition prophet_fit (cfg : prophet_config) (history : list hrow) : option exn :=
  let rows := List.filter usable history in
  if (length rows <? 2)%nat
  then Some (ValueError "Dataframe has less than 2 non-NaN rows.")
  else if existsb (fun r => negb (bool_decide (is_Some (h_ds r)))) rows
  then Some (ValueError "Found NaN in column ds.")
  else None.

Definition values (history : list hrow) : list pyfloat :=
  omap (fun r => number_of (h_y r)) (List.filter usable history).

(** The last observation and the last step. *)
Definition last_value (history : list hrow) : pyfloat :=
  default (PFin 0) (last (values history)).

Definition last_step (history : list hrow) : pyfloat :=
  match rev (values history) with
  | PFin b :: PFin a :: _ => PFin (b - a)
  | _ => PFin 0
  end.

Definition times (k : Z) (x : pyfloat) : pyfloat :=
  match x with
  | PFin q => PFin (inject_Z k * q)
  | _ => x
  end.

Definition shift (x : pyfloat) (d : Q) : pyfloat :=
  Float.add x (PFin d).

Fixpoint rows_for (y step : pyfloat) (k : Z) (future : list (option Z))
    : result (list frow) :=
  match future with
  | [] => Ok []
  | Some t :: future' =>
      (let? rest := rows_for y step (k + 1) future' in
       let v := Float.add y (times k step) in
       Ok ({| f_ds := t; yhat := v; yhat_lower := shift v (-1); yhat_upper := shift v 1 |}
             :: rest))%result
  | None :: _ => Raise (ValueError "Found NaN in column ds.")
  end.

(** A forecast that continues the last step of the history; the trend is
    the forecast itself, and the yearly component is present, and flat,
    when it was asked for. *)
Definition prophet_predict (cfg : prophet_config) (history : list hrow)
    (future : future_frame) : result forecast_frame :=
  (let? rows := rows_for (last_value history) (last_step history) 1 (fut_ds future) in
   Ok {| frows := rows;
         trend := Some (map yhat rows);
         yearly := match yearly_seasonality cfg with
                   | Some true => Some (map (fun _ => PFin 0) rows)
                   | _ => None
                   end |})%result.

Definition env : Env :=
  Build_Env (fun _ => TypeError "not a record") to_datetime to_numeric
    (duplicated_from []) column_eq set_scalar std prophet_fit prophet_predict
    (fun _ _ => "").

(** Building requests. *)
Definition obj (kv : list (string * json)) : json := JDict (list_to_map kv).

End Naive.

(** ** Requests used in the examples *)

Module Example.

Import Naive.

Definition point (d : string) (demand : json) (more : list (string * json)) : json :=
  obj ([("date", JStr d); ("demand", demand)] ++ more).

Definition demand (points : list json) (periods : Z) (more : list (string * json)) : json :=
  obj ([("historicalData", JList points); ("futurePeriods", JInt periods);
        ("locationId", JStr "L"); ("modelId", JStr "M")] ++ more).

Definition three_days : list json :=
  [point "2024-01-01" (JInt 1) []; point "2024-01-02" (JInt 2) [];
   point "2024-01-03" (JInt 3) []].

(** Records with both regressors, and future values for both. *)
Definition both_supplied : json :=
  demand
    [point "2024-01-01" (JInt 1) [("mti", JInt 5); ("inflation", JInt 2)];
     point "2024-01-02" (JInt 2) [("mti", JInt 6); ("inflation", JInt 2)];
     point "2024-01-03" (JInt 3) [("mti", JInt 7); ("inflation", JInt 2)]]
    2
    [("futureRegressors",
      obj [("mti", JList [JInt 8; JInt 9]); ("inflation", JList [JInt 9; JInt 9])])].

(** Records with [mti], and future values for it. *)
Definition supplied_mti : json :=
  demand
    [point "2024-01-01" (JInt 1) [("mti", JInt 5)];
     point "2024-01-02" (JInt 2) [("mti", JInt 6)];
     point "2024-01-03" (JInt 3) [("mti", JInt 7)]]
    2
    [("futureRegressors", obj [("mti", JList [JInt 8; JInt 9])])].

(** Records with [mti] and no future values. *)
Definition declared_mti : json :=
  demand
    [point "2024-01-01" (JInt 1) [("mti", JInt 5)];
     point "2024-01-02" (JInt 2) [("mti", JInt 6)];
     point "2024-01-03" (JInt 3) [("mti", JInt 7)]]
    2 [].

(** Three daily rows of a frame with an [mti] column. *)
Definition mti_rows : list row :=
  [Row 0 (Some 0) {[ "mti" := JInt 5 ]};
   Row 1 (Some day_ns) {[ "mti" := JInt 6 ]};
   Row 2 (Some (2 * day_ns)) {[ "mti" := JInt 7 ]}].

(** Two rows ten days apart. *)
Definition ten_days_apart : list row :=
  [Row 0 (Some 0) {[ "demand" := JInt 1 ]};
   Row 1 (Some (10 * day_ns)) {[ "demand" := JInt 2 ]}].

(** The frame the example environment builds for a request. *)
Definition frame (data : json) : list row :=
  match Py.getitem data "historicalData" with
  | Ok hd => match DataFrame Naive.env hd with Ok df => df | Raise _ => [] end
  | Raise _ => []
  end.

(** Two observations in nine days. *)
Definition sparse_demand : json :=
  demand [point "2024-01-01" (JInt 1) []; point "2024-01-09" (JInt 2) []] 2 [].

(** A missing demand value, and a demand value that is not a number. *)
Definition null_demand : json :=
  demand [point "2024-01-01" (JInt 1) []; point "2024-01-02" JNull [];
          point "2024-01-03" (JInt 3) []] 2 [].

Definition text_demand : json :=
  demand [point "2024-01-01" (JInt 1) []; point "2024-01-02" (JStr "many") [];
          point "2024-01-03" (JInt 3) []] 2 [].

(** Ten observations on the first day and one on the tenth. *)
Definition repeated_dates : json :=
  demand (repeat (point "2024-01-01" (JInt 1) []) 10 ++ [point "2024-01-10" (JInt 2) []])
    2 [].

(** The tenth-day observation sent first: the frame is not in order. *)
Definition unsorted_gap : json :=
  demand (point "2024-01-10" (JInt 2) [] :: repeat (point "2024-01-01" (JInt 1) []) 10)
    2 [].

(** A demand request with everything but [locationId]. *)
Definition no_location : json :=
  obj [("historicalData", JList three_days); ("futurePeriods", JInt 2);
       ("modelId", JStr "M")].

(** A demand request without [futurePeriods] whose [historicalData] is
    [null]. *)
Definition null_history : json :=
  obj [("historicalData", JNull); ("locationId", JStr "L"); ("modelId", JStr "M")].

Definition rating (d : string) (quality lead_time : json) : json :=
  obj [("date", JStr d); ("qualityRating", quality); ("leadTimeReliability", lead_time)].

Definition supplier (points : list json) (periods : Z) : json :=
  obj [("historicalData", JList points); ("futurePeriods", JInt periods);
       ("supplierId", JStr "S")].

(** Ratings outside [[0, 1]], a missing quality rating, a lead time that
    is not a number, and twenty days without data. *)
Definition sparse_ratings : json :=
  supplier [rating "2024-01-01" (JInt 1) (JInt 2);
            rating "2024-01-02" JNull (JStr "late");
            rating "2024-01-22" (JInt 5) (JInt (-3));
            rating "2024-01-23" (JInt 5) (JInt (-3))] 2.

(** A quality rating that rises by one a day and a lead time that does
    not move. *)
Definition rising_quality : json :=
  supplier [rating "2024-01-01" (JInt 0) (JInt 1);
            rating "2024-01-02" (JInt 1) (JInt 1);
            rating "2024-01-03" (JInt 2) (JInt 1)] 3.

End Example.

(** ** Definitions used to state the properties *)

(** A demand request that passes validation and names its location and
    model, with the frame built from it. *)
Definition demand_checked (env : Env) (data : json) (df : list row) : Prop :=
  exists d points,
    data = JDict d /\
    d !! "historicalData" = Some (JList points) /\
    validate_demand_input data = Ok [] /\
    is_Some (d !! "locationId") /\
    is_Some (d !! "modelId") /\
    DataFrame env (JList points) = Ok df /\
    has_column df "demand" = true.

(** A supplier request that passes validation, with the frame built from
    it. *)
Definition supplier_checked (env : Env) (data : json) (df : list row) : Prop :=
  exists d points,
    data = JDict d /\
    d !! "historicalData" = Some (JList points) /\
    validate_supplier_performance_input data = Ok [] /\
    is_Some (d !! "supplierId") /\
    DataFrame env (JList points) = Ok df.

(** The body of a response that is a success. *)
Definition from_success {B} (dflt : B) (r : response B) : B :=
  match r with
  | Success body => body
  | Failure _ _ => dflt
  end.

(** The engine was not invoked: the log has no [Fit] and no [Predict]. *)
Definition engine_call (e : event) : bool :=
  match e with
  | Fit _ _ | Predict _ _ => true
  | _ => false
  end.

Definition engine_untouched (log : list event) : Prop :=
  List.filter engine_call log = [].

(** One gap for each pair of consecutive timestamps more than seven days
    apart, in the words of the specification. *)
Fixpoint gap_events_from (prev : option Z) (l : list (option Z)) : list warning :=
  match l with
  | [] => []
  | t :: l' =>
      (if Ts.exceeds_days (Ts.sub t prev) 7
       then [Gap prev t (Ts.days (Ts.sub t prev))] else [])
      ++ gap_events_from t l'
  end.

Definition gap_events (l : list (option Z)) : list warning :=
  match l with
  | [] => []
  | t :: l' => gap_events_from t l'
  end.

(** What the gap step logs for a list of gaps: nothing when there is none,
    else their number, followed in the demand handler by one line each. *)
Definition gap_log (with_lines : bool) (gaps : list warning) : list event :=
  match gaps with
  | [] => []
  | _ :: _ =>
      Warn (GapsFound (length gaps)) :: (if with_lines then map Warn gaps else [])
  end.

(** A series in ascending order, [NaT] last. *)
Fixpoint ascending_from (prev : option Z) (l : list (option Z)) : bool :=
  match l with
  | [] => true
  | t :: l' => Ts.le prev t && ascending_from t l'
  end.

Definition ascending (l : list (option Z)) : bool :=
  match l with
  | [] => true
  | t :: l' => ascending_from t l'
  end.

(** The labels of a frame right after its construction. *)
Definition range_index (df : list row) : Prop :=
  map label df = seq 0 (length df).

(** The strength of one component as the specification words it: the
    capped absolute ratio when both deviations are defined and that of the
    forecast is positive, [0.0] otherwise. *)
Definition defined_ratio (component_std yhat_std : pyfloat) : bool :=
  notnull component_std && notnull yhat_std && Float.gt yhat_std (PFin 0).

Definition ratio_strength (cap : pyfloat -> pyfloat) (component_std yhat_std : pyfloat)
    : pyfloat :=
  if defined_ratio component_std yhat_std
  then cap (Float.abs (Float.div_nz component_std yhat_std))
  else PFin 0.

(** [min(x, 1.0)] of the demand handler and [min(1.0, x)] of the supplier
    handler. *)
Definition demand_cap (x : pyfloat) : pyfloat := Float.min x (PFin 1).
Definition supplier_cap (x : pyfloat) : pyfloat := Float.min (PFin 1) x.

Definition infinite (x : pyfloat) : bool :=
  match x with PInf _ => true | _ => false end.

(** Number of calendar days of the span that hold an observation. *)
Definition observed_days (df : list row) : nat :=
  length (remove_dups (omap (fun r => (fun t => t / day_ns) <$> ds r) df)).

(** The three fields of a forecast row are in [[0, 1]]. *)
Definition point_in_unit (p : forecast_point) : Prop :=
  Float.in_unit (value p) = true /\
  Float.in_unit (lower p) = true /\
  Float.in_unit (upper p) = true.

(** A gap of more than seven days. *)
Definition wide (g : nat * option Z) : bool := Ts.exceeds_days (snd g) 7.

(** Every entry a step writes to the log satisfies [P]. *)
Definition logs (P : event -> Prop) {A} (m : M A) : Prop := Forall P (snd m).

Definition is_warning (e : event) : Prop :=
  match e with Warn _ => True | _ => False end.

Definition is_error_line (e : event) : Prop :=
  match e with LogError _ => True | _ => False end.

(** ** Runs

    The records below name what a run that ended normally went through;
    the theorems read the response and the log off them. *)

(** A run of [predict_regressor] that returned. *)
Record regressor_run (env : Env) (historical_df : list row) (regressor_name : string)
    (periods : json) (location_id : json) (values : list pyfloat) (log : list event) := {
  rr_df : list row;
  rr_n : Z;
  rr_future : list (option Z);
  rr_fc : forecast_frame;
  rr_history := map (fun r => HRow (ds r) (cell regressor_name r) ∅) rr_df;
  rr_scope :
    if Py.truthy location_id && has_column historical_df "locationId"
    then exists mask,
        column_eq env (map (cell "locationId") historical_df) location_id = Ok mask /\
        rr_df = select true mask historical_df
    else rr_df = historical_df;
  rr_fit : prophet_fit env regressor_config rr_history = None;
  rr_as_int : as_int periods = Ok rr_n;
  rr_future_eq : make_future_dataframe rr_history rr_n true = Ok rr_future;
  rr_predict :
    prophet_predict env regressor_config rr_history
      {| fut_ds := rr_future; fut_x := [] |} = Ok rr_fc;
  rr_values : values = future_values (Ts.max (map h_ds rr_history)) rr_fc;
  rr_log :
    log = [CallPredictRegressor regressor_name;
           Fit regressor_config rr_history;
           Predict regressor_config {| fut_ds := rr_future; fut_x := [] |}] }.

(** How [future_regressors] got its entries: [mti] is taken from the
    request when the request has it, and projected otherwise; [inflation]
    is always projected. *)
Inductive mti_resolution (env : Env) (data : json) (df : list row) (periods : json)
  : list (string * json) -> list event -> Prop :=
| MtiAbsent :
    has_column df "mti" = false ->
    mti_resolution env data df periods [] []
| MtiSupplied fr v :
    has_column df "mti" = true ->
    mti_supplied data = Ok true ->
    Py.getitem data "futureRegressors" = Ok fr ->
    Py.getitem fr "mti" = Ok v ->
    mti_resolution env data df periods [("mti", v)] []
| MtiProjected mti_data values log :
    has_column df "mti" = true ->
    mti_supplied data = Ok false ->
    all_mti_data env df = (Ok mti_data, []) ->
    regressor_run env mti_data "mti" periods JNull values log ->
    mti_resolution env data df periods [("mti", projected values)] log.

Inductive inflation_resolution (env : Env) (df : list row) (periods location_id : json)
  : list (string * json) -> list event -> Prop :=
| InflationAbsent :
    has_column df "inflation" = false ->
    inflation_resolution env df periods location_id [] []
| InflationProjected values log :
    has_column df "inflation" = true ->
    regressor_run env df "inflation" periods location_id values log ->
    inflation_resolution env df periods location_id [("inflation", projected values)] log.

(** A successful run of [predict_demand]: the values of the steps on the
    path to the 200 response, and the log they wrote. *)
Record demand_run (env : Env) (data : json) (body : demand_body) (log : list event) := {
  dr_historical_data : json;
  dr_df : list row;
  dr_density : pyfloat;
  dr_future : list (option Z);
  dr_regressors : list string * list (string * json);
  dr_columns : list (string * list json);
  dr_fc : forecast_frame;
  dr_strengths : pyfloat * pyfloat;
  dr_log_gaps : list event;
  dr_log_regressors : list event;
  dr_log_attach : list event;
  dr_log_strengths : list event;
  dr_periods : Z;
  dr_validated : validate_demand_input data = Ok [];
  dr_get_data : Py.getitem data "historicalData" = Ok dr_historical_data;
  dr_get_location : Py.getitem data "locationId" = Ok (locationId body);
  dr_get_model : Py.getitem data "modelId" = Ok (modelId body);
  dr_frame : DataFrame env dr_historical_data = Ok dr_df;
  dr_no_null : existsb Py.isnull (map (cell "demand") dr_df) = false;
  dr_numeric :
    forallb (fun v => negb (Py.isnull v)) (to_numeric env (map (cell "demand") dr_df)) = true;
  dr_density_eq : density dr_df = Ok dr_density;
  dr_dense : Float.lt dr_density density_threshold = false;
  dr_gaps : find_gaps_demand dr_df = (Ok tt, dr_log_gaps);
  dr_get_periods : Py.get data "futurePeriods" (JInt 90) = Ok (futurePeriods body);
  dr_resolve :
    resolve_regressors env data dr_df (futurePeriods body) (locationId body)
    = (Ok dr_regressors, dr_log_regressors);
  dr_fit : prophet_fit env (demand_config dr_regressors.1) (demand_history dr_df) = None;
  dr_as_int : as_int (futurePeriods body) = Ok dr_periods;
  dr_future_eq : make_future_dataframe (demand_history dr_df) dr_periods false = Ok dr_future;
  dr_attach :
    attach_regressors env (length dr_future) dr_regressors.2 = (Ok dr_columns, dr_log_attach);
  dr_predict :
    prophet_predict env (demand_config dr_regressors.1) (demand_history dr_df)
      {| fut_ds := dr_future; fut_x := dr_columns |} = Ok dr_fc;
  dr_strengths_eq : demand_strengths env dr_fc = (Ok dr_strengths, dr_log_strengths);
  dr_forecast : forecast body = forecast_result dr_fc;
  dr_seasonality : seasonalityStrength body = Float.min dr_strengths.1 (PFin 1);
  dr_trend : trendStrength body = Float.min dr_strengths.2 (PFin 1);
  dr_mti : futureRegressors_mti body = regressor_get dr_regressors.2 "mti";
  dr_inflation : futureRegressors_inflation body = regressor_get dr_regressors.2 "inflation";
  dr_used : regressorsUsed body = dr_regressors.1;
  dr_generated : generatedRegressors body = map fst dr_regressors.2;
  dr_points : dataPoints body = length dr_df;
  dr_log :
    log = dr_log_gaps ++ dr_log_regressors
          ++ [Fit (demand_config dr_regressors.1) (demand_history dr_df)]
          ++ dr_log_attach
          ++ [Predict (demand_config dr_regressors.1)
                {| fut_ds := dr_future; fut_x := dr_columns |}]
          ++ dr_log_strengths }.

(** A successful run of the forecast of one supplier metric. *)
Record metric_run (env : Env) (df : list row) (column : string) (scale : Q)
    (future_periods : json) (points : list forecast_point) (fc : forecast_frame)
    (log : list event) := {
  mr_frame : list hrow;
  mr_cleaned : list hrow;
  mr_log_clean : list event;
  mr_periods : Z;
  mr_future : list (option Z);
  mr_frame_eq : metric_frame df column = Ok mr_frame;
  mr_clean : clean_metric env column mr_frame = (Ok mr_cleaned, mr_log_clean);
  mr_fit : prophet_fit env (supplier_config scale) mr_cleaned = None;
  mr_as_int : as_int future_periods = Ok mr_periods;
  mr_future_eq : make_future_dataframe mr_cleaned mr_periods false = Ok mr_future;
  mr_predict :
    prophet_predict env (supplier_config scale) mr_cleaned
      {| fut_ds := mr_future; fut_x := [] |} = Ok fc;
  mr_points : points = clamped_forecast fc;
  mr_log :
    log = mr_log_clean ++ [Fit (supplier_config scale) mr_cleaned]
          ++ [Predict (supplier_config scale) {| fut_ds := mr_future; fut_x := [] |}] }.

(** A successful run of [predict_supplier_performance]. *)
Record supplier_run (env : Env) (data : json) (body : supplier_body) (log : list event) := {
  sr_historical_data : json;
  sr_df : list row;
  sr_density : pyfloat;
  sr_quality_fc : forecast_frame;
  sr_lead_time_fc : forecast_frame;
  sr_log_gaps : list event;
  sr_log_quality : list event;
  sr_log_lead_time : list event;
  sr_log_strengths : list event;
  sr_validated : validate_supplier_performance_input data = Ok [];
  sr_get_data : Py.getitem data "historicalData" = Ok sr_historical_data;
  sr_get_periods : Py.get data "futurePeriods" (JInt 90) = Ok (s_futurePeriods body);
  sr_get_supplier : Py.getitem data "supplierId" = Ok (supplierId body);
  sr_frame : DataFrame env sr_historical_data = Ok sr_df;
  sr_density_eq : density sr_df = Ok sr_density;
  sr_gaps : find_gaps_supplier sr_df = (Ok tt, sr_log_gaps);
  sr_quality :
    metric_run env sr_df "qualityRating" (5 # 100) (s_futurePeriods body)
      (qualityForecast body) sr_quality_fc sr_log_quality;
  sr_lead_time :
    metric_run env sr_df "leadTimeReliability" (1 # 10) (s_futurePeriods body)
      (leadTimeForecast body) sr_lead_time_fc sr_log_lead_time;
  sr_strengths :
    supplier_strengths env sr_quality_fc sr_lead_time_fc
    = (Ok (s_seasonalityStrength body, s_trendStrength body), sr_log_strengths);
  sr_log :
    log = (if Float.lt sr_density density_threshold then [Warn (LowDensity sr_density)] else [])
          ++ sr_log_gaps ++ sr_log_quality ++ sr_log_lead_time ++ sr_log_strengths }.

(** ** [generate_mti_projections]

    The function is not called by the two operations.  Its argument is read
    by column, [historical_mti["date"]] and [historical_mti["mti"]], so it is
    modelled as a mapping from column names to columns.  The dates go
    through [pd.to_datetime] alone, without the time zone step of the
    handlers: the parser is an argument of its own. *)

Definition getcol (columns : gmap string (list json)) (name : string) : result (list json) :=
  match columns !! name with
  | Some c => Ok c
  | None => Raise (KeyError name)
  end.

(** [pd.DataFrame({"ds": ds, "y": y})] *)
Definition two_columns (ds : list (option Z)) (y : list json) : result (list hrow) :=
  if Nat.eqb (length ds) (length y)
  then Ok (zip_with (fun t v => HRow t v ∅) ds y)
  else Raise (ValueError "All arrays must be of the same length").

(** The default of the parameter [periods]. *)
Definition default_periods : json := JInt 90.

Definition generate_mti_projections (env : Env)
    (pd_to_datetime : list json -> result (list (option Z)))
    (historical_mti : gmap string (list json)) (periods : option json)
    : M (list pyfloat) :=
  (let periods := default default_periods periods in
   date_col <- lift (getcol historical_mti "date") ;;
   dates <- lift (pd_to_datetime date_col) ;;
   y <- lift (getcol historical_mti "mti") ;;
   df <- lift (two_columns dates y) ;;
   fit env regressor_config df ;;
   n <- lift (as_int periods) ;;
   future <- lift (make_future_dataframe df n true) ;;
   fc <- predict env regressor_config df {| fut_ds := future; fut_x := [] |} ;;
   ret (future_values (Ts.max (map h_ds df)) fc))%monad.

(** The frame with the columns [ds] and [mti] that holds the same series. *)
Definition mti_frame (dates : list (option Z)) (y : list json) : list row :=
  zip_with (fun t v => Row 0 t {[ "mti" := v ]}) dates y.

(** ** Start-up (the [__main__] block)

    [app.run] serves until the server stops, or raises; the loop catches
    [OSError] only. *)

Inductive run_outcome :=
| Stopped
| RaisedOSError (what : string)
| RaisedOther (e : exn).

Inductive main_line :=
| Starting (port : Z)
| PortInUse (port : Z)
| AllPortsInUse (ports : list Z).

Inductive main_result :=
| Served (port : Z)
| Reraised (port : Z) (what : string)
| Propagated (port : Z) (e : exn)
| Exhausted.

(** [for port in ports: ...], with [ports[-1]] read from the whole list. *)
Fixpoint try_ports (app_run : Z -> run_outcome) (ports : list Z) (remaining : list Z)
    : main_result * list main_line :=
  match remaining with
  | [] => (Exhausted, [])
  | port :: remaining' =>
      match app_run port with
      | Stopped => (Served port, [Starting port])
      | RaisedOther e => (Propagated port e, [Starting port])
      | RaisedOSError what =>
          if bool_decide (last ports = Some port)
          then (Reraised port what, [Starting port; AllPortsInUse ports])
          else
            let '(r, lines) := try_ports app_run ports remaining' in
            (r, Starting port :: PortInUse port :: lines)
      end
  end.

Definition ports : list Z := [5001; 5002; 5000].

Definition main (app_run : Z -> run_outcome) : main_result * list main_line :=
  try_ports app_run ports ports.

(** ** More definitions used to state the properties *)

(** [app.run] found the port taken. *)
Definition in_use (o : run_outcome) : bool :=
  match o with RaisedOSError _ => true | _ => false end.

(** What the loop ends with on the port it stops at. *)
Definition outcome_on (port : Z) (o : run_outcome) : main_result :=
  match o with
  | Stopped => Served port
  | RaisedOSError what => Reraised port what
  | RaisedOther e => Propagated port e
  end.

(** The ports in front of the first one that is not in use. *)
Fixpoint busy_prefix (app_run : Z -> run_outcome) (l : list Z) : list Z :=
  match l with
  | [] => []
  | port :: l' => if in_use (app_run port) then port :: busy_prefix app_run l' else []
  end.

(** The lines of the ports that were tried and found in use. *)
Definition tried_lines (l : list Z) : list main_line :=
  flat_map (fun port => [Starting port; PortInUse port]) l.

(** A request that got past the validation, the integrity checks, the
    density check and the gap detection of [predict_demand]. *)
Definition demand_accepted (env : Env) (data : json) (df : list row) (gaps : list event)
    : Prop :=
  demand_checked env data df /\
  existsb Py.isnull (map (cell "demand") df) = false /\
  forallb (fun v => negb (Py.isnull v)) (to_numeric env (map (cell "demand") df)) = true /\
  (exists d, density df = Ok d /\ Float.lt d density_threshold = false) /\
  find_gaps_demand df = (Ok tt, gaps).

(** Some record of the request has the field [name]. *)
Definition declares (name : string) (points : list json) : bool :=
  existsb (fun p => match p with
                    | JDict d => bool_decide (is_Some (d !! name))
                    | _ => false
                    end) points.

(** Two floats of the same value. *)
Definition same_value (x y : pyfloat) : Prop :=
  match x, y with
  | PNaN, PNaN => True
  | PInf s, PInf s' => s = s'
  | PFin a, PFin b => (a == b)%Q
  | _, _ => False
  end.

Definition is_fit (e : event) : bool :=
  match e with Fit _ _ => true | _ => false end.

Definition is_predict (e : event) : bool :=
  match e with Predict _ _ => true | _ => false end.

Definition is_projection (e : event) : bool :=
  match e with CallPredictRegressor _ => true | _ => false end.

(** The [n] days that follow [last]. *)
Definition days_after (last : Z) (n : Z) : list Z :=
  map (fun k => last + Z.of_nat k * day_ns) (seq 1 (Z.to_nat n)).

(** A daily series of [n] timestamps from [start]. *)
Definition daily (start : Z) (n : nat) : list (option Z) :=
  map (fun k => Some (start + Z.of_nat k * day_ns)) (seq 0 n).

(** ** More requests for the examples *)

Module Edge.

Import Naive Example.

(** Three future [mti] values for a horizon of two days. *)
Definition long_mti : json :=
  demand
    [point "2024-01-01" (JInt 1) [("mti", JInt 5)];
     point "2024-01-02" (JInt 2) [("mti", JInt 6)];
     point "2024-01-03" (JInt 3) [("mti", JInt 7)]]
    2
    [("futureRegressors", obj [("mti", JList [JInt 8; JInt 9; JInt 10])])].

(** [futureRegressors] is [null]. *)
Definition null_regressors : json :=
  demand
    [point "2024-01-01" (JInt 1) [("mti", JInt 5)];
     point "2024-01-02" (JInt 2) [("mti", JInt 6)];
     point "2024-01-03" (JInt 3) [("mti", JInt 7)]]
    2
    [("futureRegressors", JNull)].

(** The first element of [historicalData] is a number. *)
Definition number_point : json := demand [JInt 5] 2 [].

(** [futurePeriods] is a string. *)
Definition text_periods : json :=
  obj [("historicalData", JList three_days); ("futurePeriods", JStr "2");
       ("locationId", JStr "L"); ("modelId", JStr "M")].

(** A date that is not a date. *)
Definition bad_date : json :=
  demand [point "2024-01-01" (JInt 1) []; point "yesterday" (JInt 2) []] 2 [].

(** No observation at all. *)
Definition no_history : json := demand [] 2 [].

(** One usable quality rating only. *)
Definition one_rating : json :=
  supplier [rating "2024-01-01" (JInt 1) (JInt 1);
            rating "2024-01-02" JNull (JInt 1);
            rating "2024-01-03" JNull (JInt 1)] 2.

(** A series of [mti] values by column. *)
Definition mti_columns : gmap string (list json) :=
  list_to_map [("date", [JStr "2024-01-01"; JStr "2024-01-02"; JStr "2024-01-03"]);
               ("mti", [JInt 5; JInt 6; JInt 7])].

(** Port 5001 is taken. *)
Definition first_taken (port : Z) : run_outcome :=
  if port =? 5001 then RaisedOSError "Address already in use" else Stopped.

End Edge.

(** ** Properties of the monad *)

Lemma bind_Ok {A B} (m : M A) (k : A -> M B) b log :
  bind m k = (Ok b, log) ->
  { a : A & { log1 : list event & { log2 : list event |
    m = (Ok a, log1) /\ k a = (Ok b, log2) /\ log = log1 ++ log2 } } }.
Proof.
  unfold bind. destruct m as [[a|e] log1]; [|discriminate].
  destruct (k a) as [r log2] eqn:Hk. intros [= -> <-].
  exists a, log1, log2. done.
Qed.

Lemma bind_lift_Ok {A B} (r : result A) (k : A -> M B) b log :
  bind (lift r) k = (Ok b, log) -> { a : A | r = Ok a /\ k a = (Ok b, log) }.
Proof.
  intros (a & l1 & l2 & [= -> <-] & Hk & ->)%bind_Ok. by exists a.
Qed.

Lemma bind_lift_eq {A B} (r : result A) (k : A -> M B) a :
  r = Ok a -> bind (lift r) k = k a.
Proof. intros ->. unfold bind, lift. simpl. by destruct (k a). Qed.

Lemma bind_lift_raise {A B} (r : result A) (k : A -> M B) e :
  r = Raise e -> bind (lift r) k = (Raise e, []).
Proof. by intros ->. Qed.

Lemma bind_lift_value {A B} (a : A) (k : A -> M B) : bind (lift (Ok a)) k = k a.
Proof. by apply bind_lift_eq. Qed.

Lemma bind_ret {A B} (a : A) (k : A -> M B) : bind (ret a) k = k a.
Proof. unfold bind, ret. simpl. by destruct (k a). Qed.

(** ** Input validation *)

Section ValidatorFacts.

Import Validator.

Lemma check_fields_dict d issues required :
  exists issues',
    check_fields (JDict d) issues required = Ok issues' /\
    (forall i, In i issues -> In i issues') /\
    (forall f ty, In (f, ty) required -> d !! f = None -> In (missing_field f) issues').
Proof.
  revert issues. induction required as [|[f ty] required IH]; intros issues.
  - exists issues. split; [done|]. split; [done|]. intros ? ? [].
  - simpl. destruct (d !! f) as [v|] eqn:Hf; simpl.
    + destruct (Py.isinstance v ty); simpl.
      * destruct (IH issues) as (issues' & -> & Hin & Hmiss).
        exists issues'. split; [done|]. split; [done|].
        intros f' ty' [[= <- <-]|Hin'] Hnone; [congruence|eauto].
      * destruct (IH (issues ++ [invalid_type f ty v])) as (issues' & -> & Hin & Hmiss).
        exists issues'. split; [done|]. split.
        { intros i Hi. apply Hin, in_or_app. by left. }
        intros f' ty' [[= <- <-]|Hin'] Hnone; [congruence|eauto].
    + destruct (IH (issues ++ [missing_field f])) as (issues' & -> & Hin & Hmiss).
      exists issues'. split; [done|]. split.
      { intros i Hi. apply Hin, in_or_app. by left. }
      intros f' ty' [[= <- <-]|Hin'] Hnone; [|eauto].
      apply Hin, in_or_app. right. by left.
Qed.

(** On a JSON object, a required top-level field that is absent is
    reported, whatever else the request holds. *)
Lemma validate_missing_field d required points f ty :
  In (f, ty) required -> d !! f = None ->
  exists issues,
    validate required points (JDict d) = Ok issues /\ In (missing_field f) issues.
Proof.
  intros Hreq Hnone. unfold validate.
  destruct (check_fields_dict d [] required) as (issues & -> & _ & Hmiss).
  specialize (Hmiss f ty Hreq Hnone). simpl.
  destruct issues as [|i issues]; [destruct Hmiss|].
  simpl. eauto.
Qed.

End ValidatorFacts.

(** A demand request that lacks [historicalData] or [futurePeriods] is
    answered with 400 and the issue naming the field, and the engine is not
    touched, provided the log line before the validation can take the
    length of [historicalData]. *)
Lemma predict_demand_missing_field env d f ty n :
  In (f, ty) demand_required_fields -> d !! f = None ->
  Py.len (default (JList []) (d !! "historicalData")) = Ok n ->
  exists issues,
    predict_demand env (JDict d) = (Failure 400 (InvalidInput issues), []) /\
    In (Validator.missing_field f) issues.
Proof.
  intros Hreq Hnone Hlen.
  destruct (validate_missing_field d demand_required_fields ["date"; "demand"] f ty Hreq Hnone)
    as (issues & Hval & Hin).
  exists issues. split; [|done].
  unfold predict_demand, demand_request. simpl Py.get.
  rewrite bind_lift_eq with (a := default (JList []) (d !! "historicalData")) by done.
  rewrite (bind_lift_eq _ _ n Hlen).
  unfold validate_demand_input. rewrite (bind_lift_eq _ _ issues Hval).
  destruct issues; [destruct Hin|]. reflexivity.
Qed.

(** The same for the three fields of the supplier operation. *)
Lemma predict_supplier_missing_field env d f ty n :
  In (f, ty) supplier_required_fields -> d !! f = None ->
  Py.len (default (JList []) (d !! "historicalData")) = Ok n ->
  exists issues,
    predict_supplier_performance env (JDict d) = (Failure 400 (InvalidInput issues), []) /\
    In (Validator.missing_field f) issues.
Proof.
  intros Hreq Hnone Hlen.
  destruct (validate_missing_field d supplier_required_fields
              ["date"; "qualityRating"; "leadTimeReliability"] f ty Hreq Hnone)
    as (issues & Hval & Hin).
  exists issues. split; [|done].
  unfold predict_supplier_performance, supplier_request. simpl Py.get.
  rewrite bind_lift_eq with (a := default JNull (d !! "supplierId")) by done.
  rewrite bind_lift_eq with (a := default (JList []) (d !! "historicalData")) by done.
  rewrite (bind_lift_eq _ _ n Hlen).
  unfold validate_supplier_performance_input. rewrite (bind_lift_eq _ _ issues Hval).
  destruct issues; [destruct Hin|]. reflexivity.
Qed.

(** The log line in front of the validation takes [len] of
    [historicalData]: a request without [futurePeriods] whose
    [historicalData] is [null] is answered with 500. *)
Lemma predict_demand_null_history env :
  predict_demand env Example.null_history
  = (Failure 500 (FatalError (TypeError "object has no len()")), []).
Proof. vm_compute. reflexivity. Qed.

(** C1.  [validate_demand_input] does not know [locationId] (nor
    [modelId]): on a request that lacks only [locationId] the validator
    reports nothing, and the operation answers 500 from the lookup
    [data["locationId"]] instead of 400.  The engine is not invoked. *)
Theorem C1_location_not_validated (env : Env) :
  validate_demand_input Example.no_location = Ok [] /\
  predict_demand env Example.no_location
  = (Failure 500 (FatalError (KeyError "locationId")), []).
Proof. split; vm_compute; reflexivity. Qed.

(** Running an operation on a concrete request: the response is named, and
    shown to be a success by evaluation. *)
Ltac successful t body log H :=
  let r := fresh "r" in
  destruct t as [r log] eqn:H;
  assert (exists b, r = Success b) as [body ->]
    by (assert (fst t = r) as <- by (by rewrite H); vm_compute; eauto).

Ltac eval_body t body H :=
  replace body with (from_success body (fst t)) by (by rewrite H).

Ltac eval_log t log H :=
  replace log with (snd t) by (by rewrite H).

Ltac solve_in := repeat (rewrite in_app_iff || cbn [In]); auto 12.

Ltac split_in H :=
  repeat (rewrite in_app_iff in H || cbn [In app] in H);
  repeat match goal with
         | H' : _ \/ _ |- _ => destruct H' as [H'|H']
         end;
  try discriminate; try contradiction.

(** ** Successful runs of [predict_demand]

    A 200 response fixes the path through the handler: every step on it
    returned normally, and the log is the concatenation of their logs. *)

Tactic Notation "lift_inv" hyp(H) "as" ident(a) ident(Ha) :=
  apply bind_lift_Ok in H as (a & Ha & H).

Tactic Notation "bind_inv" hyp(H) "as" ident(a) ident(l) ident(Ha) :=
  let l2 := fresh "log" in
  let Hl := fresh "Hlog" in
  apply bind_Ok in H as (a & l & l2 & Ha & H & Hl);
  match type of Hl with ?x = _ => subst x end.

Lemma try_except_Success {B} (m : M (response B)) (h : exn -> response B) body log :
  (forall e, exists s err, h e = Failure s err) ->
  try_except m (fun e => ret (h e)) = (Ok (Success body), log) ->
  m = (Ok (Success body), log).
Proof.
  intros Hh. unfold try_except, ret.
  destruct m as [[r|e] l]; [done|].
  destruct (Hh e) as (s & err & ->). discriminate.
Qed.

Lemma data_processing_handler_Failure {B} e :
  exists s err, @data_processing_handler B e = Failure s err.
Proof. destruct e; simpl; eauto. Qed.

Lemma fit_Ok env cfg history log :
  fit env cfg history = (Ok tt, log) ->
  prophet_fit env cfg history = None /\ log = [Fit cfg history].
Proof.
  unfold fit, bind, emit, raise, ret.
  destruct (prophet_fit env cfg history); [discriminate|]. by intros [= <-].
Qed.

Lemma predict_Ok env cfg history future fc log :
  predict env cfg history future = (Ok fc, log) ->
  prophet_predict env cfg history future = Ok fc /\ log = [Predict cfg future].
Proof.
  unfold predict, bind, emit, lift.
  destruct (prophet_predict env cfg history future); [|discriminate]. by intros [= <- <-].
Qed.

Lemma predict_demand_Success env data body log :
  predict_demand env data = (Success body, log) -> demand_run env data body log.
Proof.
  unfold predict_demand, handle.
  destruct (demand_request env data) as [[r|e] l] eqn:Hreq; [|discriminate].
  intros [= -> ->]. unfold demand_request in Hreq.
  lift_inv Hreq as hd Hhd. lift_inv Hreq as n Hn. lift_inv Hreq as issues Hval.
  destruct issues as [|i issues]; [|discriminate].
  lift_inv Hreq as historical_data Hdata. lift_inv Hreq as location_id Hloc.
  lift_inv Hreq as model_id Hmodel.
  apply try_except_Success in Hreq; [|apply data_processing_handler_Failure].
  unfold demand_forecast in Hreq.
  lift_inv Hreq as df Hdf. lift_inv Hreq as y Hy.
  destruct (has_column df "demand") eqn:Hcol; [|discriminate].
  injection Hy as <-.
  destruct (existsb Py.isnull _) eqn:Hnull; [discriminate|].
  destruct (forallb _ (to_numeric env _)) eqn:Hnum; [|discriminate]. cbn [negb] in Hreq.
  lift_inv Hreq as d Hd.
  destruct (Float.lt d density_threshold) eqn:Hdense; [discriminate|].
  bind_inv Hreq as u log_gaps Hgaps. destruct u.
  lift_inv Hreq as future_periods Hperiods.
  bind_inv Hreq as regs log_regs Hregs. destruct regs as [added fr].
  bind_inv Hreq as u log_fit Hfit. destruct u. apply fit_Ok in Hfit as [Hfit ->].
  lift_inv Hreq as periods Hint. lift_inv Hreq as future Hfuture.
  bind_inv Hreq as columns log_attach Hattach.
  bind_inv Hreq as fc log_predict Hpredict.
  apply predict_Ok in Hpredict as [Hpredict ->].
  bind_inv Hreq as st log_strengths Hstrengths. destruct st as [s t].
  lift_inv Hreq as start Hstart. lift_inv Hreq as stop Hstop.
  injection Hreq as <- <-.
  refine {| dr_historical_data := historical_data; dr_df := df; dr_regressors := (added, fr);
            dr_strengths := (s, t) |}; simpl; try eassumption; try reflexivity.
  rewrite ?app_nil_r, <- ?app_assoc. reflexivity.
Qed.

(** ** Successful runs of [predict_supplier_performance] *)

Lemma metric_forecast_Ok env df column scale future_periods points plot_url fc log :
  metric_forecast env df column scale future_periods = (Ok (points, plot_url, fc), log) ->
  metric_run env df column scale future_periods points fc log.
Proof.
  unfold metric_forecast. intros H.
  lift_inv H as frame Hframe.
  bind_inv H as cleaned log_clean Hclean.
  bind_inv H as u log_fit Hfit. destruct u. apply fit_Ok in Hfit as [Hfit ->].
  lift_inv H as n Hn. lift_inv H as future Hfuture.
  bind_inv H as fc' log_predict Hpredict.
  apply predict_Ok in Hpredict as [Hpredict ->].
  injection H as <- <- <- <-.
  refine {| mr_frame := frame; mr_cleaned := cleaned |}; try eassumption; reflexivity.
Qed.

Lemma predict_supplier_performance_Success env data body log :
  predict_supplier_performance env data = (Success body, log) ->
  supplier_run env data body log.
Proof.
  unfold predict_supplier_performance, handle.
  destruct (supplier_request env data) as [[r|e] l] eqn:Hreq; [|discriminate].
  intros [= -> ->]. unfold supplier_request in Hreq.
  lift_inv Hreq as sid Hsid. lift_inv Hreq as hd Hhd. lift_inv Hreq as n Hn.
  lift_inv Hreq as issues Hval.
  destruct issues as [|i issues]; [|discriminate].
  lift_inv Hreq as historical_data Hdata. lift_inv Hreq as future_periods Hperiods.
  lift_inv Hreq as supplier_id Hsupplier.
  apply try_except_Success in Hreq; [|apply data_processing_handler_Failure].
  unfold supplier_forecast in Hreq.
  lift_inv Hreq as df Hdf. lift_inv Hreq as d Hd.
  bind_inv Hreq as u log_density Hdensity. destruct u.
  bind_inv Hreq as u log_gaps Hgaps. destruct u.
  bind_inv Hreq as q log_quality Hquality. destruct q as [[qpoints qplot] qfc].
  bind_inv Hreq as lt log_lead Hlead. destruct lt as [[lpoints lplot] lfc].
  bind_inv Hreq as st log_strengths Hstrengths. destruct st as [s t].
  lift_inv Hreq as start Hstart. lift_inv Hreq as stop Hstop.
  injection Hreq as <- <-.
  apply metric_forecast_Ok in Hquality, Hlead.
  refine {| sr_historical_data := historical_data; sr_df := df; sr_density := d;
            sr_quality_fc := qfc; sr_lead_time_fc := lfc |};
    simpl; try eassumption; try reflexivity.
  rewrite app_nil_r. f_equal.
  unfold when in Hdensity. destruct (Float.lt d density_threshold); by injection Hdensity.
Qed.

(** ** Comparisons of floats *)

Section FloatFacts.

Import Float.

Lemma Qltb_lt a b : Qltb a b = true <-> (a < b)%Q.
Proof.
  unfold Qltb. rewrite negb_true_iff. split.
  - intros H. apply Qnot_le_lt. intros Hle. apply Qle_bool_iff in Hle. congruence.
  - intros H. destruct (Qle_bool b a) eqn:E; [|done].
    apply Qle_bool_iff in E. lra.
Qed.

Lemma Qltb_ge a b : Qltb a b = false <-> (b <= a)%Q.
Proof.
  unfold Qltb. rewrite negb_false_iff. apply Qle_bool_iff.
Qed.

Lemma in_unit_fin q : in_unit (PFin q) = true <-> (0 <= q <= 1)%Q.
Proof.
  unfold in_unit, le. rewrite andb_true_iff, !Qle_bool_iff. done.
Qed.

Lemma in_unit_zero : in_unit (PFin 0) = true.
Proof. reflexivity. Qed.

Lemma in_unit_one : in_unit (PFin 1) = true.
Proof. reflexivity. Qed.

(** [min(1.0, max(0.0, x))] is in [[0, 1]] for every float, NaN and
    the infinities included. *)
Lemma clamp01_in_unit x : in_unit (clamp01 x) = true.
Proof.
  unfold clamp01, min, max, gt.
  destruct x as [|[]|q]; try reflexivity.
  cbn [lt]. destruct (Qltb 0 q) eqn:H0.
  - cbn [lt]. destruct (Qltb q 1) eqn:H1; [|reflexivity].
    apply Qltb_lt in H0, H1. apply in_unit_fin. lra.
  - reflexivity.
Qed.

End FloatFacts.

(** ** Clamping of the supplier forecasts *)

Lemma clamped_forecast_in_unit fc : Forall point_in_unit (clamped_forecast fc).
Proof.
  unfold clamped_forecast.
  induction (frows fc) as [|r rows IH]; simpl; constructor; [|exact IH].
  repeat split; apply clamp01_in_unit.
Qed.

(** C8.  In every successful supplier-performance response, every row of
    [qualityForecast] and of [leadTimeForecast] has its value, lower and
    upper fields in [[0.0, 1.0]]. *)
Theorem C8_supplier_rows_clamped env data body log :
  predict_supplier_performance env data = (Success body, log) ->
  Forall point_in_unit (qualityForecast body) /\
  Forall point_in_unit (leadTimeForecast body).
Proof.
  intros Hrun. apply predict_supplier_performance_Success in Hrun.
  rewrite (mr_points _ _ _ _ _ _ _ _ (sr_quality _ _ _ _ Hrun)).
  rewrite (mr_points _ _ _ _ _ _ _ _ (sr_lead_time _ _ _ _ Hrun)).
  split; apply clamped_forecast_in_unit.
Qed.

Lemma C8_witness :
  exists body log,
    predict_supplier_performance Naive.env Example.sparse_ratings = (Success body, log) /\
    Forall point_in_unit (qualityForecast body) /\
    Forall point_in_unit (leadTimeForecast body).
Proof.
  successful (predict_supplier_performance Naive.env Example.sparse_ratings) body log Hrun.
  exists body, log. split; [reflexivity|].
  exact (C8_supplier_rows_clamped Naive.env Example.sparse_ratings body log Hrun).
Defined.

(** ** Strength metrics *)

Section StrengthFacts.

Import Float.

Lemma gt_zero_not_zero y : gt y (PFin 0) = true -> is_zero y = false.
Proof.
  destruct y as [|[]|q]; try done. unfold gt, lt, is_zero.
  intros H%Qltb_lt. destruct (Qeq_bool q 0) eqn:E; [|done].
  apply Qeq_bool_iff in E. lra.
Qed.

(** The guard keeps the division away from a zero divisor: [strength]
    never raises. *)
Lemma strength_Ok c y : strength c y = Ok (ratio_strength (fun x => x) c y).
Proof.
  unfold strength, ratio_strength, defined_ratio, truediv.
  destruct (notnull c && notnull y && gt y (PFin 0)) eqn:G; [|done].
  apply andb_true_iff in G as [_ G]. by rewrite (gt_zero_not_zero _ G).
Qed.

Lemma capped_strength_Ok c y : capped_strength c y = Ok (ratio_strength supplier_cap c y).
Proof.
  unfold capped_strength, ratio_strength, defined_ratio, truediv.
  destruct (notnull c && notnull y && gt y (PFin 0)) eqn:G; [|done].
  apply andb_true_iff in G as [_ G]. by rewrite (gt_zero_not_zero _ G).
Qed.

Lemma demand_cap_ratio c y :
  min (ratio_strength (fun x => x) c y) (PFin 1) = ratio_strength demand_cap c y.
Proof. unfold ratio_strength. by destruct (defined_ratio c y). Qed.

Lemma abs_fin_in_unit q : (Qabs q <= 1)%Q -> in_unit (PFin (Qabs q)) = true.
Proof. intros H. apply in_unit_fin. split; [apply Qabs_nonneg|done]. Qed.

(** [min(1.0, abs(x))] is in [[0, 1]], whatever [x]. *)
Lemma supplier_cap_in_unit x : in_unit (supplier_cap (abs x)) = true.
Proof.
  unfold supplier_cap, min. destruct x as [|s|q]; try done.
  cbn [abs lt]. destruct (Qltb (Qabs q) 1) eqn:H; [|done].
  apply Qltb_lt in H. apply abs_fin_in_unit. lra.
Qed.

(** [min(abs(x), 1.0)] is in [[0, 1]] unless [x] is NaN. *)
Lemma demand_cap_in_unit x : isnan x = false -> in_unit (demand_cap (abs x)) = true.
Proof.
  unfold demand_cap, min. destruct x as [|s|q]; try done. intros _.
  cbn [abs lt]. destruct (Qltb 1 (Qabs q)) eqn:H; [done|].
  apply Qltb_ge in H. by apply abs_fin_in_unit.
Qed.

(** A ratio of two defined deviations is NaN only if both are infinite. *)
Lemma div_nz_nan c y :
  notnull c = true -> notnull y = true ->
  infinite c && infinite y = false -> isnan (div_nz c y) = false.
Proof. destruct c as [|?|?], y as [|?|?]; done. Qed.

Lemma ratio_strength_supplier_in_unit c y :
  in_unit (ratio_strength supplier_cap c y) = true.
Proof.
  unfold ratio_strength. destruct (defined_ratio c y); [|done].
  apply supplier_cap_in_unit.
Qed.

Lemma ratio_strength_demand_in_unit c y :
  infinite c && infinite y = false ->
  in_unit (ratio_strength demand_cap c y) = true.
Proof.
  intros Hinf. unfold ratio_strength, defined_ratio.
  destruct (notnull c) eqn:Hc; [|done]. destruct (notnull y) eqn:Hy; [|done].
  destruct (gt y (PFin 0)); [|done]. cbn [andb].
  apply demand_cap_in_unit. by apply div_nz_nan.
Qed.

(** The mean of two values of [[0, 1]] is in [[0, 1]]. *)
Lemma average_in_unit a b :
  in_unit a = true -> in_unit b = true -> in_unit (average a b) = true.
Proof.
  destruct a as [|[]|qa], b as [|[]|qb]; try done.
  intros [Ha1 Ha2]%in_unit_fin [Hb1 Hb2]%in_unit_fin.
  unfold average, add, div_nz. apply in_unit_fin.
  split.
  - apply Qle_shift_div_l; lra.
  - apply Qle_shift_div_r; lra.
Qed.

End StrengthFacts.

(** What [demand_strengths] computes, by the columns the forecast has. *)
Lemma demand_strengths_eq env fc :
  demand_strengths env fc =
  match yearly fc, trend fc with
  | Some yearly_col, Some trend_col =>
      let yhat_std := std env (map yhat (frows fc)) in
      (Ok (ratio_strength (fun x => x) (std env yearly_col) yhat_std,
           ratio_strength (fun x => x) (std env trend_col) yhat_std), [])
  | None, _ => (Ok (PFin 0, PFin 0), [Warn (StrengthError (KeyError "yearly"))])
  | Some _, None => (Ok (PFin 0, PFin 0), [Warn (StrengthError (KeyError "trend"))])
  end.
Proof.
  unfold demand_strengths.
  destruct (yearly fc) as [yearly_col|]; [|reflexivity].
  destruct (trend fc) as [trend_col|]; [|reflexivity].
  cbn [column]. rewrite !bind_lift_eq with (a := yearly_col) by done.
  rewrite !bind_lift_eq with (a := trend_col) by done.
  rewrite (bind_lift_eq _ _ _ (strength_Ok _ _)).
  rewrite (bind_lift_eq _ _ _ (strength_Ok _ _)).
  reflexivity.
Qed.

Lemma supplier_strengths_eq env quality lead_time :
  supplier_strengths env quality lead_time =
  match yearly quality, trend quality, yearly lead_time, trend lead_time with
  | Some q_yearly, Some q_trend, Some l_yearly, Some l_trend =>
      let q_yhat_std := std env (map yhat (frows quality)) in
      let l_yhat_std := std env (map yhat (frows lead_time)) in
      (Ok (average (ratio_strength supplier_cap (std env q_yearly) q_yhat_std)
                   (ratio_strength supplier_cap (std env l_yearly) l_yhat_std),
           average (ratio_strength supplier_cap (std env q_trend) q_yhat_std)
                   (ratio_strength supplier_cap (std env l_trend) l_yhat_std)), [])
  | None, _, _, _ => (Ok (PFin 0, PFin 0), [Warn (StrengthError (KeyError "yearly"))])
  | Some _, None, _, _ => (Ok (PFin 0, PFin 0), [Warn (StrengthError (KeyError "trend"))])
  | Some _, Some _, None, _ => (Ok (PFin 0, PFin 0), [Warn (StrengthError (KeyError "yearly"))])
  | Some _, Some _, Some _, None =>
      (Ok (PFin 0, PFin 0), [Warn (StrengthError (KeyError "trend"))])
  end.
Proof.
  unfold supplier_strengths.
  destruct (yearly quality) as [q_yearly|]; [|reflexivity].
  destruct (trend quality) as [q_trend|]; [|reflexivity].
  destruct (yearly lead_time) as [l_yearly|]; [|reflexivity].
  destruct (trend lead_time) as [l_trend|]; [|reflexivity].
  cbn [column].
  rewrite bind_lift_eq with (a := q_yearly) by done.
  rewrite bind_lift_eq with (a := q_trend) by done.
  rewrite bind_lift_eq with (a := l_yearly) by done.
  rewrite bind_lift_eq with (a := l_trend) by done.
  do 4 rewrite (bind_lift_eq _ _ _ (capped_strength_Ok _ _)).
  reflexivity.
Qed.



(** ** What each step writes to the log *)

Lemma logs_bind P {A B} (m : M A) (k : A -> M B) :
  logs P m -> (forall a, logs P (k a)) -> logs P (bind m k).
Proof.
  unfold logs, bind. destruct m as [[a|e] l]; simpl; [|done].
  intros Hm Hk. specialize (Hk a). destruct (k a) as [r l']. simpl in *.
  apply Forall_app. done.
Qed.

Lemma logs_lift P {A} (r : result A) : logs P (lift r).
Proof. constructor. Qed.

Lemma logs_ret P {A} (a : A) : logs P (ret a).
Proof. constructor. Qed.

Lemma logs_emit (P : event -> Prop) e : P e -> logs P (emit e).
Proof. intros H. by constructor. Qed.

Lemma logs_try_except P {A} (m : M A) (h : exn -> M A) :
  logs P m -> (forall e, logs P (h e)) -> logs P (try_except m h).
Proof.
  unfold logs, try_except. destruct m as [[a|e] l]; simpl; [done|].
  intros Hm Hh. specialize (Hh e). destruct (h e) as [r l']. simpl in *.
  apply Forall_app. done.
Qed.

Ltac logs_step :=
  first
    [ apply logs_lift
    | apply logs_ret
    | apply logs_emit; exact I
    | apply logs_bind; [|intros ?]
    | apply logs_try_except; [|intros ?] ].

Lemma log_gap_lines_logs df index : logs is_warning (log_gap_lines df index).
Proof.
  induction index as [|idx index IH]; cbn [log_gap_lines]; repeat logs_step. exact IH.
Qed.

Lemma find_gaps_demand_logs df : logs is_warning (find_gaps_demand df).
Proof.
  unfold find_gaps_demand. destruct (large_gaps _); repeat logs_step.
  apply log_gap_lines_logs.
Qed.

Lemma attach_regressors_logs env n fr : logs is_error_line (attach_regressors env n fr).
Proof.
  induction fr as [|[name v] fr IH]; cbn [attach_regressors]; repeat logs_step; try exact IH.
  - unfold when. destruct (negb _); repeat logs_step.
  - unfold when. destruct (negb _); repeat logs_step.
Qed.

Lemma demand_strengths_logs env fc : logs is_warning (demand_strengths env fc).
Proof.
  rewrite demand_strengths_eq.
  destruct (yearly fc), (trend fc); repeat constructor.
Qed.

Lemma logs_In {A} (P : event -> Prop) (m : M A) r l e :
  logs P m -> m = (r, l) -> In e l -> P e.
Proof.
  unfold logs. intros H -> Hin. simpl in H.
  rewrite Forall_forall in H. apply H. by apply list_elem_of_In.
Qed.

(** ** Regressor projection *)

Lemma predict_regressor_Ok env historical_df regressor_name periods location_id values log :
  predict_regressor env historical_df regressor_name periods location_id = (Ok values, log) ->
  regressor_run env historical_df regressor_name periods location_id values log.
Proof.
  unfold predict_regressor. intros H.
  bind_inv H as u log_call Hcall. destruct u. injection Hcall as <-.
  bind_inv H as df log_df Hdf.
  bind_inv H as u log_fit Hfit. destruct u. apply fit_Ok in Hfit as [Hfit ->].
  lift_inv H as n Hn. lift_inv H as future Hfuture.
  bind_inv H as fc log_predict Hpredict. apply predict_Ok in Hpredict as [Hpredict ->].
  injection H as <- <-.
  refine {| rr_df := df; rr_n := n; rr_future := future; rr_fc := fc |};
    try eassumption; try reflexivity.
  - destruct (Py.truthy location_id && has_column historical_df "locationId").
    + lift_inv Hdf as mask Hmask. injection Hdf as <- <-. eauto.
    + by injection Hdf as <- <-.
  - assert (log_df = []) as ->; [|reflexivity].
    destruct (Py.truthy location_id && has_column historical_df "locationId").
    + lift_inv Hdf as mask Hmask. by injection Hdf as <- <-.
    + by injection Hdf as <- <-.
Qed.

Lemma all_mti_data_Ok env df mti_data log :
  all_mti_data env df = (Ok mti_data, log) -> log = [].
Proof.
  unfold all_mti_data. intros H. lift_inv H as mask Hmask. by injection H as <- <-.
Qed.

Lemma resolve_regressors_Ok env data df periods location_id added fr log :
  resolve_regressors env data df periods location_id = (Ok (added, fr), log) ->
  exists fr1 log1 fr2 log2,
    mti_resolution env data df periods fr1 log1 /\
    inflation_resolution env df periods location_id fr2 log2 /\
    fr = fr1 ++ fr2 /\ added = map fst fr /\ log = log1 ++ log2.
Proof.
  unfold resolve_regressors. intros H.
  bind_inv H as first log1 Hmti. destruct first as [added1 fr1].
  assert (mti_resolution env data df periods fr1 log1 /\ added1 = map fst fr1) as [Hres1 ->].
  { destruct (has_column df "mti") eqn:Hcol.
    - lift_inv Hmti as supplied Hsupplied. destruct supplied.
      + lift_inv Hmti as frj Hfrj. lift_inv Hmti as v Hv.
        injection Hmti as <- <- <-. split; [|done]. by eapply MtiSupplied.
      + bind_inv Hmti as mti_data log_data Hdata.
        pose proof (all_mti_data_Ok _ _ _ _ Hdata) as ->.
        bind_inv Hmti as values log_values Hvalues.
        injection Hmti as <- <- <-. split; [|done].
        rewrite app_nil_r. simpl.
        eapply MtiProjected; try eassumption. by apply predict_regressor_Ok.
    - injection Hmti as <- <- <-. split; [|done]. by constructor. }
  destruct (has_column df "inflation") eqn:Hcol.
  - bind_inv H as values log_values Hvalues.
    injection H as <- <- <-.
    exists fr1, log1, [("inflation", projected values)], log_values.
    split; [done|]. split.
    { constructor; [done|]. by apply predict_regressor_Ok. }
    rewrite app_nil_r, map_app. done.
  - injection H as <- <- <-.
    exists fr1, log1, [], []. split; [done|]. split; [by constructor|].
    by rewrite !app_nil_r.
Qed.

(** The columns attached to the future frame are the values of
    [future_regressors], each through the column assignment. *)
Lemma attach_regressors_Ok env n fr columns log :
  attach_regressors env n fr = (Ok columns, log) ->
  Forall2 (fun entry column =>
             fst entry = fst column /\ set_column env n (snd entry) = Ok (snd column))
          fr columns.
Proof.
  revert columns log. induction fr as [|[name v] fr IH]; intros columns log H.
  - injection H as <- <-. constructor.
  - cbn [attach_regressors] in H.
    lift_inv H as len Hlen.
    bind_inv H as u log_mismatch Hmismatch. destruct u.
    lift_inv H as column Hcolumn.
    bind_inv H as u log_nan Hnan. destruct u.
    bind_inv H as rest log_rest Hrest.
    injection H as <- <-.
    constructor; [done|]. by eapply IH.
Qed.


Lemma regressor_run_log env df name periods location_id values log :
  regressor_run env df name periods location_id values log ->
  forall other, In (CallPredictRegressor other) log -> other = name.
Proof.
  intros [] other. subst log. cbn [In]. intros [[= ->]|[[=]|[[=]|[]]]]. done.
Qed.




(** ** The diagnostics block *)

(** [generatedRegressors] is always the list [regressorsUsed]: the keys of
    [future_regressors], whoever gave the values. *)
Lemma generated_is_used env data body log :
  predict_demand env data = (Success body, log) ->
  generatedRegressors body = regressorsUsed body.
Proof.
  intros Hrun. apply predict_demand_Success in Hrun. destruct Hrun.
  destruct dr_regressors0 as [added fr]. simpl in *.
  apply resolve_regressors_Ok in dr_resolve0
    as (fr1 & log1 & fr2 & log2 & _ & _ & -> & -> & _).
  congruence.
Qed.

(** C3.  The records declare [mti] and the request supplies
    [futureRegressors.mti = [8, 9]].  The response gives the supplied values
    back, [predict_regressor] was not called, and yet
    [debugInfo.generatedRegressors] lists ["mti"]. *)
Theorem C3_supplied_listed_as_generated :
  exists body log,
    predict_demand Naive.env Example.supplied_mti = (Success body, log) /\
    futureRegressors_mti body = JList [JInt 8; JInt 9] /\
    (forall name, ~ In (CallPredictRegressor name) log) /\
    generatedRegressors body = ["mti"].
Proof.
  successful (predict_demand Naive.env Example.supplied_mti) body log Hrun.
  exists body, log. split; [reflexivity|].
  split. { eval_body (predict_demand Naive.env Example.supplied_mti) body Hrun.
           vm_compute. reflexivity. }
  split. { eval_log (predict_demand Naive.env Example.supplied_mti) log Hrun.
           intros name. vm_compute. intros H.
           repeat (destruct H as [H|H]; [discriminate H|]). exact H. }
  eval_body (predict_demand Naive.env Example.supplied_mti) body Hrun.
  vm_compute. reflexivity.
Qed.

(** ** The horizon of a projection *)

Lemma filter_all {A} (p : A -> bool) l :
  (forall x, In x l -> p x = true) -> List.filter p l = l.
Proof.
  induction l as [|x l IH]; intros H; [done|]. simpl.
  rewrite (H x) by (by left). f_equal. apply IH. intros y Hy. apply H. by right.
Qed.

Lemma filter_none {A} (p : A -> bool) l :
  (forall x, In x l -> p x = false) -> List.filter p l = [].
Proof.
  induction l as [|x l IH]; intros H; [done|]. simpl.
  rewrite (H x) by (by left). apply IH. intros y Hy. apply H. by right.
Qed.

(** The dates after [last] of a daily range of [n + 1] dates from [last]
    are the [n] days that follow it. *)
Lemma pd_date_range_after last n :
  List.filter (fun t => last <? t) (pd_date_range last (S n))
  = map (fun k => last + Z.of_nat k * day_ns) (seq 1 n).
Proof.
  unfold pd_date_range. cbn [seq map List.filter].
  replace (last <? last + Z.of_nat 0 * day_ns) with false
    by (symmetry; apply Z.ltb_ge; unfold day_ns; lia).
  apply filter_all. intros t (k & <- & Hk%in_seq)%in_map_iff.
  apply Z.ltb_lt. unfold day_ns. lia.
Qed.

Lemma make_future_dataframe_Ok history n include_history future :
  make_future_dataframe history n include_history = Ok future ->
  0 <= n ->
  exists last dates,
    Ts.max (map h_ds history) = Some last /\
    future = (if include_history then history_dates history else []) ++ map Some dates /\
    length dates = Z.to_nat n /\
    dates = map (fun k => last + Z.of_nat k * day_ns) (seq 1 (Z.to_nat n)).
Proof.
  unfold make_future_dataframe. intros H Hn.
  destruct (Ts.max (map h_ds history)) as [last|]; [|discriminate].
  destruct (n + 1 <? 0) eqn:Hneg; [apply Z.ltb_lt in Hneg; lia|].
  injection H as <-.
  replace (Z.to_nat (n + 1)) with (S (Z.to_nat n)) by lia.
  rewrite pd_date_range_after. unfold slice_to.
  destruct (0 <=? n) eqn:Hle; [|apply Z.leb_gt in Hle; lia].
  set (dates := map _ (seq 1 (Z.to_nat n))).
  assert (length dates = Z.to_nat n) as Hlen.
  { unfold dates. by rewrite length_map, length_seq. }
  exists last, dates. split; [done|].
  rewrite <- Hlen at 1. rewrite firstn_all. done.
Qed.

Lemma Ts_max_bound l t :
  In (Some t) l -> exists m, Ts.max l = Some m /\ t <= m.
Proof.
  induction l as [|x l IH]; [intros []|].
  intros [->|Hin]; simpl.
  - destruct (Ts.max l) as [m|]; eexists; split; try reflexivity; lia.
  - destruct (IH Hin) as (m & -> & Hm).
    destruct x as [x|]; eexists; split; try reflexivity; lia.
Qed.

Lemma insert_ts_In t x l : In x (insert_ts t l) -> x = t \/ In x l.
Proof.
  induction l as [|y l IH]; simpl.
  - intros [<-|[]]. by left.
  - destruct (Ts.le t y); simpl.
    + intros [<-|H]; auto.
    + intros [<-|H]; auto. destruct (IH H); auto.
Qed.

Lemma history_dates_In history x :
  In x (history_dates history) -> In x (map h_ds history).
Proof.
  unfold history_dates. intros H.
  assert (In x (remove_dups (map h_ds history))) as Hin.
  { revert H. induction (remove_dups (map h_ds history)) as [|t l IH]; simpl; [done|].
    intros [->|H]%insert_ts_In; auto. }
  rewrite <- list_elem_of_In in Hin |- *. by rewrite elem_of_remove_dups in Hin.
Qed.

(** The rows kept by [future_values] are those of the new dates. *)
Lemma future_values_length env cfg history future fc n include_history :
  env_ok env ->
  make_future_dataframe history n include_history = Ok future ->
  0 <= n ->
  prophet_predict env cfg history {| fut_ds := future; fut_x := [] |} = Ok fc ->
  length (future_values (Ts.max (map h_ds history)) fc) = Z.to_nat n.
Proof.
  intros Henv Hfuture Hn Hpredict.
  destruct (make_future_dataframe_Ok _ _ _ _ Hfuture Hn)
    as (last & dates & Hlast & -> & Hlen & Hdates).
  apply (predict_rows env Henv) in Hpredict. simpl in Hpredict.
  rewrite Hlast. unfold future_values. rewrite length_map.
  set (q := fun o : option Z => match o with Some t => last <? t | None => false end).
  assert (length (List.filter (fun r => last <? f_ds r) (frows fc))
          = length (List.filter q (map (fun r => Some (f_ds r)) (frows fc)))) as ->.
  { clear Hpredict. induction (frows fc) as [|r rows IH]; [done|]. simpl.
    destruct (last <? f_ds r); simpl; by rewrite IH. }
  rewrite Hpredict, List.filter_app, length_app.
  rewrite filter_none, filter_all.
  - simpl. by rewrite length_map.
  - intros o (t & <- & Ht)%in_map_iff. subst dates.
    apply in_map_iff in Ht as (k & <- & Hk%in_seq).
    apply Z.ltb_lt. unfold day_ns. lia.
  - intros [t|] Hin; [|done]. destruct include_history; [|done].
    apply history_dates_In, Ts_max_bound in Hin as (m & Hm & Hle).
    rewrite Hlast in Hm. injection Hm as <-. apply Z.ltb_ge. lia.
Qed.

(** C5.  Whenever [predict_regressor] returns, for a horizon [n >= 0], it
    returns exactly [n] values.  They come from one fit of the engine on
    the regressor's historical sub-series (its [ds] and the regressor
    column, restricted to the location when one applies) and one
    prediction over the history followed by [n] daily steps, of which the
    rows strictly after the last historical timestamp are kept. *)
Theorem C5_projection_length env historical_df regressor_name periods location_id
    values log n :
  env_ok env ->
  predict_regressor env historical_df regressor_name periods location_id = (Ok values, log) ->
  as_int periods = Ok n ->
  0 <= n ->
  length values = Z.to_nat n /\
  exists df future fc last,
    let history := map (fun r => HRow (ds r) (cell regressor_name r) ∅) df in
    (if Py.truthy location_id && has_column historical_df "locationId"
     then exists mask,
         column_eq env (map (cell "locationId") historical_df) location_id = Ok mask /\
         df = select true mask historical_df
     else df = historical_df) /\
    log = [CallPredictRegressor regressor_name;
           Fit regressor_config history;
           Predict regressor_config {| fut_ds := future; fut_x := [] |}] /\
    make_future_dataframe history n true = Ok future /\
    prophet_predict env regressor_config history {| fut_ds := future; fut_x := [] |} = Ok fc /\
    Ts.max (map h_ds history) = Some last /\
    values = map yhat (List.filter (fun r => last <? f_ds r) (frows fc)).
Proof.
  intros Henv Hrun Hint Hn. apply predict_regressor_Ok in Hrun. destruct Hrun.
  subst rr_history0. rewrite Hint in rr_as_int0. injection rr_as_int0 as <-.
  split.
  - subst values. by eapply future_values_length.
  - destruct (make_future_dataframe_Ok _ _ _ _ rr_future_eq0 Hn)
      as (last & dates & Hlast & _).
    exists rr_df0, rr_future0, rr_fc0, last. cbn zeta.
    repeat split; try done.
    subst values. unfold future_values. by rewrite Hlast.
Qed.

(** The environment of the examples keeps the number of rows and answers
    with one forecast row per requested timestamp. *)
Lemma Naive_to_datetime_length col dates :
  Naive.to_datetime col = Ok dates -> length dates = length col.
Proof.
  revert dates. induction col as [|c col IH]; intros dates H.
  - by injection H as <-.
  - cbn [Naive.to_datetime] in H.
    destruct (match c with
              | JStr s => _ | JInt z => _ | JNull => _ | JFloat f => _ | _ => _
              end) as [t|]; [|discriminate].
    cbn [rbind] in H. destruct (Naive.to_datetime col) as [rest|]; [|discriminate].
    injection H as <-. simpl. f_equal. by apply IH.
Qed.

Lemma Naive_rows_for y step k future rows :
  Naive.rows_for y step k future = Ok rows ->
  map (fun r => Some (f_ds r)) rows = future.
Proof.
  revert k rows. induction future as [|[t|] future IH]; intros k rows H.
  - by injection H as <-.
  - cbn [Naive.rows_for] in H.
    destruct (Naive.rows_for y step (k + 1) future) as [rest|] eqn:Hrest; [|discriminate].
    injection H as <-. simpl. f_equal. by eapply IH.
  - discriminate.
Qed.

Lemma Naive_env_ok : env_ok Naive.env.
Proof.
  split.
  - apply Naive_to_datetime_length.
  - intros cfg history future fc H. simpl in H. unfold Naive.prophet_predict in H.
    destruct (Naive.rows_for _ _ 1 (fut_ds future)) as [rows|] eqn:Hrows; [|discriminate].
    injection H as <-. simpl. by eapply Naive_rows_for.
Qed.

Lemma C5_witness :
  exists values log,
    predict_regressor Naive.env Example.mti_rows "mti" (JInt 2) JNull = (Ok values, log) /\
    length values = 2%nat.
Proof.
  destruct (predict_regressor Naive.env Example.mti_rows "mti" (JInt 2) JNull)
    as [r log] eqn:Hrun.
  assert (exists values, r = Ok values) as [values ->].
  { assert (fst (predict_regressor Naive.env Example.mti_rows "mti" (JInt 2) JNull) = r)
      as <- by (by rewrite Hrun).
    vm_compute. eauto. }
  exists values, log. split; [reflexivity|].
  apply (C5_projection_length Naive.env Example.mti_rows "mti" (JInt 2) JNull values log 2
           Naive_env_ok Hrun).
  - reflexivity.
  - lia.
Defined.

(** In a successful demand response, a regressor that was projected has
    [futurePeriods] future values. *)
Lemma projected_regressors_length env data body log :
  env_ok env ->
  predict_demand env data = (Success body, log) ->
  exists n,
    as_int (futurePeriods body) = Ok n /\
    (0 <= n ->
     (In "mti" (regressorsUsed body) -> mti_supplied data = Ok false ->
      exists values,
        futureRegressors_mti body = projected values /\ length values = Z.to_nat n) /\
     (In "inflation" (regressorsUsed body) ->
      exists values,
        futureRegressors_inflation body = projected values /\ length values = Z.to_nat n)).
Proof.
  intros Henv Hrun. apply predict_demand_Success in Hrun. destruct Hrun.
  destruct dr_regressors0 as [added fr]. simpl in *.
  exists dr_periods0. split; [done|]. intros Hn.
  apply resolve_regressors_Ok in dr_resolve0
    as (fr1 & log1 & fr2 & log2 & Hmti & Hinfl & -> & -> & ->).
  rewrite dr_used0, dr_mti0, dr_inflation0.
  assert (forall df name loc values l,
             regressor_run env df name (futurePeriods body) loc values l ->
             length values = Z.to_nat dr_periods0) as Hlen.
  { intros df name loc values l []. subst values.
    rewrite dr_as_int0 in rr_as_int0. injection rr_as_int0 as <-.
    by eapply future_values_length. }
  split.
  - intros Hdeclared Hsupplied.
    destruct Hmti as [Habsent|? ? ? Hs|mti_data values l Hcol Hs Hdata Hrr]; [|congruence|].
    { destruct Hinfl; simpl in Hdeclared; [done|]. by destruct Hdeclared as [[=]|[]]. }
    exists values. split; [done|]. by eapply Hlen.
  - intros Hdeclared.
    destruct Hinfl as [Habsent|values l Hcol Hrr].
    { rewrite app_nil_r in Hdeclared.
      destruct Hmti; simpl in Hdeclared; try done; by destruct Hdeclared as [[=]|[]]. }
    exists values. split; [by destruct Hmti|]. by eapply Hlen.
Qed.

(** ** Gap detection *)

Lemma insert_by_ds_sorted r l :
  ascending_from (ds r) (map ds l) = true -> insert_by_ds r l = r :: l.
Proof.
  destruct l as [|r' l]; [done|]. simpl. by intros [-> _]%andb_true_iff.
Qed.

(** Sorting leaves a frame that is already in order as it is. *)
Lemma sort_values_sorted df : ascending (map ds df) = true -> sort_values df = df.
Proof.
  induction df as [|r df IH]; [done|]. intros Hasc.
  unfold sort_values in *. cbn [fold_right]. rewrite IH.
  - by apply insert_by_ds_sorted.
  - destruct df as [|r' df]; [done|]. simpl in *. by apply andb_true_iff in Hasc as [_ ?].
Qed.

(** Lookup by label in a frame whose labels count up from [k]. *)
Lemma loc_ds_lookup df k i r :
  map label df = seq k (length df) ->
  df !! i = Some r ->
  loc_ds df (Z.of_nat (k + i)) = Ok (ds r).
Proof.
  revert k i. induction df as [|r' df IH]; intros k i Hlabels Hi; [done|].
  cbn [map length seq] in Hlabels. injection Hlabels as Hlabel Hlabels.
  cbn [loc_ds]. rewrite Hlabel. destruct i as [|i].
  - injection Hi as ->. rewrite Nat.add_0_r, Z.eqb_refl. done.
  - replace (Z.of_nat k =? Z.of_nat (k + S i)) with false
      by (symmetry; apply Z.eqb_neq; lia).
    replace (k + S i)%nat with (S k + i)%nat by lia. by apply IH.
Qed.

(** The lines logged for the rows [l] that follow [prev_row] in the frame. *)
Lemma log_gap_lines_suffix df pre prev_row l :
  range_index df ->
  df = pre ++ prev_row :: l ->
  log_gap_lines df
    (map fst (List.filter wide (combine (map label l) (Ts.diff_from (ds prev_row) (map ds l)))))
  = (Ok tt, map Warn (gap_events_from (ds prev_row) (map ds l))).
Proof.
  intros Hrange. revert pre prev_row.
  induction l as [|r l IH]; intros pre prev_row Hdf; [done|].
  specialize (IH (pre ++ [prev_row]) r).
  rewrite <- app_assoc in IH. specialize (IH Hdf).
  cbn [map Ts.diff_from combine List.filter gap_events_from].
  unfold wide at 1. cbn [snd].
  destruct (Ts.exceeds_days (Ts.sub (ds r) (ds prev_row)) 7) eqn:Hwide; [|exact IH].
  cbn [map fst log_gap_lines app].
  assert (df !! length pre = Some prev_row) as Hprev.
  { subst df. by rewrite list_lookup_middle. }
  assert (df !! S (length pre) = Some r) as Hr.
  { subst df. rewrite (lookup_app_r pre) by lia.
    by replace (S (length pre) - length pre)%nat with 1%nat by lia. }
  assert (label r = S (length pre)) as Hlabel.
  { unfold range_index in Hrange.
    assert (map label df !! S (length pre) = Some (label r)) as Hl
      by (by rewrite list_lookup_fmap, Hr).
    rewrite Hrange in Hl. apply lookup_seq in Hl as [Hl _]. simpl in Hl. lia. }
  rewrite Hlabel.
  replace (Z.of_nat (S (length pre)) - 1) with (Z.of_nat (0 + length pre)) by lia.
  rewrite (bind_lift_eq _ _ _ (loc_ds_lookup df 0 _ _ Hrange Hprev)).
  replace (Z.of_nat (S (length pre))) with (Z.of_nat (0 + S (length pre))) by lia.
  rewrite (bind_lift_eq _ _ _ (loc_ds_lookup df 0 _ _ Hrange Hr)).
  unfold bind at 1. unfold emit. rewrite IH. reflexivity.
Qed.

Lemma wide_gaps_length labels prev dss :
  length labels = length dss ->
  length (List.filter wide (combine labels (Ts.diff_from prev dss)))
  = length (gap_events_from prev dss).
Proof.
  revert labels prev. induction dss as [|t dss IH]; intros labels prev Hlen.
  - by destruct labels.
  - destruct labels as [|i labels]; [done|]. injection Hlen as Hlen.
    cbn [Ts.diff_from combine List.filter gap_events_from]. unfold wide at 1. cbn [snd].
    rewrite length_app, <- (IH labels t Hlen).
    by destruct (Ts.exceeds_days (Ts.sub t prev) 7).
Qed.

Lemma large_gaps_cons r l :
  large_gaps (r :: l)
  = List.filter wide (combine (map label l) (Ts.diff_from (ds r) (map ds l))).
Proof. reflexivity. Qed.

(** The supplier handler logs the number of gaps of the sorted frame, and
    returns normally whatever the frame. *)
Lemma find_gaps_supplier_eq df :
  find_gaps_supplier df = (Ok tt, gap_log false (gap_events (map ds (sort_values df)))).
Proof.
  unfold find_gaps_supplier. destruct (sort_values df) as [|r l]; [done|].
  rewrite large_gaps_cons. cbn [map gap_events].
  pose proof (wide_gaps_length (map label l) (ds r) (map ds l)) as Hlen.
  rewrite !length_map in Hlen. specialize (Hlen eq_refl).
  destruct (List.filter wide _) as [|g gaps], (gap_events_from _ _) as [|w ws];
    try discriminate; [done|].
  cbn [gap_log]. by rewrite Hlen.
Qed.



(** A frame has the labels [0, 1, ...] when it is built. *)
Lemma index_rows_labels k dates records :
  map label (index_rows k dates records) = seq k (length (index_rows k dates records)).
Proof.
  revert k records. induction dates as [|t dates IH]; intros k [|d records]; try done.
  cbn [index_rows map length seq]. f_equal. apply IH.
Qed.

Lemma DataFrame_range_index env historical_data df :
  DataFrame env historical_data = Ok df -> range_index df.
Proof.
  unfold DataFrame. destruct historical_data as [| | | | |l|]; try discriminate.
  destruct (records_of l) as [records|]; [|discriminate].
  destruct (column_of records "date") as [col|]; [|discriminate]. cbn [rbind].
  destruct (to_datetime env col) as [dates|]; [|discriminate]. cbn [rbind].
  intros [= <-]. apply index_rows_labels.
Qed.

(** A demand request with a gap of nine days and enough rows for the
    density check: the gap is logged and the forecast is answered. *)
Lemma repeated_dates_gap :
  exists body log,
    predict_demand Naive.env Example.repeated_dates = (Success body, log) /\
    In (Warn (GapsFound 1)) log /\
    In (Warn (Gap (Naive.iso_date "2024-01-01") (Naive.iso_date "2024-01-10") (Some 9))) log.
Proof.
  successful (predict_demand Naive.env Example.repeated_dates) body log Hrun.
  exists body, log. split; [reflexivity|].
  eval_log (predict_demand Naive.env Example.repeated_dates) log Hrun.
  split; vm_compute; auto.
Qed.

(** Outside the frames in order: when the row after a gap has label 0, the
    lookup of label -1 raises, and the demand operation answers 500. *)
Lemma unsorted_gap_rejected :
  predict_demand Naive.env Example.unsorted_gap
  = (Failure 500 (UnexpectedError (KeyError "label")), [Warn (GapsFound 1)]).
Proof. vm_compute. reflexivity. Qed.

(** Two points ten days apart: exactly one gap, of ten days. *)
Lemma gap_events_ten_days a :
  gap_events [Some a; Some (a + 10 * day_ns)]
  = [Gap (Some a) (Some (a + 10 * day_ns)) (Some 10)].
Proof.
  cbn [gap_events gap_events_from Ts.sub].
  replace (a + 10 * day_ns - a) with (10 * day_ns) by lia.
  reflexivity.
Qed.

(** Consecutive points at most seven days apart: no gap. *)
Lemma gap_events_none l :
  (forall i a b, l !! i = Some (Some a) -> l !! S i = Some (Some b) -> b - a <= 7 * day_ns) ->
  gap_events l = [].
Proof.
  destruct l as [|prev l]; [done|]. cbn [gap_events]. revert prev.
  induction l as [|t l IH]; intros prev H; [done|].
  cbn [gap_events_from]. rewrite IH.
  - rewrite app_nil_r. destruct t as [b|], prev as [a|]; try done.
    cbn [Ts.sub Ts.exceeds_days].
    specialize (H 0%nat a b eq_refl eq_refl).
    replace (7 * day_ns <? b - a) with false by (symmetry; apply Z.ltb_ge; lia). done.
  - intros i a b Ha Hb. apply (H (S i) a b Ha Hb).
Qed.

(** ** How far a checked request gets *)

Lemma try_except_Ok {A} (a : A) log (h : exn -> M A) :
  try_except (Ok a, log) h = (Ok a, log).
Proof. reflexivity. Qed.

Lemma bind_Ok_eq {A B} (m : M A) (k : A -> M B) a log :
  m = (Ok a, log) -> bind m k = (fst (k a), log ++ snd (k a)).
Proof. intros ->. unfold bind. by destruct (k a). Qed.

Lemma demand_request_checked env data df :
  demand_checked env data df ->
  exists historical_data location_id model_id,
    DataFrame env historical_data = Ok df /\
    demand_request env data
    = try_except (demand_forecast env data historical_data location_id model_id)
        (fun e => ret (data_processing_handler e)).
Proof.
  intros (d & points & -> & Hdata & Hvalid & [loc Hloc] & [model Hmodel] & Hdf & _).
  exists (JList points), loc, model. split; [done|].
  unfold demand_request. cbn [Py.get Py.getitem].
  rewrite Hdata, Hloc, Hmodel, Hvalid.
  repeat first [rewrite bind_lift_value | progress cbn [default Py.len] | progress unfold id].
  reflexivity.
Qed.

Lemma supplier_request_checked env data df :
  supplier_checked env data df ->
  exists historical_data future_periods supplier_id,
    DataFrame env historical_data = Ok df /\
    supplier_request env data
    = try_except (supplier_forecast env historical_data future_periods supplier_id)
        (fun e => ret (data_processing_handler e)).
Proof.
  intros (d & points & -> & Hdata & Hvalid & [sid Hsid] & Hdf).
  exists (JList points), (default (JInt 90) (d !! "futurePeriods")), sid. split; [done|].
  unfold supplier_request. cbn [Py.get Py.getitem].
  rewrite Hdata, Hsid, Hvalid.
  repeat first [rewrite bind_lift_value | progress cbn [default Py.len] | progress unfold id].
  reflexivity.
Qed.

(** The integrity checks and the density check of [predict_demand], on the
    frame of a checked request. *)
Lemma predict_demand_checked env data df :
  demand_checked env data df ->
  let y := map (cell "demand") df in
  if existsb Py.isnull y
  then
    let null_dates := map ds (List.filter (fun r => Py.isnull (cell "demand" r)) df) in
    predict_demand env data
    = (Failure 400 (MissingDemandValues (length null_dates) (firstn 3 null_dates)), [])
  else if negb (forallb (fun v => negb (Py.isnull v)) (to_numeric env y))
  then predict_demand env data = (Failure 400 NonNumericDemand, [])
  else
    forall d, density df = Ok d -> Float.lt d density_threshold = true ->
    predict_demand env data = (Failure 400 (InsufficientDensity d), []).
Proof.
  intros Hchecked.
  destruct (demand_request_checked _ _ _ Hchecked) as (hd & loc & model & Hdf & Hreq).
  destruct Hchecked as (_ & _ & _ & _ & _ & _ & _ & _ & Hcol).
  unfold predict_demand. rewrite Hreq. unfold demand_forecast.
  rewrite (bind_lift_eq _ _ _ Hdf). rewrite Hcol.
  rewrite bind_lift_eq with (a := map (cell "demand") df) by done.
  cbn zeta. destruct (existsb Py.isnull (map (cell "demand") df)); [reflexivity|].
  destruct (negb (forallb _ _)); [reflexivity|].
  intros d Hd Hlow. rewrite (bind_lift_eq _ _ _ Hd), Hlow. reflexivity.
Qed.

(** ** Cleaning of a supplier metric *)

Lemma dropna_sublist frame : sublist (map h_ds (dropna frame)) (map h_ds frame).
Proof.
  induction frame as [|r frame IH]; simpl; [constructor|].
  destruct (negb (Py.isnull (h_y r))); simpl; by constructor.
Qed.

Lemma dropna_notnull frame : Forall (fun r => Py.isnull (h_y r) = false) (dropna frame).
Proof.
  induction frame as [|r frame IH]; simpl; [constructor|].
  destruct (Py.isnull (h_y r)) eqn:Hnull; simpl; [done|]. by constructor.
Qed.

Lemma dropna_id frame :
  existsb (fun r => Py.isnull (h_y r)) frame = false -> dropna frame = frame.
Proof.
  intros H. apply filter_all. intros r Hr. apply negb_true_iff.
  destruct (Py.isnull (h_y r)) eqn:Hnull; [|done].
  assert (existsb (fun r => Py.isnull (h_y r)) frame = true); [|congruence].
  apply existsb_exists. eauto.
Qed.

Lemma set_y_sublist frame y : sublist (map h_ds (set_y frame y)) (map h_ds frame).
Proof.
  revert y. induction frame as [|r frame IH]; intros y; simpl; [constructor|].
  destruct y as [|v y]; simpl; [apply sublist_nil_l|]. constructor. apply IH.
Qed.

(** The cleaning step never raises.  It drops the rows whose value is
    null, and, when a remaining value is not numeric, coerces the column
    and drops the rows the coercion left null; each of the two repairs is
    logged as a warning.  What is left is a sub-series without nulls. *)
Lemma clean_metric_spec env column frame :
  exists cleaned warnings,
    clean_metric env column frame = (Ok cleaned, warnings) /\
    Forall is_warning warnings /\
    sublist (map h_ds cleaned) (map h_ds frame) /\
    (existsb (fun r => Py.isnull (h_y r)) frame = true ->
     Forall (fun r => Py.isnull (h_y r) = false) cleaned /\
     In (Warn (NullValues column
                 (length (List.filter (fun r => Py.isnull (h_y r)) frame)))) warnings) /\
    (forallb (fun v => negb (Py.isnull v)) (to_numeric env (map h_y (dropna frame))) = false ->
     Forall (fun r => Py.isnull (h_y r) = false) cleaned /\
     In (Warn (NonNumericValues column)) warnings) /\
    (existsb (fun r => Py.isnull (h_y r)) frame = false ->
     forallb (fun v => negb (Py.isnull v)) (to_numeric env (map h_y frame)) = true ->
     cleaned = frame /\ warnings = []).
Proof.
  unfold clean_metric.
  destruct (existsb (fun r => Py.isnull (h_y r)) frame) eqn:Hnull.
  - unfold bind at 2. unfold emit, ret. cbn [app].
    destruct (forallb _ (to_numeric env (map h_y (dropna frame)))) eqn:Hnum;
      cbn [negb bind ret emit app]; rewrite ?Hnum; cbn [negb app];
      eexists _, _; (split; [reflexivity|]).
    + split; [repeat constructor|]. split; [apply dropna_sublist|].
      split; [intros _; split; [apply dropna_notnull|by left]|].
      split; [done|done].
    + split; [repeat constructor|].
      split. { etransitivity; [apply dropna_sublist|].
               etransitivity; [apply set_y_sublist|apply dropna_sublist]. }
      split; [intros _; split; [apply dropna_notnull|by left]|].
      split; [intros _; split; [apply dropna_notnull|right; by left]|done].
  - rewrite bind_ret. rewrite (dropna_id _ Hnull).
    destruct (forallb _ (to_numeric env (map h_y frame))) eqn:Hnum;
      cbn [negb bind ret emit app]; rewrite ?Hnum; cbn [negb app];
      eexists _, _; (split; [reflexivity|]).
    + split; [constructor|]. split; [reflexivity|]. repeat split; done.
    + split; [repeat constructor|].
      split. { etransitivity; [apply dropna_sublist|apply set_y_sublist]. }
      split; [done|].
      split; [intros _; split; [apply dropna_notnull|by left]|done].
Qed.

Lemma bind_log_prefix {A B} (m : M A) (k : A -> M B) :
  exists rest, snd (bind m k) = snd m ++ rest.
Proof.
  unfold bind. destruct m as [[a|e] l]; simpl.
  - destruct (k a) as [r l']. by exists l'.
  - exists []. by rewrite app_nil_r.
Qed.

(** After the cleaning, the engine is fit on what is left. *)
Lemma metric_forecast_proceeds env df column scale future_periods frame cleaned warnings :
  metric_frame df column = Ok frame ->
  clean_metric env column frame = (Ok cleaned, warnings) ->
  exists rest,
    snd (metric_forecast env df column scale future_periods)
    = warnings ++ Fit (supplier_config scale) cleaned :: rest.
Proof.
  intros Hframe Hclean. unfold metric_forecast.
  rewrite (bind_lift_eq _ _ _ Hframe), (bind_Ok_eq _ _ _ _ Hclean). cbn [snd].
  unfold fit.
  match goal with
  | |- context [snd (bind (bind (emit ?e) ?k1) ?k2)] =>
      destruct (bind_log_prefix (bind (emit e) k1) k2) as (rest & ->);
      destruct (bind_log_prefix (emit e) k1) as (rest' & ->)
  end.
  cbn [emit snd app]. eauto.
Qed.

(** A supplier forecast that ends normally ends in a success. *)
Lemma supplier_forecast_Ok env historical_data future_periods supplier_id r log :
  supplier_forecast env historical_data future_periods supplier_id = (Ok r, log) ->
  exists body, r = Success body.
Proof.
  unfold supplier_forecast. intros H.
  lift_inv H as df Hdf. lift_inv H as d Hd.
  bind_inv H as u log_density Hdensity. bind_inv H as u' log_gaps Hgaps.
  bind_inv H as q log_quality Hquality. destruct q as [[qpoints qplot] qfc].
  bind_inv H as lt log_lead Hlead. destruct lt as [[lpoints lplot] lfc].
  bind_inv H as st log_strengths Hstrengths. destruct st as [s t].
  lift_inv H as start Hstart. lift_inv H as stop Hstop.
  injection H as <- _. eauto.
Qed.

(** ** Density *)

Lemma Ts_min_max l :
  match Ts.min l, Ts.max l with
  | Some a, Some b => a <= b
  | None, None => True
  | _, _ => False
  end.
Proof.
  induction l as [|[x|] l IH]; simpl; [done| |done].
  destruct (Ts.min l), (Ts.max l); try done; lia.
Qed.

Lemma date_range_nonneg df days : date_range df = Some days -> 0 <= days.
Proof.
  unfold date_range. pose proof (Ts_min_max (map ds df)) as H.
  destruct (Ts.min (map ds df)) as [a|], (Ts.max (map ds df)) as [b|]; try done.
  cbn [Ts.sub Ts.days]. intros [= <-]. apply Z.div_pos; [lia|reflexivity].
Qed.

(** The density is the number of points over the days of the span plus
    one (NaN for a frame without a timestamp); the division never fails. *)
Lemma density_eq df :
  density df =
  Ok match date_range df with
     | Some days => PFin (inject_Z (Z.of_nat (length df)) / inject_Z (days + 1))
     | None => PNaN
     end.
Proof.
  unfold density. destruct (date_range df) as [days|] eqn:Hrange; [|done].
  apply date_range_nonneg in Hrange.
  replace (days + 1 =? 0) with false by (symmetry; apply Z.eqb_neq; lia). done.
Qed.

(** The supplier handler on a checked request: the density is computed and
    a low one is logged as a warning, the gaps are counted, the quality
    ratings are cleaned, and the quality model is fit on what is left.
    The response is a success or the answer to an exception of a later
    step. *)
Lemma predict_supplier_quality_step env data df frame :
  supplier_checked env data df ->
  metric_frame df "qualityRating" = Ok frame ->
  exists resp log d cleaned warnings rest,
    predict_supplier_performance env data = (resp, log) /\
    density df = Ok d /\
    clean_metric env "qualityRating" frame = (Ok cleaned, warnings) /\
    log = (if Float.lt d density_threshold then [Warn (LowDensity d)] else [])
          ++ gap_log false (gap_events (map ds (sort_values df)))
          ++ warnings ++ Fit (supplier_config (5 # 100)) cleaned :: rest /\
    ((exists body, resp = Success body) \/ (exists e, resp = data_processing_handler e)).
Proof.
  intros Hchecked Hframe.
  destruct (supplier_request_checked _ _ _ Hchecked) as (hd & periods & sid & Hdf & Hreq).
  unfold predict_supplier_performance. rewrite Hreq.
  pose proof (density_eq df) as Hd. set (d := match date_range df with
                                               | Some _ => _ | None => _ end) in Hd.
  destruct (clean_metric_spec env "qualityRating" frame) as (cleaned & warnings & Hclean & _).
  destruct (metric_forecast_proceeds env df "qualityRating" (5 # 100) periods
              frame cleaned warnings Hframe Hclean) as (rest & Hlog).
  assert (exists rest', snd (supplier_forecast env hd periods sid)
                        = (if Float.lt d density_threshold
                           then [Warn (LowDensity d)] else [])
                          ++ gap_log false (gap_events (map ds (sort_values df)))
                          ++ warnings ++ Fit (supplier_config (5 # 100)) cleaned :: rest')
    as (rest' & Hlog').
  { unfold supplier_forecast.
    rewrite (bind_lift_eq _ _ _ Hdf), (bind_lift_eq _ _ _ Hd).
    rewrite bind_Ok_eq with (a := tt)
      (log := if Float.lt d density_threshold then [Warn (LowDensity d)] else [])
      by (unfold when; by destruct (Float.lt d density_threshold)).
    cbn [snd]. rewrite (bind_Ok_eq _ _ _ _ (find_gaps_supplier_eq df)). cbn [snd].
    match goal with
    | |- context [snd (bind ?m ?k)] => destruct (bind_log_prefix m k) as (tail & ->)
    end.
    rewrite Hlog. exists (rest ++ tail). by rewrite <- !app_assoc. }
  destruct (supplier_forecast env hd periods sid) as [[r|e] log] eqn:Hrun; cbn [snd] in Hlog'.
  - destruct (supplier_forecast_Ok _ _ _ _ _ _ Hrun) as [body ->].
    exists (Success body), log, d, cleaned, warnings, rest'.
    split; [reflexivity|]. repeat split; try done. left. eauto.
  - exists (data_processing_handler e), log, d, cleaned, warnings, rest'.
    split; [unfold try_except, ret, handle; by rewrite app_nil_r|].
    repeat split; try done. right. eauto.
Qed.


Lemma sparse_demand_checked :
  demand_checked Naive.env Example.sparse_demand (Example.frame Example.sparse_demand).
Proof.
  eexists _, _. split; [reflexivity|].
  split; [vm_compute; reflexivity|]. split; [vm_compute; reflexivity|].
  split; [vm_compute; eauto|]. split; [vm_compute; eauto|].
  split; vm_compute; reflexivity.
Qed.

Lemma sparse_ratings_checked :
  supplier_checked Naive.env Example.sparse_ratings (Example.frame Example.sparse_ratings).
Proof.
  eexists _, _. split; [reflexivity|].
  split; [vm_compute; reflexivity|]. split; [vm_compute; reflexivity|].
  split; [vm_compute; eauto|]. vm_compute; reflexivity.
Qed.


(** The supplier request of low density of the examples is answered with
    a forecast. *)
Lemma sparse_ratings_forecast :
  exists body log,
    predict_supplier_performance Naive.env Example.sparse_ratings = (Success body, log) /\
    length (qualityForecast body) = 2%nat /\
    length (leadTimeForecast body) = 2%nat.
Proof.
  successful (predict_supplier_performance Naive.env Example.sparse_ratings) body log Hrun.
  exists body, log. split; [reflexivity|].
  eval_body (predict_supplier_performance Naive.env Example.sparse_ratings) body Hrun.
  split; vm_compute; reflexivity.
Qed.


Lemma null_demand_checked :
  demand_checked Naive.env Example.null_demand (Example.frame Example.null_demand).
Proof.
  eexists _, _. split; [reflexivity|].
  split; [vm_compute; reflexivity|]. split; [vm_compute; reflexivity|].
  split; [vm_compute; eauto|]. split; [vm_compute; eauto|].
  split; vm_compute; reflexivity.
Qed.

Lemma text_demand_checked :
  demand_checked Naive.env Example.text_demand (Example.frame Example.text_demand).
Proof.
  eexists _, _. split; [reflexivity|].
  split; [vm_compute; reflexivity|]. split; [vm_compute; reflexivity|].
  split; [vm_compute; eauto|]. split; [vm_compute; eauto|].
  split; vm_compute; reflexivity.
Qed.


(** The two demand examples, with their responses. *)
Lemma null_demand_rejected :
  predict_demand Naive.env Example.null_demand
  = (Failure 400 (MissingDemandValues 1 [Naive.iso_date "2024-01-02"]), []).
Proof. vm_compute. reflexivity. Qed.

Lemma text_demand_rejected :
  predict_demand Naive.env Example.text_demand = (Failure 400 NonNumericDemand, []).
Proof. vm_compute. reflexivity. Qed.

(** The warnings of the supplier example: a null quality rating and a lead
    time that is not a number. *)
Lemma sparse_ratings_warnings :
  exists body log,
    predict_supplier_performance Naive.env Example.sparse_ratings = (Success body, log) /\
    In (Warn (NullValues "qualityRating" 1)) log /\
    In (Warn (NonNumericValues "leadTimeReliability")) log.
Proof.
  successful (predict_supplier_performance Naive.env Example.sparse_ratings) body log Hrun.
  exists body, log. split; [reflexivity|].
  eval_log (predict_supplier_performance Naive.env Example.sparse_ratings) log Hrun.
  split; vm_compute; auto 12.
Qed.

(** C10.  The density is the number of rows, repeated timestamps
    included, over the days of the span plus one.  With ten observations
    on one day and one nine days later it is 11/10, above 1.0; the density
    check of the demand operation lets the request through, and a forecast is
    answered, although two of the ten calendar days of the span hold an
    observation. *)
Theorem C10_density_counts_duplicates :
  (forall df days,
     date_range df = Some days ->
     density df = Ok (PFin (inject_Z (Z.of_nat (length df)) / inject_Z (days + 1)))) /\
  (let df := Example.frame Example.repeated_dates in
   demand_checked Naive.env Example.repeated_dates df /\
   length df = 11%nat /\
   date_range df = Some 9 /\
   observed_days df = 2%nat /\
   density df = Ok (PFin (11 # 10)) /\
   Float.lt (PFin 1) (PFin (11 # 10)) = true /\
   Float.lt (PFin (11 # 10)) density_threshold = false /\
   (10 * observed_days df < 7 * (9 + 1))%nat /\
   exists body log,
     predict_demand Naive.env Example.repeated_dates = (Success body, log) /\
     dataPoints body = 11%nat).
Proof.
  split.
  - intros df days Hrange. by rewrite density_eq, Hrange.
  - cbn zeta. split.
    { eexists _, _. split; [reflexivity|].
      split; [vm_compute; reflexivity|]. split; [vm_compute; reflexivity|].
      split; [vm_compute; eauto|]. split; [vm_compute; eauto|].
      split; vm_compute; reflexivity. }
    split; [vm_compute; reflexivity|]. split; [vm_compute; reflexivity|].
    split; [vm_compute; reflexivity|]. split; [vm_compute; reflexivity|].
    split; [vm_compute; reflexivity|]. split; [vm_compute; reflexivity|].
    split; [vm_compute; lia|].
    successful (predict_demand Naive.env Example.repeated_dates) body log Hrun.
    exists body, log. split; [reflexivity|].
    eval_body (predict_demand Naive.env Example.repeated_dates) body Hrun.
    vm_compute. reflexivity.
Qed.
(** ** What the validators accept and what they report *)

Section ValidatorCases.

Import Validator.

Lemma check_fields_clean d issues required issues' :
  check_fields (JDict d) issues required = Ok issues' ->
  issues' = [] <->
  issues = [] /\
  Forall (fun entry => exists v, d !! entry.1 = Some v /\ Py.isinstance v entry.2 = true)
         required.
Proof.
  revert issues. induction required as [|[f ty] required IH]; intros issues; simpl.
  - intros [= <-]. split; [by intros ->|by intros [-> _]].
  - destruct (d !! f) as [v|] eqn:Hf; simpl.
    + destruct (Py.isinstance v ty) eqn:Hty; simpl; intros H; apply IH in H.
      * rewrite H. split; intros [-> HF]; (split; [done|]).
        -- constructor; [eauto|done].
        -- by inversion HF.
      * split; [intros Hnil; apply H in Hnil as [Hnil _]; by destruct issues|].
        intros [_ HF]. inversion HF as [|? ? (v' & Hv' & Hi) _]; simpl in *. congruence.
    + intros H; apply IH in H.
      split; [intros Hnil; apply H in Hnil as [Hnil _]; by destruct issues|].
      intros [_ HF]. inversion HF as [|? ? (v' & Hv' & Hi) _]; simpl in *. congruence.
Qed.

Lemma check_fields_reports d issues required issues' :
  check_fields (JDict d) issues required = Ok issues' ->
  forall f ty v, In (f, ty) required -> d !! f = Some v -> Py.isinstance v ty = false ->
  In (invalid_type f ty v) issues'.
Proof.
  revert issues. induction required as [|[f ty] required IH]; intros issues; simpl.
  - intros _ ? ? ? [].
  - intros H f' ty' v' [[= <- <-]|Hin] Hv Hty.
    + rewrite Hv in H. simpl in H. rewrite Hty in H. simpl in H.
      destruct (check_fields_dict d (issues ++ [invalid_type f ty v']) required)
        as (issues'' & Hcf & Hkeep & _).
      rewrite Hcf in H. injection H as <-. apply Hkeep, in_or_app. right. by left.
    + destruct (d !! f) as [v|]; simpl in H; [destruct (Py.isinstance v ty); simpl in H|];
        exact (IH _ H _ _ _ Hin Hv Hty).
Qed.

Lemma check_point_fields_clean p issues fields :
  check_point_fields p issues fields = Ok [] <->
  issues = [] /\ Forall (fun f => Py.contains p f = Ok true) fields.
Proof.
  revert issues. induction fields as [|f fields IH]; intros issues; simpl.
  - split; [by intros [= ->]|by intros [-> _]].
  - destruct (Py.contains p f) as [[|]|e] eqn:Hc; simpl.
    + rewrite IH. split; intros [-> HF]; (split; [done|]).
      * by constructor.
      * by inversion HF.
    + rewrite IH. split; [intros [H _]; by destruct issues|].
      intros [_ HF]. inversion HF. congruence.
    + split; [done|]. intros [_ HF]. inversion HF. congruence.
Qed.

Lemma validate_accepts required point_fields d :
  In ("historicalData", Py.TList) required ->
  validate required point_fields (JDict d) = Ok [] <->
  Forall (fun entry => exists v, d !! entry.1 = Some v /\ Py.isinstance v entry.2 = true)
         required /\
  exists p rest,
    d !! "historicalData" = Some (JList (p :: rest)) /\
    Forall (fun f => Py.contains p f = Ok true) point_fields.
Proof.
  intros Hhd. unfold validate.
  destruct (check_fields_dict d [] required) as (issues & Hcf & _). rewrite Hcf.
  pose proof (check_fields_clean _ _ _ _ Hcf) as Hclean. cbn [rbind].
  destruct issues as [|i issues].
  - destruct Hclean as [Hall _]. destruct (Hall eq_refl) as [_ HF].
    assert (exists l, d !! "historicalData" = Some (JList l)) as [l Hl].
    { rewrite List.Forall_forall in HF. destruct (HF _ Hhd) as (v & Hv & Hty).
      simpl in *. destruct v; try discriminate. eauto. }
    unfold check_nonempty, check_sample. cbn [Py.getitem]. rewrite Hl. cbn [rbind Py.len].
    destruct l as [|p rest]; cbn [length Nat.eqb app rbind Py.getitem].
    + split; [done|]. by intros (_ & ? & ? & [=] & _).
    + cbn [rbind Py.first]. rewrite check_point_fields_clean.
      split.
      * intros [_ Hp]. split; [done|]. eauto.
      * intros (_ & p' & rest' & [= <- <-] & Hp). done.
  - cbn [check_nonempty rbind check_sample].
    split; [done|]. intros [HF _].
    assert (i :: issues = []) as [=]. by apply Hclean.
Qed.

Lemma validate_reports required point_fields d f ty v :
  In (f, ty) required -> d !! f = Some v -> Py.isinstance v ty = false ->
  exists issues,
    validate required point_fields (JDict d) = Ok issues /\ In (invalid_type f ty v) issues.
Proof.
  intros Hreq Hv Hty. unfold validate.
  destruct (check_fields_dict d [] required) as (issues & Hcf & _). rewrite Hcf.
  pose proof (check_fields_reports _ _ _ _ Hcf f ty v Hreq Hv Hty) as Hin.
  destruct issues as [|i issues]; [destruct Hin|].
  simpl. eauto.
Qed.

End ValidatorCases.

Lemma validate_demand_input_accepts d :
  validate_demand_input (JDict d) = Ok [] <->
  exists p rest fp,
    d !! "historicalData" = Some (JList (p :: rest)) /\
    d !! "futurePeriods" = Some fp /\
    Py.isinstance fp Py.TInt = true /\
    Py.contains p "date" = Ok true /\
    Py.contains p "demand" = Ok true.
Proof.
  unfold validate_demand_input. rewrite validate_accepts by (by left).
  unfold demand_required_fields. rewrite !Forall_cons, !Forall_nil. cbn [fst snd].
  split.
  - intros (((v & Hv & _) & (fp & Hfp & Hty) & _) & p & rest & Hhd
            & (Hdate & (Hdemand & _)%Forall_cons)%Forall_cons).
    exists p, rest, fp. done.
  - intros (p & rest & fp & Hhd & Hfp & Hty & Hdate & Hdemand).
    split; [|exists p, rest; split; [done|]; by repeat constructor].
    split; [by exists (JList (p :: rest))|].
    split; [by exists fp|done].
Qed.

Lemma validate_supplier_input_accepts d :
  validate_supplier_performance_input (JDict d) = Ok [] <->
  exists p rest fp sid,
    d !! "historicalData" = Some (JList (p :: rest)) /\
    d !! "futurePeriods" = Some fp /\
    Py.isinstance fp Py.TInt = true /\
    d !! "supplierId" = Some (JStr sid) /\
    Py.contains p "date" = Ok true /\
    Py.contains p "qualityRating" = Ok true /\
    Py.contains p "leadTimeReliability" = Ok true.
Proof.
  unfold validate_supplier_performance_input. rewrite validate_accepts by (by left).
  unfold supplier_required_fields. rewrite !Forall_cons, !Forall_nil. cbn [fst snd].
  split.
  - intros (((v & Hv & _) & (fp & Hfp & Hty) & (sid & Hsid & Hstr) & _)
            & p & rest & Hhd
            & (Hdate & (Hquality & (Hlead & _)%Forall_cons)%Forall_cons)%Forall_cons).
    destruct sid; try discriminate. exists p, rest, fp, s. done.
  - intros (p & rest & fp & sid & Hhd & Hfp & Hty & Hsid & Hdate & Hquality & Hlead).
    split; [|exists p, rest; split; [done|]; by repeat constructor].
    split; [by exists (JList (p :: rest))|].
    split; [by exists fp|]. split; [by exists (JStr sid)|done].
Qed.

(** X1.  The two validators accept a JSON object exactly when
    [historicalData] is a non-empty list, [futurePeriods] is an integer or
    a boolean ([bool] is a subclass of [int]), the supplier identifier is a
    string, and the first element of [historicalData] has every required
    point field.  Nothing else is looked at. *)
Theorem validators_accept d :
  (validate_demand_input (JDict d) = Ok [] <->
   exists p rest fp,
     d !! "historicalData" = Some (JList (p :: rest)) /\
     d !! "futurePeriods" = Some fp /\
     Py.isinstance fp Py.TInt = true /\
     Py.contains p "date" = Ok true /\
     Py.contains p "demand" = Ok true) /\
  (validate_supplier_performance_input (JDict d) = Ok [] <->
   exists p rest fp sid,
     d !! "historicalData" = Some (JList (p :: rest)) /\
     d !! "futurePeriods" = Some fp /\
     Py.isinstance fp Py.TInt = true /\
     d !! "supplierId" = Some (JStr sid) /\
     Py.contains p "date" = Ok true /\
     Py.contains p "qualityRating" = Ok true /\
     Py.contains p "leadTimeReliability" = Ok true).
Proof.
  split; [apply validate_demand_input_accepts|apply validate_supplier_input_accepts].
Qed.

(** ** Requests the operations answer before any data is processed *)

Lemma predict_demand_invalid env d n issues :
  Py.len (default (JList []) (d !! "historicalData")) = Ok n ->
  validate_demand_input (JDict d) = Ok issues -> issues <> [] ->
  predict_demand env (JDict d) = (Failure 400 (InvalidInput issues), []).
Proof.
  intros Hlen Hval Hne.
  unfold predict_demand, demand_request. simpl Py.get.
  rewrite bind_lift_eq with (a := default (JList []) (d !! "historicalData")) by done.
  rewrite (bind_lift_eq _ _ n Hlen), (bind_lift_eq _ _ issues Hval).
  by destruct issues.
Qed.

Lemma predict_supplier_invalid env d n issues :
  Py.len (default (JList []) (d !! "historicalData")) = Ok n ->
  validate_supplier_performance_input (JDict d) = Ok issues -> issues <> [] ->
  predict_supplier_performance env (JDict d) = (Failure 400 (InvalidInput issues), []).
Proof.
  intros Hlen Hval Hne.
  unfold predict_supplier_performance, supplier_request. simpl Py.get.
  rewrite bind_lift_eq with (a := default JNull (d !! "supplierId")) by done.
  rewrite bind_lift_eq with (a := default (JList []) (d !! "historicalData")) by done.
  rewrite (bind_lift_eq _ _ n Hlen), (bind_lift_eq _ _ issues Hval).
  by destruct issues.
Qed.

Lemma predict_demand_raises env d n e :
  Py.len (default (JList []) (d !! "historicalData")) = Ok n ->
  validate_demand_input (JDict d) = Raise e ->
  predict_demand env (JDict d) = (Failure 500 (FatalError e), []).
Proof.
  intros Hlen Hval.
  unfold predict_demand, demand_request. simpl Py.get.
  rewrite bind_lift_eq with (a := default (JList []) (d !! "historicalData")) by done.
  rewrite (bind_lift_eq _ _ n Hlen), (bind_lift_raise _ _ e Hval). reflexivity.
Qed.

Lemma predict_supplier_raises env d n e :
  Py.len (default (JList []) (d !! "historicalData")) = Ok n ->
  validate_supplier_performance_input (JDict d) = Raise e ->
  predict_supplier_performance env (JDict d) = (Failure 500 (FatalError e), []).
Proof.
  intros Hlen Hval.
  unfold predict_supplier_performance, supplier_request. simpl Py.get.
  rewrite bind_lift_eq with (a := default JNull (d !! "supplierId")) by done.
  rewrite bind_lift_eq with (a := default (JList []) (d !! "historicalData")) by done.
  rewrite (bind_lift_eq _ _ n Hlen), (bind_lift_raise _ _ e Hval). reflexivity.
Qed.

(** X2.  A required top-level field that is missing, or of the wrong
    type, is reported by name in a 400 response (for a wrong type, with
    the expected and the actual type), and the engine is not touched.
    This holds when the log line in front of the validation was able to
    take the length of [historicalData]. *)
Theorem required_fields_are_reported env d f ty n :
  Py.len (default (JList []) (d !! "historicalData")) = Ok n ->
  match d !! f with
  | None => True
  | Some v => Py.isinstance v ty = false
  end ->
  let issue :=
    match d !! f with
    | None => Validator.missing_field f
    | Some v => Validator.invalid_type f ty v
    end in
  (In (f, ty) demand_required_fields ->
   exists issues,
     predict_demand env (JDict d) = (Failure 400 (InvalidInput issues), []) /\
     In issue issues) /\
  (In (f, ty) supplier_required_fields ->
   exists issues,
     predict_supplier_performance env (JDict d) = (Failure 400 (InvalidInput issues), []) /\
     In issue issues).
Proof.
  intros Hlen Hf. cbn zeta. destruct (d !! f) as [v|] eqn:Hv.
  - split; intros Hreq.
    + destruct (validate_reports demand_required_fields ["date"; "demand"] d f ty v
                  Hreq Hv Hf) as (issues & Hval & Hin).
      exists issues. split; [|done].
      apply (predict_demand_invalid env d n issues Hlen Hval). by destruct issues.
    + destruct (validate_reports supplier_required_fields
                  ["date"; "qualityRating"; "leadTimeReliability"] d f ty v Hreq Hv Hf)
        as (issues & Hval & Hin).
      exists issues. split; [|done].
      apply (predict_supplier_invalid env d n issues Hlen Hval). by destruct issues.
  - split; intros Hreq.
    + by apply (predict_demand_missing_field env d f ty n).
    + by apply (predict_supplier_missing_field env d f ty n).
Qed.

Lemma required_fields_are_reported_witness :
  Validator.invalid_type "futurePeriods" Py.TInt (JStr "2")
  = "Invalid type for futurePeriods: expected int, got str" /\
  exists issues,
    predict_demand Naive.env Edge.text_periods = (Failure 400 (InvalidInput issues), []) /\
    In (Validator.invalid_type "futurePeriods" Py.TInt (JStr "2")) issues.
Proof.
  split; [reflexivity|].
  refine (proj1 (required_fields_are_reported Naive.env
                   (list_to_map [("historicalData", JList Example.three_days);
                                 ("futurePeriods", JStr "2");
                                 ("locationId", JStr "L"); ("modelId", JStr "M")])
                   "futurePeriods" Py.TInt 3 _ _) _).
  - vm_compute. reflexivity.
  - vm_compute. reflexivity.
  - right. left. reflexivity.
Defined.



(** X4.  The validators test the point fields with [in] on the first
    element of [historicalData].  When that element is not a container (a
    number, a boolean, [null]) the test itself raises: the request is not
    answered with 400 and a list of issues but with 500 "Fatal error". *)
Theorem first_point_not_a_container env d p rest fp e :
  d !! "historicalData" = Some (JList (p :: rest)) ->
  d !! "futurePeriods" = Some fp ->
  Py.isinstance fp Py.TInt = true ->
  Py.contains p "date" = Raise e ->
  (validate_demand_input (JDict d) = Raise e /\
   predict_demand env (JDict d) = (Failure 500 (FatalError e), [])) /\
  (forall sid, d !! "supplierId" = Some (JStr sid) ->
   validate_supplier_performance_input (JDict d) = Raise e /\
   predict_supplier_performance env (JDict d) = (Failure 500 (FatalError e), [])).
Proof.
  intros Hhd Hfp Hty Hdate.
  assert (Hlen : Py.len (default (JList []) (d !! "historicalData")) = Ok (S (length rest)))
    by (by rewrite Hhd).
  assert (validate_demand_input (JDict d) = Raise e) as Hval.
  { unfold validate_demand_input, Validator.validate, demand_required_fields.
    destruct fp; try discriminate Hty;
      repeat (progress (simpl; rewrite ?Hhd, ?Hfp, ?Hdate)); reflexivity. }
  split; [split; [done|by apply (predict_demand_raises env d _ e Hlen)]|].
  intros sid Hsid.
  assert (validate_supplier_performance_input (JDict d) = Raise e) as Hval'.
  { unfold validate_supplier_performance_input, Validator.validate, supplier_required_fields.
    destruct fp; try discriminate Hty;
      repeat (progress (simpl; rewrite ?Hhd, ?Hfp, ?Hsid, ?Hdate)); reflexivity. }
  split; [done|by apply (predict_supplier_raises env d _ e Hlen)].
Qed.

Lemma first_point_not_a_container_witness :
  predict_demand Naive.env Edge.number_point
  = (Failure 500 (FatalError (TypeError "argument is not iterable")), []).
Proof.
  refine (proj2 (proj1 (first_point_not_a_container Naive.env _ (JInt 5) [] (JInt 2)
                          (TypeError "argument is not iterable") _ _ _ _))).
  - vm_compute. reflexivity.
  - vm_compute. reflexivity.
  - reflexivity.
  - reflexivity.
Defined.

Section FirstPoint.

Import Validator.

Lemma check_fields_agree d d' issues required :
  (forall f ty, In (f, ty) required ->
     match d !! f, d' !! f with
     | None, None => True
     | Some v, Some v' =>
         Py.isinstance v ty = Py.isinstance v' ty /\ Py.type_name v = Py.type_name v'
     | _, _ => False
     end) ->
  check_fields (JDict d) issues required = check_fields (JDict d') issues required.
Proof.
  revert issues. induction required as [|[f ty] required IH]; intros issues H; [done|].
  simpl. pose proof (H f ty (or_introl eq_refl)) as Hf.
  assert (forall issues, check_fields (JDict d) issues required
                         = check_fields (JDict d') issues required) as IH'.
  { intros issues'. apply IH. intros f' ty' Hin. apply H. by right. }
  destruct (d !! f) as [v|], (d' !! f) as [v'|]; try done; simpl; [|apply IH'].
  destruct Hf as [-> Hname]. unfold invalid_type. rewrite Hname.
  destruct (Py.isinstance v' ty); simpl; apply IH'.
Qed.

Lemma validate_first_point required point_fields d p rest rest' :
  validate required point_fields (JDict (<["historicalData" := JList (p :: rest)]> d))
  = validate required point_fields (JDict (<["historicalData" := JList (p :: rest')]> d)).
Proof.
  unfold validate.
  rewrite (check_fields_agree (<["historicalData" := JList (p :: rest)]> d)
             (<["historicalData" := JList (p :: rest')]> d)).
  - destruct (check_fields _ [] required) as [[|i issues]|e]; [|done|done].
    unfold check_nonempty, check_sample. cbn [rbind Py.getitem].
    rewrite !lookup_insert_eq. reflexivity.
  - intros f ty _. destruct (decide (f = "historicalData")) as [->|Hne].
    + rewrite !lookup_insert_eq. by destruct ty.
    + rewrite !lookup_insert_ne by done. by destruct (d !! f).
Qed.

End FirstPoint.

(** X5.  Only the first element of [historicalData] is inspected: two
    requests that differ in the later elements get the same verdict from
    the validators, whatever those elements are. *)
Theorem validators_inspect_first_point d p rest rest' :
  validate_demand_input (JDict (<["historicalData" := JList (p :: rest)]> d))
  = validate_demand_input (JDict (<["historicalData" := JList (p :: rest')]> d)) /\
  validate_supplier_performance_input (JDict (<["historicalData" := JList (p :: rest)]> d))
  = validate_supplier_performance_input
      (JDict (<["historicalData" := JList (p :: rest')]> d)).
Proof. split; apply validate_first_point. Qed.



(** X7.  The first log line of both operations takes [len] of
    [historicalData].  When the field holds a value without a length
    ([null], a number, a boolean) the request is answered 500 "Fatal
    error", although the validator, had it been reached, would have
    reported the wrong type. *)
Theorem history_without_length env d v e :
  d !! "historicalData" = Some v ->
  Py.len v = Raise e ->
  predict_demand env (JDict d) = (Failure 500 (FatalError e), []) /\
  predict_supplier_performance env (JDict d) = (Failure 500 (FatalError e), []) /\
  (exists issues,
     validate_demand_input (JDict d) = Ok issues /\
     In (Validator.invalid_type "historicalData" Py.TList v) issues) /\
  (exists issues,
     validate_supplier_performance_input (JDict d) = Ok issues /\
     In (Validator.invalid_type "historicalData" Py.TList v) issues).
Proof.
  intros Hv Hlen.
  assert (Py.isinstance v Py.TList = false) as Hty by (by destruct v).
  split; [|split; [|split]].
  - unfold predict_demand, demand_request. simpl Py.get. rewrite Hv. cbn [default].
    rewrite bind_lift_value, (bind_lift_raise _ _ e Hlen). reflexivity.
  - unfold predict_supplier_performance, supplier_request. simpl Py.get. rewrite Hv.
    cbn [default]. rewrite !bind_lift_value, (bind_lift_raise _ _ e Hlen). reflexivity.
  - apply validate_reports; [by left|done|done].
  - apply validate_reports; [by left|done|done].
Qed.

Lemma history_without_length_witness :
  predict_demand Naive.env Example.null_history
  = (Failure 500 (FatalError (TypeError "object has no len()")), []).
Proof.
  refine (proj1 (history_without_length Naive.env _ JNull (TypeError "object has no len()")
                   _ _)).
  - vm_compute. reflexivity.
  - reflexivity.
Defined.

(** ** The responses of the two operations *)

Lemma try_except_ret_Ok {A} (m : M A) (h : exn -> A) e log :
  try_except m (fun e => ret (h e)) <> (Raise e, log).
Proof. unfold try_except, ret. by destruct m as [[a|e'] l]. Qed.

Lemma try_except_ret_handled {A} (m : M A) (h : exn -> A) a log :
  try_except m (fun e => ret (h e)) = (Ok a, log) ->
  m = (Ok a, log) \/ exists e, m = (Raise e, log) /\ a = h e.
Proof.
  unfold try_except, ret. destruct m as [[a'|e] l].
  - intros [= -> ->]. by left.
  - rewrite app_nil_r. intros [= <- <-]. right. eauto.
Qed.

(** Before the inner [try], nothing is logged. *)
Ltac lift_case H :=
  match type of H with
  | bind (lift ?r) _ = _ =>
      let E := fresh "E" in
      destruct r eqn:E;
      [rewrite bind_lift_value in H | by (injection H as <- <-)]
  end.

Lemma demand_request_Raise env data e log :
  demand_request env data = (Raise e, log) -> log = [].
Proof.
  unfold demand_request. intros H.
  lift_case H. lift_case H. lift_case H.
  match type of H with context [match ?i with [] => _ | _ :: _ => _ end] => destruct i end;
    [|discriminate].
  lift_case H. lift_case H. lift_case H.
  by apply try_except_ret_Ok in H.
Qed.

Lemma supplier_request_Raise env data e log :
  supplier_request env data = (Raise e, log) -> log = [].
Proof.
  unfold supplier_request. intros H.
  lift_case H. lift_case H. lift_case H. lift_case H.
  match type of H with context [match ?i with [] => _ | _ :: _ => _ end] => destruct i end;
    [|discriminate].
  lift_case H. lift_case H. lift_case H.
  by apply try_except_ret_Ok in H.
Qed.

(** A demand forecast that ends normally ends in a success or in one of
    the three rejections of the data, and these come before anything is
    logged. *)
Lemma demand_forecast_Ok env data historical_data location_id model_id r log :
  demand_forecast env data historical_data location_id model_id = (Ok r, log) ->
  match r with
  | Success _ => True
  | Failure status err =>
      status = 400 /\ log = [] /\
      match err with
      | MissingDemandValues _ _ | NonNumericDemand | InsufficientDensity _ => True
      | _ => False
      end
  end.
Proof.
  unfold demand_forecast. intros H.
  lift_inv H as df Hdf. lift_inv H as y Hy.
  destruct (existsb Py.isnull y); [by injection H as <- <-|].
  destruct (negb (forallb _ _)); [by injection H as <- <-|].
  lift_inv H as d Hd.
  destruct (Float.lt d density_threshold); [by injection H as <- <-|].
  bind_inv H as u log_gaps Hgaps.
  lift_inv H as future_periods Hperiods.
  bind_inv H as regs log_regs Hregs. destruct regs as [added fr].
  bind_inv H as u' log_fit Hfit.
  lift_inv H as periods Hint. lift_inv H as future Hfuture.
  bind_inv H as columns log_attach Hattach.
  bind_inv H as fc log_predict Hpredict.
  bind_inv H as st log_strengths Hstrengths. destruct st as [s t].
  lift_inv H as start Hstart. lift_inv H as stop Hstop.
  by injection H as <- _.
Qed.

(** X8.  What [predict_demand] answers when it does not answer 200.  The
    status is 400 for the issues of the validator, for the three
    rejections of the data, for an empty dataset and for a [ValueError],
    and 500 for every other exception.  The issues are those of the
    validator.  A rejection by the validator or by one of the data checks,
    and a fatal error, leave the log empty: the engine was not invoked. *)
Theorem predict_demand_outcomes env data status err log :
  predict_demand env data = (Failure status err, log) ->
  match err with
  | InvalidInput issues =>
      status = 400 /\ log = [] /\ issues <> [] /\ validate_demand_input data = Ok issues
  | MissingDemandValues _ _ | NonNumericDemand | InsufficientDensity _ =>
      status = 400 /\ log = [] /\ validate_demand_input data = Ok []
  | EmptyDataset => status = 400 /\ validate_demand_input data = Ok []
  | DataProcessingError e =>
      status = 400 /\ validate_demand_input data = Ok [] /\ exists what, e = ValueError what
  | UnexpectedError e =>
      status = 500 /\ validate_demand_input data = Ok [] /\
      e <> EmptyDataError /\ forall what, e <> ValueError what
  | FatalError _ => status = 500 /\ log = []
  end.
Proof.
  unfold predict_demand, handle.
  destruct (demand_request env data) as [[r|e] l] eqn:Hreq;
    [intros [= -> ->]|intros [= <- <- <-]].
  - unfold demand_request in Hreq.
    lift_inv Hreq as hd Hhd. lift_inv Hreq as n Hn. lift_inv Hreq as issues Hval.
    destruct issues as [|i issues]; [|by injection Hreq as <- <- <-].
    lift_inv Hreq as historical_data Hdata. lift_inv Hreq as location_id Hloc.
    lift_inv Hreq as model_id Hmodel.
    apply try_except_ret_handled in Hreq as [Hrun|(e & Hrun & Hresp)].
    + apply demand_forecast_Ok in Hrun as (-> & -> & Herr). by destruct err.
    + destruct e; simpl in Hresp; injection Hresp as -> ->;
        repeat split; eauto; discriminate.
  - by apply demand_request_Raise in Hreq.
Qed.

Lemma predict_demand_outcomes_witness :
  predict_demand Naive.env Example.sparse_demand
  = (Failure 400 (InsufficientDensity (PFin (2 # 9))), []) /\
  400 = 400 /\ @nil event = [] /\ validate_demand_input Example.sparse_demand = Ok [].
Proof.
  assert (predict_demand Naive.env Example.sparse_demand
          = (Failure 400 (InsufficientDensity (PFin (2 # 9))), [])) as H
    by (vm_compute; reflexivity).
  split; [exact H|].
  exact (predict_demand_outcomes Naive.env Example.sparse_demand 400
           (InsufficientDensity (PFin (2 # 9))) [] H).
Defined.

(** X9.  What [predict_supplier_performance] answers when it does not
    answer 200: the statuses are those of the demand operation, but no
    response rejects the data for missing values, for values that are not
    numbers or for a low density. *)
Theorem predict_supplier_outcomes env data status err log :
  predict_supplier_performance env data = (Failure status err, log) ->
  match err with
  | InvalidInput issues =>
      status = 400 /\ log = [] /\ issues <> [] /\
      validate_supplier_performance_input data = Ok issues
  | MissingDemandValues _ _ | NonNumericDemand | InsufficientDensity _ => False
  | EmptyDataset => status = 400 /\ validate_supplier_performance_input data = Ok []
  | DataProcessingError e =>
      status = 400 /\ validate_supplier_performance_input data = Ok [] /\
      exists what, e = ValueError what
  | UnexpectedError e =>
      status = 500 /\ validate_supplier_performance_input data = Ok [] /\
      e <> EmptyDataError /\ forall what, e <> ValueError what
  | FatalError _ => status = 500 /\ log = []
  end.
Proof.
  unfold predict_supplier_performance, handle.
  destruct (supplier_request env data) as [[r|e] l] eqn:Hreq;
    [intros [= -> ->]|intros [= <- <- <-]].
  - unfold supplier_request in Hreq.
    lift_inv Hreq as sid Hsid. lift_inv Hreq as hd Hhd. lift_inv Hreq as n Hn.
    lift_inv Hreq as issues Hval.
    destruct issues as [|i issues]; [|by injection Hreq as <- <- <-].
    lift_inv Hreq as historical_data Hdata. lift_inv Hreq as future_periods Hperiods.
    lift_inv Hreq as supplier_id Hsupplier.
    apply try_except_ret_handled in Hreq as [Hrun|(e & Hrun & Hresp)].
    + by apply supplier_forecast_Ok in Hrun as [body [=]].
    + destruct e; simpl in Hresp; injection Hresp as -> ->;
        repeat split; eauto; discriminate.
  - by apply supplier_request_Raise in Hreq.
Qed.

Lemma predict_supplier_outcomes_witness :
  predict_supplier_performance Naive.env Edge.one_rating
  = (Failure 400 (DataProcessingError (ValueError "Dataframe has less than 2 non-NaN rows.")),
     [Warn (NullValues "qualityRating" 2);
      Fit (supplier_config (5 # 100))
        [HRow (Naive.iso_date "2024-01-01") (JInt 1) {[ "qualityRating" := JInt 1 ]}]]) /\
  400 = 400 /\ validate_supplier_performance_input Edge.one_rating = Ok [] /\
  exists what, ValueError "Dataframe has less than 2 non-NaN rows." = ValueError what.
Proof.
  assert (predict_supplier_performance Naive.env Edge.one_rating
          = (Failure 400
               (DataProcessingError (ValueError "Dataframe has less than 2 non-NaN rows.")),
             [Warn (NullValues "qualityRating" 2);
              Fit (supplier_config (5 # 100))
                [HRow (Naive.iso_date "2024-01-01") (JInt 1) {[ "qualityRating" := JInt 1 ]}]]))
    as H by (vm_compute; reflexivity).
  split; [exact H|].
  exact (predict_supplier_outcomes Naive.env Edge.one_rating 400 _ _ H).
Defined.

(** ** Requests that reach the regressors *)

Lemma bind_eq {A B} (m : M A) (k : A -> M B) a l1 r l2 :
  m = (Ok a, l1) -> k a = (r, l2) -> bind m k = (r, l1 ++ l2).
Proof. intros -> Hk. unfold bind. by rewrite Hk. Qed.

Lemma bind_raise {A B} (m : M A) (k : A -> M B) e l :
  m = (Raise e, l) -> bind m k = (Raise e, l).
Proof. by intros ->. Qed.

Lemma handle_raise {B} (body : M (response B)) e l :
  body = (Raise e, l) ->
  handle (try_except body (fun e => ret (data_processing_handler e))) fatal_handler
  = (data_processing_handler e, l).
Proof. intros ->. unfold handle, try_except, ret. by rewrite app_nil_r. Qed.

Lemma fit_None env cfg history :
  prophet_fit env cfg history = None -> fit env cfg history = (Ok tt, [Fit cfg history]).
Proof. intros H. unfold fit, bind, emit, ret. by rewrite H. Qed.

Lemma fit_Some env cfg history e :
  prophet_fit env cfg history = Some e -> fit env cfg history = (Raise e, [Fit cfg history]).
Proof. intros H. unfold fit, bind, emit, raise. by rewrite H. Qed.

(** The steps of [predict_demand] up to the gap detection, on a request
    that passes them. *)
Tactic Notation "accepted" hyp(Hacc) "as" ident(hd) ident(loc) ident(model) ident(Hdf)
    ident(Hchecked) ident(Hgaps) :=
  let Hnull := fresh "Hnull" in
  let Hnum := fresh "Hnum" in
  let dens := fresh "dens" in
  let Hd := fresh "Hd" in
  let Hdense := fresh "Hdense" in
  let Hreq := fresh "Hreq" in
  let Hcol := fresh "Hcol" in
  destruct Hacc as (Hchecked & Hnull & Hnum & (dens & Hd & Hdense) & Hgaps);
  destruct (demand_request_checked _ _ _ Hchecked) as (hd & loc & model & Hdf & Hreq);
  pose proof Hchecked as (_ & _ & _ & _ & _ & _ & _ & _ & Hcol);
  unfold predict_demand; rewrite Hreq; unfold demand_forecast;
  rewrite (bind_lift_eq _ _ _ Hdf), Hcol, bind_lift_value; cbn zeta;
  rewrite Hnull, Hnum; cbn [negb]; rewrite (bind_lift_eq _ _ _ Hd), Hdense.

Lemma resolve_supplied_mti env d df fp loc fr v :
  has_column df "mti" = true ->
  has_column df "inflation" = false ->
  d !! "futureRegressors" = Some (JDict fr) ->
  fr !! "mti" = Some v ->
  resolve_regressors env (JDict d) df fp loc = (Ok (["mti"], [("mti", v)]), []).
Proof.
  intros Hmti Hinflation Hfr Hv. unfold resolve_regressors, mti_supplied.
  rewrite Hmti, Hinflation. cbn [Py.contains Py.getitem rbind]. rewrite Hfr.
  cbn [rbind Py.contains Py.getitem]. rewrite Hv.
  rewrite !bool_decide_eq_true_2 by eauto. cbn [rbind].
  rewrite !bind_lift_value. cbn [Py.getitem]. rewrite Hv, bind_lift_value, bind_ret.
  reflexivity.
Qed.

Lemma attach_mismatch env n name l rest :
  length l <> n ->
  attach_regressors env n ((name, JList l) :: rest)
  = (Raise (ValueError "Length of values does not match length of index"),
     [LogError (LengthMismatch name (length l) n)]).
Proof.
  intros Hne. apply Nat.eqb_neq in Hne.
  cbn [attach_regressors Py.len]. rewrite bind_lift_value. unfold set_column.
  rewrite Hne. reflexivity.
Qed.


Ltac by_evaluation := vm_compute; first [reflexivity | eauto].

Lemma long_mti_accepted :
  demand_accepted Naive.env Edge.long_mti (Example.frame Edge.long_mti) [].
Proof.
  split.
  { eexists _, _. split; [reflexivity|]. repeat split; by_evaluation. }
  split; [by_evaluation|]. split; [by_evaluation|].
  split; [|by_evaluation].
  eexists. split; by_evaluation.
Qed.


Lemma resolve_not_an_object env d df fp loc v :
  has_column df "mti" = true ->
  d !! "futureRegressors" = Some v ->
  (forall m, v <> JDict m) ->
  Py.contains v "mti" <> Ok false ->
  exists what, resolve_regressors env (JDict d) df fp loc = (Raise (TypeError what), []).
Proof.
  intros Hmti Hv Hobject Hcontains. unfold resolve_regressors, mti_supplied.
  rewrite Hmti. cbn [Py.contains Py.getitem rbind]. rewrite Hv.
  rewrite !bool_decide_eq_true_2 by eauto. cbn [rbind].
  destruct (Py.contains v "mti") as [[|]|e] eqn:Hc; [| |].
  - rewrite !bind_lift_value.
    destruct v; try discriminate; [eexists; reflexivity..|by destruct (Hobject d0)].
  - by destruct Hcontains.
  - destruct v; try discriminate; injection Hc as <-; eexists; reflexivity.
Qed.

(** X11.  [futureRegressors] is read with [in] and with a subscript.  When
    the records have an [mti] field and the request carries a
    [futureRegressors] that is not an object, the test or the subscript
    raises [TypeError] (unless the value is a list or a string without
    ["mti"], which counts as no future values): the request is answered
    500 "Unexpected error during data processing" and the engine is not
    invoked. *)
Theorem future_regressors_not_an_object env data df gaps v :
  demand_accepted env data df gaps ->
  has_column df "mti" = true ->
  Py.getitem data "futureRegressors" = Ok v ->
  (forall m, v <> JDict m) ->
  Py.contains v "mti" <> Ok false ->
  exists what,
    predict_demand env data = (Failure 500 (UnexpectedError (TypeError what)), gaps).
Proof.
  intros Hacc Hmti Hv Hobject Hcontains.
  accepted Hacc as hd loc model Hdf Hchecked Hgaps.
  destruct Hchecked as (d & points & -> & _ & Hvalid & _).
  assert (d !! "futureRegressors" = Some v) as Hv'.
  { cbn [Py.getitem] in Hv. by destruct (d !! "futureRegressors"); simplify_eq. }
  apply validate_demand_input_accepts in Hvalid as (_ & _ & fp & _ & Hfp & _).
  destruct (resolve_not_an_object env d df fp loc v Hmti Hv' Hobject Hcontains)
    as (what & Hresolve).
  exists what.
  apply (handle_raise _ (TypeError what)).
  replace gaps with (gaps ++ []) by apply app_nil_r.
  eapply bind_eq; [exact Hgaps|].
  cbn [Py.get]. rewrite Hfp. cbn [default]. rewrite bind_lift_value.
  by apply bind_raise.
Qed.

Lemma null_regressors_accepted :
  demand_accepted Naive.env Edge.null_regressors (Example.frame Edge.null_regressors) [].
Proof.
  split.
  { eexists _, _. split; [reflexivity|]. repeat split; by_evaluation. }
  split; [by_evaluation|]. split; [by_evaluation|].
  split; [|by_evaluation].
  eexists. split; by_evaluation.
Qed.

Lemma future_regressors_not_an_object_witness :
  exists what,
    predict_demand Naive.env Edge.null_regressors
    = (Failure 500 (UnexpectedError (TypeError what)), []).
Proof.
  refine (future_regressors_not_an_object Naive.env Edge.null_regressors
            (Example.frame Edge.null_regressors) [] JNull null_regressors_accepted _ _ _ _).
  - vm_compute. reflexivity.
  - vm_compute. reflexivity.
  - discriminate.
  - discriminate.
Defined.

(** ** What a 200 response says about the request *)

Lemma strftime_Ok t z : strftime t = Ok z -> t = Some z.
Proof. destruct t; simpl; congruence. Qed.

Lemma predict_demand_Success_request env data body log :
  predict_demand env data = (Success body, log) ->
  exists d p rest df,
    data = JDict d /\
    d !! "historicalData" = Some (JList (p :: rest)) /\
    d !! "futurePeriods" = Some (futurePeriods body) /\
    d !! "locationId" = Some (locationId body) /\
    d !! "modelId" = Some (modelId body) /\
    DataFrame env (JList (p :: rest)) = Ok df /\
    Ts.min (map ds df) = Some (dateRange_start body) /\
    Ts.max (map ds df) = Some (dateRange_end body) /\
    confidenceInterval body = (95 # 100)%Q /\
    dataPoints body = length df.
Proof.
  unfold predict_demand, handle.
  destruct (demand_request env data) as [[r|e] l] eqn:Hreq; [|discriminate].
  intros [= -> ->]. unfold demand_request in Hreq.
  lift_inv Hreq as hd Hhd. lift_inv Hreq as n Hn. lift_inv Hreq as issues Hval.
  destruct issues as [|i issues]; [|discriminate].
  lift_inv Hreq as historical_data Hdata. lift_inv Hreq as location_id Hloc.
  lift_inv Hreq as model_id Hmodel.
  destruct data as [| | | | | |d]; try discriminate Hhd.
  apply validate_demand_input_accepts in Hval as (p & rest & fp & Hpoints & Hfp & _).
  cbn [Py.getitem] in Hdata, Hloc, Hmodel. rewrite Hpoints in Hdata. injection Hdata as <-.
  destruct (d !! "locationId") as [loc|] eqn:Hloc'; [|discriminate]. injection Hloc as ->.
  destruct (d !! "modelId") as [model|] eqn:Hmodel'; [|discriminate]. injection Hmodel as ->.
  apply try_except_Success in Hreq; [|apply data_processing_handler_Failure].
  unfold demand_forecast in Hreq.
  lift_inv Hreq as df Hdf. lift_inv Hreq as y Hy.
  destruct (existsb Py.isnull y); [discriminate|].
  destruct (negb (forallb _ _)); [discriminate|].
  lift_inv Hreq as dens Hd.
  destruct (Float.lt dens density_threshold); [discriminate|].
  bind_inv Hreq as u log_gaps Hgaps.
  lift_inv Hreq as future_periods Hperiods.
  bind_inv Hreq as regs log_regs Hregs. destruct regs as [added fr].
  bind_inv Hreq as u' log_fit Hfit.
  lift_inv Hreq as periods Hint. lift_inv Hreq as future Hfuture.
  bind_inv Hreq as columns log_attach Hattach.
  bind_inv Hreq as fc log_predict Hpredict.
  bind_inv Hreq as st log_strengths Hstrengths. destruct st as [s t].
  lift_inv Hreq as start Hstart. lift_inv Hreq as stop Hstop.
  injection Hreq as <- _.
  cbn [Py.get] in Hperiods. rewrite Hfp in Hperiods. injection Hperiods as <-.
  apply strftime_Ok in Hstart, Hstop.
  exists d, p, rest, df. cbn. repeat split; done.
Qed.

Lemma predict_supplier_Success_request env data body log :
  predict_supplier_performance env data = (Success body, log) ->
  exists d p rest df sid,
    data = JDict d /\
    d !! "historicalData" = Some (JList (p :: rest)) /\
    d !! "futurePeriods" = Some (s_futurePeriods body) /\
    d !! "supplierId" = Some (JStr sid) /\
    supplierId body = JStr sid /\
    DataFrame env (JList (p :: rest)) = Ok df /\
    Ts.min (map ds df) = Some (s_dateRange_start body) /\
    Ts.max (map ds df) = Some (s_dateRange_end body) /\
    s_confidenceInterval body = (95 # 100)%Q /\
    s_dataPoints body = length df.
Proof.
  unfold predict_supplier_performance, handle.
  destruct (supplier_request env data) as [[r|e] l] eqn:Hreq; [|discriminate].
  intros [= -> ->]. unfold supplier_request in Hreq.
  lift_inv Hreq as sid0 Hsid0. lift_inv Hreq as hd Hhd. lift_inv Hreq as n Hn.
  lift_inv Hreq as issues Hval.
  destruct issues as [|i issues]; [|discriminate].
  lift_inv Hreq as historical_data Hdata. lift_inv Hreq as future_periods Hperiods.
  lift_inv Hreq as supplier_id Hsupplier.
  destruct data as [| | | | | |d]; try discriminate Hhd.
  apply validate_supplier_input_accepts in Hval
    as (p & rest & fp & sid & Hpoints & Hfp & _ & Hsid & _).
  cbn [Py.getitem Py.get] in Hdata, Hperiods, Hsupplier.
  rewrite Hpoints in Hdata. injection Hdata as <-.
  rewrite Hfp in Hperiods. injection Hperiods as <-.
  rewrite Hsid in Hsupplier. injection Hsupplier as <-.
  apply try_except_Success in Hreq; [|apply data_processing_handler_Failure].
  unfold supplier_forecast in Hreq.
  lift_inv Hreq as df Hdf. lift_inv Hreq as dens Hd.
  bind_inv Hreq as u log_density Hdensity.
  bind_inv Hreq as u' log_gaps Hgaps.
  bind_inv Hreq as q log_quality Hquality. destruct q as [[qpoints qplot] qfc].
  bind_inv Hreq as lt log_lead Hlead. destruct lt as [[lpoints lplot] lfc].
  bind_inv Hreq as st log_strengths Hstrengths. destruct st as [s t].
  lift_inv Hreq as start Hstart. lift_inv Hreq as stop Hstop.
  injection Hreq as <- _.
  apply strftime_Ok in Hstart, Hstop.
  exists d, p, rest, df, sid. cbn. repeat split; done.
Qed.

Lemma index_rows_length k dates records :
  length dates = length records ->
  length (index_rows k dates records) = length records /\
  map cells (index_rows k dates records) = records /\
  map ds (index_rows k dates records) = dates.
Proof.
  revert k records. induction dates as [|t dates IH]; intros k [|d records] Hlen;
    try discriminate; [done|].
  injection Hlen as Hlen. destruct (IH (S k) records Hlen) as (H1 & H2 & H3).
  simpl. by rewrite H1, H2, H3.
Qed.

Lemma records_of_length l records : records_of l = Some records -> length records = length l.
Proof. unfold records_of. intros H. symmetry. by eapply length_mapM. Qed.

Lemma records_of_declares l records name :
  records_of l = Some records ->
  existsb (fun d => bool_decide (is_Some (d !! name))) records = declares name l.
Proof.
  unfold records_of, declares. revert records.
  induction l as [|j l IH]; intros records; simpl.
  - by intros [= <-].
  - destruct j; try discriminate. simpl.
    destruct (mapM _ l) as [records'|] eqn:Hl; [|discriminate]. simpl.
    intros [= <-]. simpl. by rewrite (IH records').
Qed.

Lemma existsb_fmap {A B} (f : A -> B) (p : B -> bool) l :
  existsb p (map f l) = existsb (fun x => p (f x)) l.
Proof. induction l as [|x l IH]; simpl; by rewrite ?IH. Qed.

(** The frame of a request has one row per record, and the columns the
    records declare. *)
Lemma DataFrame_records env points df :
  env_ok env ->
  DataFrame env (JList points) = Ok df ->
  length df = length points /\
  forall name, has_column df name = declares name points.
Proof.
  intros Henv. unfold DataFrame.
  destruct (records_of points) as [records|] eqn:Hrecords; [|discriminate].
  destruct (column_of records "date") as [col|] eqn:Hcol; [|discriminate]. cbn [rbind].
  destruct (to_datetime env col) as [dates|] eqn:Hdates; [|discriminate]. cbn [rbind].
  intros [= <-].
  apply (to_datetime_length _ Henv) in Hdates.
  assert (length col = length records) as Hlen.
  { unfold column_of in Hcol. destruct (existsb _ records); [|discriminate].
    injection Hcol as <-. by rewrite length_map. }
  destruct (index_rows_length 0 dates records) as (H1 & H2 & _); [congruence|].
  split; [rewrite H1; by apply records_of_length|].
  intros name. unfold has_column.
  rewrite <- (records_of_declares points records name Hrecords).
  rewrite <- H2 at 2. by rewrite existsb_fmap.
Qed.

(** X12.  The metadata of a 200 response repeat the request.  For
    [predict_demand], [locationId], [modelId] and [futurePeriods] are the
    values sent; for [predict_supplier_performance], [supplierId] and
    [futurePeriods].  The default of 90 periods is never used, the
    validators having required the field.  [dataPoints] is the number of
    records sent, duplicates and the rows dropped by the cleaning of a
    metric included, and the confidence interval is 0.95. *)
Theorem responses_repeat_request env :
  env_ok env ->
  (forall data body log,
     predict_demand env data = (Success body, log) ->
     exists d points,
       data = JDict d /\
       d !! "historicalData" = Some (JList points) /\
       d !! "locationId" = Some (locationId body) /\
       d !! "modelId" = Some (modelId body) /\
       d !! "futurePeriods" = Some (futurePeriods body) /\
       dataPoints body = length points /\
       confidenceInterval body = (95 # 100)%Q) /\
  (forall data body log,
     predict_supplier_performance env data = (Success body, log) ->
     exists d points,
       data = JDict d /\
       d !! "historicalData" = Some (JList points) /\
       d !! "supplierId" = Some (supplierId body) /\
       d !! "futurePeriods" = Some (s_futurePeriods body) /\
       s_dataPoints body = length points /\
       s_confidenceInterval body = (95 # 100)%Q).
Proof.
  intros Henv. split; intros data body log Hrun.
  - destruct (predict_demand_Success_request _ _ _ _ Hrun)
      as (d & p & rest & df & -> & Hpoints & Hfp & Hloc & Hmodel & Hdf & _ & _ & Hci & Hn).
    exists d, (p :: rest). repeat split; try done.
    rewrite Hn. by apply (DataFrame_records env (p :: rest) df Henv Hdf).
  - destruct (predict_supplier_Success_request _ _ _ _ Hrun)
      as (d & p & rest & df & sid & -> & Hpoints & Hfp & Hsid & Hsid' & Hdf & _ & _ & Hci & Hn).
    exists d, (p :: rest). rewrite Hsid'. repeat split; try done.
    rewrite Hn. by apply (DataFrame_records env (p :: rest) df Henv Hdf).
Qed.

Lemma responses_repeat_request_witness :
  (exists body log,
     predict_demand Naive.env (Example.demand Example.three_days 2 []) = (Success body, log) /\
     exists d points,
       Example.demand Example.three_days 2 [] = JDict d /\
       d !! "historicalData" = Some (JList points) /\
       d !! "locationId" = Some (locationId body) /\
       d !! "modelId" = Some (modelId body) /\
       d !! "futurePeriods" = Some (futurePeriods body) /\
       dataPoints body = length points /\
       confidenceInterval body = (95 # 100)%Q) /\
  (exists body log,
     predict_supplier_performance Naive.env Example.sparse_ratings = (Success body, log) /\
     exists d points,
       Example.sparse_ratings = JDict d /\
       d !! "historicalData" = Some (JList points) /\
       d !! "supplierId" = Some (supplierId body) /\
       d !! "futurePeriods" = Some (s_futurePeriods body) /\
       s_dataPoints body = length points /\
       s_confidenceInterval body = (95 # 100)%Q).
Proof.
  pose proof (responses_repeat_request Naive.env Naive_env_ok) as [Hdemand Hsupplier].
  split.
  - successful (predict_demand Naive.env (Example.demand Example.three_days 2 []))
      body log Hrun.
    exists body, log. split; [reflexivity|]. exact (Hdemand _ body log Hrun).
  - successful (predict_supplier_performance Naive.env Example.sparse_ratings) body log Hrun.
    exists body, log. split; [reflexivity|]. exact (Hsupplier _ body log Hrun).
Defined.

(** The frame of a successful run is the frame of the records sent. *)
Lemma demand_run_frame env d points df body log (R : demand_run env (JDict d) body log) :
  d !! "historicalData" = Some (JList points) ->
  DataFrame env (JList points) = Ok df ->
  dr_df _ _ _ _ R = df.
Proof.
  intros Hpoints Hdf.
  pose proof (dr_get_data _ _ _ _ R) as Hget. pose proof (dr_frame _ _ _ _ R) as Hframe.
  cbn [Py.getitem] in Hget. rewrite Hpoints in Hget. injection Hget as Hget.
  rewrite <- Hget, Hdf in Hframe. by injection Hframe.
Qed.

(** X13.  [regressorsUsed] lists the regressors that at least one record
    declares, [mti] before [inflation]; a single record with the field is
    enough.  A regressor no record declares is reported with an empty
    list of future values. *)
Theorem regressors_used_are_declared env data body log :
  env_ok env ->
  predict_demand env data = (Success body, log) ->
  exists points,
    Py.getitem data "historicalData" = Ok (JList points) /\
    regressorsUsed body = List.filter (fun name => declares name points) ["mti"; "inflation"] /\
    (declares "mti" points = false -> futureRegressors_mti body = JList []) /\
    (declares "inflation" points = false -> futureRegressors_inflation body = JList []).
Proof.
  intros Henv Hrun.
  pose proof (predict_demand_Success _ _ _ _ Hrun) as R.
  destruct (predict_demand_Success_request _ _ _ _ Hrun)
    as (d & p & rest & df & -> & Hpoints & _ & _ & _ & Hdf & _).
  exists (p :: rest). split; [cbn [Py.getitem]; by rewrite Hpoints|].
  destruct (DataFrame_records env (p :: rest) df Henv Hdf) as [_ Hcols].
  pose proof (demand_run_frame _ _ _ _ _ _ R Hpoints Hdf) as Hframe.
  pose proof (dr_resolve _ _ _ _ R) as Hresolve. rewrite Hframe in Hresolve.
  rewrite (dr_used _ _ _ _ R), (dr_mti _ _ _ _ R), (dr_inflation _ _ _ _ R).
  destruct (dr_regressors _ _ _ _ R) as [added fr]. cbn [fst snd] in *.
  apply resolve_regressors_Ok in Hresolve
    as (fr1 & log1 & fr2 & log2 & Hmti & Hinflation & -> & -> & _).
  cbn [List.filter]. rewrite <- !Hcols.
  inversion Hmti as [Hm|? ? Hm|? ? ? Hm]; inversion Hinflation as [Hi|? ? Hi]; subst;
    rewrite Hm, Hi; cbn; repeat split; done.
Qed.

Lemma regressors_used_are_declared_witness :
  exists body log points,
    predict_demand Naive.env Example.declared_mti = (Success body, log) /\
    Py.getitem Example.declared_mti "historicalData" = Ok (JList points) /\
    regressorsUsed body = List.filter (fun name => declares name points) ["mti"; "inflation"] /\
    (declares "mti" points = false -> futureRegressors_mti body = JList []) /\
    (declares "inflation" points = false -> futureRegressors_inflation body = JList []).
Proof.
  successful (predict_demand Naive.env Example.declared_mti) body log Hrun.
  pose proof (regressors_used_are_declared Naive.env _ body log Naive_env_ok Hrun)
    as (points & H).
  exists body, log, points. split; [reflexivity|exact H].
Defined.

(** ** The horizon of the forecasts *)

Lemma map_Some_inj {A} (l1 l2 : list A) : map Some l1 = map Some l2 -> l1 = l2.
Proof.
  revert l2. induction l1 as [|x l1 IH]; intros [|y l2]; simpl; try done.
  intros [= -> H]. by rewrite (IH _ H).
Qed.

Lemma Ts_max_In l m : Ts.max l = Some m -> In (Some m) l.
Proof.
  revert m. induction l as [|[x|] l IH]; intros m; simpl;
    [done| |intros H; right; by apply IH].
  destruct (Ts.max l) as [y|] eqn:Hmax.
  - intros [= <-]. destruct (Z.max_spec x y) as [[_ ->]|[_ ->]]; [right; by apply IH|by left].
  - intros [= <-]. by left.
Qed.

Lemma sublist_In {A} (l1 l2 : list A) x : sublist l1 l2 -> In x l1 -> In x l2.
Proof.
  induction 1 as [|y l1 l2 _ IH|y l1 l2 _ IH]; simpl; [done| |by right; apply IH].
  intros [->|Hin]; [by left|right; by apply IH].
Qed.

(** The rows of a forecast over a horizon without history are the days
    that follow the last timestamp of the history. *)
Lemma horizon_rows env cfg history n future columns fc :
  env_ok env ->
  make_future_dataframe history n false = Ok future ->
  0 <= n ->
  prophet_predict env cfg history {| fut_ds := future; fut_x := columns |} = Ok fc ->
  exists last,
    Ts.max (map h_ds history) = Some last /\
    map f_ds (frows fc) = days_after last n.
Proof.
  intros Henv Hfuture Hn Hpredict.
  destruct (make_future_dataframe_Ok _ _ _ _ Hfuture Hn) as (last & dates & Hlast & -> & _ & ->).
  exists last. split; [done|].
  apply (predict_rows _ Henv) in Hpredict. cbn [fut_ds app] in Hpredict.
  apply map_Some_inj. by rewrite map_map.
Qed.

(** X14.  The forecast of a 200 response of [predict_demand] has one row
    for each of the [futurePeriods] days that follow [dateRange.end], in
    order: the horizon starts the day after the last historical date and
    holds no historical date. *)
Theorem demand_forecast_horizon env data body log n :
  env_ok env ->
  predict_demand env data = (Success body, log) ->
  as_int (futurePeriods body) = Ok n ->
  0 <= n ->
  map date (forecast body) = days_after (dateRange_end body) n /\
  length (forecast body) = Z.to_nat n.
Proof.
  intros Henv Hrun Hint Hn.
  pose proof (predict_demand_Success _ _ _ _ Hrun) as R.
  destruct (predict_demand_Success_request _ _ _ _ Hrun)
    as (d & p & rest & df & -> & Hpoints & _ & _ & _ & Hdf & _ & Hmax & _).
  pose proof (demand_run_frame _ _ _ _ _ _ R Hpoints Hdf) as Hframe.
  pose proof (dr_as_int _ _ _ _ R) as Hint'. rewrite Hint in Hint'. injection Hint' as Hint'.
  pose proof (dr_future_eq _ _ _ _ R) as Hfuture. rewrite Hframe, <- Hint' in Hfuture.
  pose proof (dr_predict _ _ _ _ R) as Hpredict. rewrite Hframe in Hpredict.
  destruct (horizon_rows _ _ _ _ _ _ _ Henv Hfuture Hn Hpredict) as (last & Hlast & Hrows).
  unfold demand_history in Hlast. rewrite map_map in Hlast. cbn [h_ds] in Hlast.
  change (Ts.max (map ds df) = Some last) in Hlast.
  rewrite Hmax in Hlast. injection Hlast as <-.
  assert (map date (forecast body) = days_after (dateRange_end body) n) as Hdates.
  { rewrite (dr_forecast _ _ _ _ R). unfold forecast_result. rewrite map_map. exact Hrows. }
  split; [done|].
  rewrite <- (length_map date), Hdates. unfold days_after. by rewrite length_map, length_seq.
Qed.

Lemma demand_forecast_horizon_witness :
  exists body log,
    predict_demand Naive.env (Example.demand Example.three_days 2 []) = (Success body, log) /\
    map date (forecast body) = days_after (dateRange_end body) 2 /\
    length (forecast body) = Z.to_nat 2.
Proof.
  successful (predict_demand Naive.env (Example.demand Example.three_days 2 [])) body log Hrun.
  exists body, log. split; [reflexivity|].
  apply (demand_forecast_horizon Naive.env _ body log 2 Naive_env_ok Hrun).
  - eval_body (predict_demand Naive.env (Example.demand Example.three_days 2 [])) body Hrun.
    vm_compute. reflexivity.
  - lia.
Defined.

Lemma metric_run_horizon env df column scale future_periods points fc log n :
  env_ok env ->
  metric_run env df column scale future_periods points fc log ->
  as_int future_periods = Ok n ->
  0 <= n ->
  exists history last,
    In (Fit (supplier_config scale) history) log /\
    Ts.max (map h_ds history) = Some last /\
    map date points = days_after last n /\
    In (Some last) (map ds df).
Proof.
  intros Henv R Hint Hn.
  destruct R as [m_frame m_cleaned m_log_clean m_periods m_future Hm_frame Hm_clean Hm_fit
                 Hm_as_int Hm_future Hm_predict Hm_points Hm_log].
  rewrite Hint in Hm_as_int. injection Hm_as_int as <-.
  destruct (horizon_rows _ _ _ _ _ _ _ Henv Hm_future Hn Hm_predict) as (last & Hlast & Hrows).
  exists m_cleaned, last. split; [subst log; solve_in|]. split; [done|]. split.
  - rewrite Hm_points. unfold clamped_forecast. rewrite map_map. exact Hrows.
  - apply Ts_max_In in Hlast.
    destruct (clean_metric_spec env column m_frame) as (cleaned & warnings & Hclean & _ & Hsub & _).
    rewrite Hm_clean in Hclean. injection Hclean as <- _.
    apply (sublist_In _ _ _ Hsub) in Hlast.
    unfold metric_frame in Hm_frame.
    destruct (has_column df column); [|discriminate]. injection Hm_frame as <-.
    rewrite map_map in Hlast. exact Hlast.
Qed.

(** X15.  Each of the two forecasts of a 200 response of
    [predict_supplier_performance] has one row for each of the
    [futurePeriods] days that follow the last date of the history its
    model was fit on, the cleaned series of the metric.  That date is not
    after [dateRange.end]. *)
Theorem supplier_forecast_horizon env data body log n :
  env_ok env ->
  predict_supplier_performance env data = (Success body, log) ->
  as_int (s_futurePeriods body) = Ok n ->
  0 <= n ->
  exists quality_history last_quality lead_time_history last_lead_time,
    In (Fit (supplier_config (5 # 100)) quality_history) log /\
    Ts.max (map h_ds quality_history) = Some last_quality /\
    map date (qualityForecast body) = days_after last_quality n /\
    last_quality <= s_dateRange_end body /\
    In (Fit (supplier_config (1 # 10)) lead_time_history) log /\
    Ts.max (map h_ds lead_time_history) = Some last_lead_time /\
    map date (leadTimeForecast body) = days_after last_lead_time n /\
    last_lead_time <= s_dateRange_end body.
Proof.
  intros Henv Hrun Hint Hn.
  pose proof (predict_supplier_performance_Success _ _ _ _ Hrun) as R.
  destruct (predict_supplier_Success_request _ _ _ _ Hrun)
    as (d & p & rest & df & sid & -> & Hpoints & _ & _ & _ & Hdf & _ & Hmax & _).
  assert (sr_df _ _ _ _ R = df) as Hframe.
  { pose proof (sr_get_data _ _ _ _ R) as Hget. pose proof (sr_frame _ _ _ _ R) as Hframe.
    cbn [Py.getitem] in Hget. rewrite Hpoints in Hget. injection Hget as Hget.
    rewrite <- Hget, Hdf in Hframe. by injection Hframe. }
  pose proof (sr_quality _ _ _ _ R) as Rq. pose proof (sr_lead_time _ _ _ _ R) as Rl.
  rewrite Hframe in Rq, Rl.
  destruct (metric_run_horizon _ _ _ _ _ _ _ _ _ Henv Rq Hint Hn)
    as (hq & lq & Hfitq & Hlastq & Hq & Hinq).
  destruct (metric_run_horizon _ _ _ _ _ _ _ _ _ Henv Rl Hint Hn)
    as (hl & ll & Hfitl & Hlastl & Hl & Hinl).
  destruct (Ts_max_bound _ _ Hinq) as (m & Hm & Hle).
  destruct (Ts_max_bound _ _ Hinl) as (m' & Hm' & Hle').
  rewrite Hmax in Hm, Hm'. injection Hm as <-. injection Hm' as <-.
  assert (In (Fit (supplier_config (5 # 100)) hq) log) as Hfitq'.
  { rewrite (sr_log _ _ _ _ R). solve_in. }
  assert (In (Fit (supplier_config (1 # 10)) hl) log) as Hfitl'.
  { rewrite (sr_log _ _ _ _ R). solve_in. }
  exists hq, lq, hl, ll. repeat split; done.
Qed.

Lemma supplier_forecast_horizon_witness :
  exists body log quality_history last_quality lead_time_history last_lead_time,
    predict_supplier_performance Naive.env Example.sparse_ratings = (Success body, log) /\
    In (Fit (supplier_config (5 # 100)) quality_history) log /\
    Ts.max (map h_ds quality_history) = Some last_quality /\
    map date (qualityForecast body) = days_after last_quality 2 /\
    last_quality <= s_dateRange_end body /\
    In (Fit (supplier_config (1 # 10)) lead_time_history) log /\
    Ts.max (map h_ds lead_time_history) = Some last_lead_time /\
    map date (leadTimeForecast body) = days_after last_lead_time 2 /\
    last_lead_time <= s_dateRange_end body.
Proof.
  successful (predict_supplier_performance Naive.env Example.sparse_ratings) body log Hrun.
  assert (as_int (s_futurePeriods body) = Ok 2) as Hint.
  { eval_body (predict_supplier_performance Naive.env Example.sparse_ratings) body Hrun.
    vm_compute. reflexivity. }
  pose proof (supplier_forecast_horizon Naive.env _ body log 2 Naive_env_ok Hrun Hint
                ltac:(lia)) as (hq & lq & hl & ll & H).
  exists body, log, hq, lq, hl, ll. split; [reflexivity|exact H].
Defined.

(** ** Calls to the engine *)

Lemma filter_excluded {A} (P : A -> Prop) (p : A -> bool) l :
  Forall P l -> (forall x, P x -> p x = false) -> List.filter p l = [].
Proof.
  intros Hall Hp. apply filter_none. intros x Hin. apply Hp.
  rewrite List.Forall_forall in Hall. by apply Hall.
Qed.

Lemma warnings_excluded (p : event -> bool) l :
  (forall w, p (Warn w) = false) -> Forall is_warning l -> List.filter p l = [].
Proof.
  intros Hp Hall. apply (filter_excluded is_warning); [done|]. by intros [] Hx.
Qed.

Lemma error_lines_excluded (p : event -> bool) l :
  (forall e, p (LogError e) = false) -> Forall is_error_line l -> List.filter p l = [].
Proof.
  intros Hp Hall. apply (filter_excluded is_error_line); [done|]. by intros [] Hx.
Qed.

Lemma supplier_strengths_logs env quality lead_time :
  logs is_warning (supplier_strengths env quality lead_time).
Proof.
  unfold logs. rewrite supplier_strengths_eq.
  destruct (yearly quality), (trend quality), (yearly lead_time), (trend lead_time);
    repeat constructor.
Qed.

Lemma find_gaps_supplier_logs df : logs is_warning (find_gaps_supplier df).
Proof.
  unfold logs. rewrite find_gaps_supplier_eq. cbn [snd].
  destruct (gap_events _); repeat constructor.
Qed.

Lemma metric_run_calls env df column scale future_periods points fc log :
  metric_run env df column scale future_periods points fc log ->
  exists history future,
    List.filter engine_call log
    = [Fit (supplier_config scale) history; Predict (supplier_config scale) future].
Proof.
  intros R. rewrite (mr_log _ _ _ _ _ _ _ _ R).
  destruct (clean_metric_spec env column (mr_frame _ _ _ _ _ _ _ _ R))
    as (cleaned & warnings & Hclean & Hwarn & _).
  rewrite (mr_clean _ _ _ _ _ _ _ _ R) in Hclean. injection Hclean as _ <-.
  rewrite !List.filter_app, (warnings_excluded engine_call _ (fun _ => eq_refl) Hwarn).
  eexists _, _. reflexivity.
Qed.

(** X16.  A 200 response of [predict_supplier_performance] costs exactly
    two fits and two predictions of the engine: the quality model is fit
    and asked first, with a changepoint scale of 0.05, then the lead time
    model, with a scale of 0.1.  No regressor is projected. *)
Theorem supplier_engine_calls env data body log :
  predict_supplier_performance env data = (Success body, log) ->
  exists quality_history quality_future lead_time_history lead_time_future,
    List.filter engine_call log
    = [Fit (supplier_config (5 # 100)) quality_history;
       Predict (supplier_config (5 # 100)) quality_future;
       Fit (supplier_config (1 # 10)) lead_time_history;
       Predict (supplier_config (1 # 10)) lead_time_future] /\
    List.filter is_projection log = [].
Proof.
  intros Hrun. pose proof (predict_supplier_performance_Success _ _ _ _ Hrun) as R.
  assert (Forall is_warning
            (if Float.lt (sr_density _ _ _ _ R) density_threshold
             then [Warn (LowDensity (sr_density _ _ _ _ R))] else [])) as Hdensity.
  { destruct (Float.lt _ _); repeat constructor. }
  pose proof (find_gaps_supplier_logs (sr_df _ _ _ _ R)) as Hgaps.
  unfold logs in Hgaps. rewrite (sr_gaps _ _ _ _ R) in Hgaps. cbn [snd] in Hgaps.
  pose proof (supplier_strengths_logs env (sr_quality_fc _ _ _ _ R) (sr_lead_time_fc _ _ _ _ R))
    as Hstrengths.
  unfold logs in Hstrengths. rewrite (sr_strengths _ _ _ _ R) in Hstrengths.
  cbn [snd] in Hstrengths.
  pose proof (sr_quality _ _ _ _ R) as Rq. pose proof (sr_lead_time _ _ _ _ R) as Rl.
  destruct (metric_run_calls _ _ _ _ _ _ _ _ Rq) as (hq & fq & Hq).
  destruct (metric_run_calls _ _ _ _ _ _ _ _ Rl) as (hl & fl & Hl).
  exists hq, fq, hl, fl. rewrite (sr_log _ _ _ _ R), !List.filter_app. split.
  - rewrite Hq, Hl.
    rewrite (warnings_excluded engine_call _ (fun _ => eq_refl) Hdensity).
    rewrite (warnings_excluded engine_call _ (fun _ => eq_refl) Hgaps).
    rewrite (warnings_excluded engine_call _ (fun _ => eq_refl) Hstrengths).
    reflexivity.
  - rewrite (warnings_excluded is_projection _ (fun _ => eq_refl) Hdensity).
    rewrite (warnings_excluded is_projection _ (fun _ => eq_refl) Hgaps).
    rewrite (warnings_excluded is_projection _ (fun _ => eq_refl) Hstrengths).
    rewrite (mr_log _ _ _ _ _ _ _ _ Rq), (mr_log _ _ _ _ _ _ _ _ Rl), !List.filter_app.
    destruct (clean_metric_spec env "qualityRating" (mr_frame _ _ _ _ _ _ _ _ Rq))
      as (cq & wq & Hcq & Hwq & _).
    rewrite (mr_clean _ _ _ _ _ _ _ _ Rq) in Hcq. injection Hcq as _ <-.
    destruct (clean_metric_spec env "leadTimeReliability" (mr_frame _ _ _ _ _ _ _ _ Rl))
      as (cl & wl & Hcl & Hwl & _).
    rewrite (mr_clean _ _ _ _ _ _ _ _ Rl) in Hcl. injection Hcl as _ <-.
    rewrite (warnings_excluded is_projection _ (fun _ => eq_refl) Hwq).
    rewrite (warnings_excluded is_projection _ (fun _ => eq_refl) Hwl).
    reflexivity.
Qed.

Lemma supplier_engine_calls_witness :
  exists body log quality_history quality_future lead_time_history lead_time_future,
    predict_supplier_performance Naive.env Example.sparse_ratings = (Success body, log) /\
    List.filter engine_call log
    = [Fit (supplier_config (5 # 100)) quality_history;
       Predict (supplier_config (5 # 100)) quality_future;
       Fit (supplier_config (1 # 10)) lead_time_history;
       Predict (supplier_config (1 # 10)) lead_time_future] /\
    List.filter is_projection log = [].
Proof.
  successful (predict_supplier_performance Naive.env Example.sparse_ratings) body log Hrun.
  pose proof (supplier_engine_calls Naive.env _ body log Hrun) as (hq & fq & hl & fl & H).
  exists body, log, hq, fq, hl, fl. split; [reflexivity|exact H].
Defined.

Lemma Forall2_fst {A B C} (P : A * B -> A * C -> Prop) l1 l2 :
  Forall2 P l1 l2 -> (forall x y, P x y -> fst x = fst y) -> map fst l1 = map fst l2.
Proof.
  intros H HP. induction H as [|x y l1 l2 Hxy _ IH]; simpl; [done|].
  by rewrite (HP _ _ Hxy), IH.
Qed.

(** The fields of a successful run, under fixed names. *)
Ltac open_demand_run R :=
  destruct R as [r_data r_df r_density r_future [r_added r_fr] r_columns r_fc r_strengths
                 r_log_gaps r_log_regs r_log_attach r_log_strengths r_periods
                 Hvalidated Hget_data Hget_location Hget_model Hframe Hno_null Hnumeric
                 Hdensity_eq Hdense Hgaps Hget_periods Hresolve Hfit Has_int Hfuture_eq
                 Hattach Hpredict Hstrengths_eq Hforecast Hseasonality Htrend Hmti_eq
                 Hinflation_eq Hused Hgenerated Hpoints Hlog];
  cbn [fst snd] in *.

(** X17.  In a 200 response of [predict_demand], the model was fit with
    exactly the regressors of [regressorsUsed], and the future frame it was
    asked to predict on carries one column for each of them, in the same
    order. *)
Theorem model_regressors_have_columns env data body log :
  predict_demand env data = (Success body, log) ->
  exists history future,
    In (Fit (demand_config (regressorsUsed body)) history) log /\
    In (Predict (demand_config (regressorsUsed body)) future) log /\
    extra_regressors (demand_config (regressorsUsed body)) = map fst (fut_x future).
Proof.
  intros Hrun. apply predict_demand_Success in Hrun. open_demand_run Hrun.
  exists (demand_history r_df), {| fut_ds := r_future; fut_x := r_columns |}.
  rewrite Hused. subst log.
  split; [solve_in|]. split; [solve_in|]. cbn [fut_x extra_regressors demand_config].
  apply resolve_regressors_Ok in Hresolve as (_ & _ & _ & _ & _ & _ & _ & -> & _).
  apply attach_regressors_Ok in Hattach.
  apply (Forall2_fst _ _ _ Hattach). by intros x y [H _].
Qed.

Lemma model_regressors_have_columns_witness :
  exists body log history future,
    predict_demand Naive.env Example.both_supplied = (Success body, log) /\
    In (Fit (demand_config (regressorsUsed body)) history) log /\
    In (Predict (demand_config (regressorsUsed body)) future) log /\
    extra_regressors (demand_config (regressorsUsed body)) = map fst (fut_x future).
Proof.
  successful (predict_demand Naive.env Example.both_supplied) body log Hrun.
  pose proof (model_regressors_have_columns Naive.env _ body log Hrun) as (history & future & H).
  exists body, log, history, future. split; [reflexivity|exact H].
Defined.

(** X18.  A 200 response of [predict_demand] costs one fit and one
    prediction of the engine for the demand model, and one more of each
    for every regressor that was projected; at most two regressors are
    used, so at most three models are fit. *)
Theorem demand_engine_calls env data body log :
  predict_demand env data = (Success body, log) ->
  let projections := length (List.filter is_projection log) in
  length (List.filter is_fit log) = S projections /\
  length (List.filter is_predict log) = S projections /\
  (projections <= length (regressorsUsed body) <= 2)%nat.
Proof.
  intros Hrun. apply predict_demand_Success in Hrun. open_demand_run Hrun.
  pose proof (find_gaps_demand_logs r_df) as Wgaps.
  unfold logs in Wgaps. rewrite Hgaps in Wgaps. cbn [snd] in Wgaps.
  pose proof (attach_regressors_logs env (length r_future) r_fr) as Wattach.
  unfold logs in Wattach. rewrite Hattach in Wattach. cbn [snd] in Wattach.
  pose proof (demand_strengths_logs env r_fc) as Wstrengths.
  unfold logs in Wstrengths. rewrite Hstrengths_eq in Wstrengths. cbn [snd] in Wstrengths.
  apply resolve_regressors_Ok in Hresolve
    as (fr1 & log1 & fr2 & log2 & Hmti & Hinflation & -> & -> & ->).
  rewrite Hused. subst log. cbn zeta. rewrite !List.filter_app.
  rewrite (warnings_excluded is_fit _ (fun _ => eq_refl) Wgaps).
  rewrite (warnings_excluded is_predict _ (fun _ => eq_refl) Wgaps).
  rewrite (warnings_excluded is_projection _ (fun _ => eq_refl) Wgaps).
  rewrite (warnings_excluded is_fit _ (fun _ => eq_refl) Wstrengths).
  rewrite (warnings_excluded is_predict _ (fun _ => eq_refl) Wstrengths).
  rewrite (warnings_excluded is_projection _ (fun _ => eq_refl) Wstrengths).
  rewrite (error_lines_excluded is_fit _ (fun _ => eq_refl) Wattach).
  rewrite (error_lines_excluded is_predict _ (fun _ => eq_refl) Wattach).
  rewrite (error_lines_excluded is_projection _ (fun _ => eq_refl) Wattach).
  inversion Hmti as [Hm|? ? Hm|? ? ? Hm ? ? Rm]; inversion Hinflation as [Hi|? ? Hi Ri];
    subst; try rewrite (rr_log _ _ _ _ _ _ _ Rm); try rewrite (rr_log _ _ _ _ _ _ _ Ri);
    cbn; lia.
Qed.

Lemma demand_engine_calls_witness :
  exists body log,
    predict_demand Naive.env Example.declared_mti = (Success body, log) /\
    let projections := length (List.filter is_projection log) in
    length (List.filter is_fit log) = S projections /\
    length (List.filter is_predict log) = S projections /\
    (projections <= length (regressorsUsed body) <= 2)%nat.
Proof.
  successful (predict_demand Naive.env Example.declared_mti) body log Hrun.
  exists body, log. split; [reflexivity|].
  exact (demand_engine_calls Naive.env _ body log Hrun).
Defined.

(** ** Gap logging on a frame that is not in date order *)

Lemma loc_ds_negative df i : i < 0 -> loc_ds df i = Raise (KeyError "label").
Proof.
  intros Hi. induction df as [|r df IH]; simpl; [done|].
  replace (Z.of_nat (label r) =? i) with false by (symmetry; apply Z.eqb_neq; lia). done.
Qed.

Lemma loc_ds_raises df i e : loc_ds df i = Raise e -> e = KeyError "label".
Proof.
  induction df as [|r df IH]; simpl; [congruence|].
  destruct (Z.of_nat (label r) =? i); [discriminate|done].
Qed.

Lemma log_gap_lines_first_label df index :
  In 0%nat index ->
  exists log, log_gap_lines df index = (Raise (KeyError "label"), log).
Proof.
  induction index as [|idx index IH]; [done|]. intros Hin. cbn [log_gap_lines].
  destruct (loc_ds df (Z.of_nat idx - 1)) as [gap_start|e] eqn:Hstart.
  - destruct Hin as [->|Hin]; [by rewrite loc_ds_negative in Hstart|].
    rewrite bind_lift_value.
    destruct (loc_ds df (Z.of_nat idx)) as [gap_end|e] eqn:Hend.
    + rewrite bind_lift_value. destruct (IH Hin) as (log & Hlog).
      eexists. unfold bind at 1. unfold emit. rewrite Hlog. reflexivity.
    + apply loc_ds_raises in Hend as ->. by eexists.
  - apply loc_ds_raises in Hstart as ->. by eexists.
Qed.


Lemma unsorted_gap_checked :
  demand_checked Naive.env Example.unsorted_gap (Example.frame Example.unsorted_gap).
Proof. eexists _, _. split; [reflexivity|]. repeat split; by_evaluation. Qed.


(** ** The density check in integers *)

Lemma density_check df :
  exists d,
    density df = Ok d /\
    Float.lt d density_threshold =
    match date_range df with
    | Some days => 10 * Z.of_nat (length df) <? 7 * (days + 1)
    | None => false
    end.
Proof.
  eexists. split; [apply density_eq|].
  destruct (date_range df) as [days|] eqn:Hrange; [|done].
  apply date_range_nonneg in Hrange.
  unfold density_threshold. cbn [Float.lt].
  assert (0 < inject_Z (days + 1))%Q as Hpos.
  { unfold Qlt, inject_Z. simpl. lia. }
  destruct (10 * Z.of_nat (length df) <? 7 * (days + 1)) eqn:Hlt.
  - apply Z.ltb_lt in Hlt. apply Qltb_lt. apply Qlt_shift_div_r; [done|].
    unfold Qlt, Qmult, inject_Z. simpl. lia.
  - apply Z.ltb_ge in Hlt. apply Qltb_ge. apply Qle_shift_div_l; [done|].
    unfold Qle, Qmult, inject_Z. simpl. lia.
Qed.

(** X20.  The density check is exact in integers: a frame of [n] rows that
    spans [days] whole days is below the threshold exactly when
    [10 * n < 7 * (days + 1)].  The division never fails, and a frame
    without a single valid timestamp has the density NaN, which is not
    below the threshold. *)
Theorem density_check_in_integers df :
  exists d,
    density df = Ok d /\
    Float.lt d density_threshold =
    match date_range df with
    | Some days => 10 * Z.of_nat (length df) <? 7 * (days + 1)
    | None => false
    end.
Proof. apply density_check. Qed.

Lemma Ts_min_In l m : Ts.min l = Some m -> In (Some m) l.
Proof.
  revert m. induction l as [|[x|] l IH]; intros m; simpl;
    [done| |intros H; right; by apply IH].
  destruct (Ts.min l) as [y|] eqn:Hmin.
  - intros [= <-]. destruct (Z.min_spec x y) as [[_ ->]|[_ ->]]; [by left|right; by apply IH].
  - intros [= <-]. by left.
Qed.

Lemma Ts_min_bound l t : In (Some t) l -> exists m, Ts.min l = Some m /\ m <= t.
Proof.
  induction l as [|[x|] l IH]; simpl; [done| |].
  - intros [[= ->]|Hin].
    + destruct (Ts.min l) as [y|]; eexists; (split; [reflexivity|lia]).
    + destruct (IH Hin) as (m & -> & Hle). eexists. split; [reflexivity|lia].
  - intros [[=]|Hin]. by apply IH.
Qed.

Lemma Ts_max_eq l m :
  In (Some m) l -> (forall t, In (Some t) l -> t <= m) -> Ts.max l = Some m.
Proof.
  intros Hin Hall. destruct (Ts_max_bound _ _ Hin) as (m' & Hmax & Hle).
  rewrite Hmax. f_equal. apply Ts_max_In, Hall in Hmax. lia.
Qed.

Lemma Ts_min_eq l m :
  In (Some m) l -> (forall t, In (Some t) l -> m <= t) -> Ts.min l = Some m.
Proof.
  intros Hin Hall. destruct (Ts_min_bound _ _ Hin) as (m' & Hmin & Hle).
  rewrite Hmin. f_equal. apply Ts_min_In, Hall in Hmin. lia.
Qed.

Lemma daily_In start n t :
  In (Some t) (daily start n) <-> exists k, (k < n)%nat /\ t = start + Z.of_nat k * day_ns.
Proof.
  unfold daily. rewrite in_map_iff. split.
  - intros (k & [= <-] & Hk). apply in_seq in Hk. exists k. split; [lia|done].
  - intros (k & Hk & ->). exists k. split; [done|]. apply in_seq. lia.
Qed.

(** X21.  A series with one observation a day, however long, has the
    density 1.0 and passes the density check; so does a single
    observation. *)
Theorem daily_series_is_dense df start :
  df <> [] ->
  map ds df = daily start (length df) ->
  date_range df = Some (Z.of_nat (length df) - 1) /\
  exists d,
    density df = Ok d /\ same_value d (PFin 1) /\ Float.lt d density_threshold = false.
Proof.
  intros Hne Hdaily.
  assert (0 < length df)%nat as Hlen by (destruct df; [done|simpl; lia]).
  assert (date_range df = Some (Z.of_nat (length df) - 1)) as Hrange.
  { unfold date_range. rewrite Hdaily.
    rewrite (Ts_max_eq _ (start + Z.of_nat (length df - 1) * day_ns)).
    - rewrite (Ts_min_eq _ start).
      + cbn [Ts.sub Ts.days]. f_equal.
        replace (Z.of_nat (length df - 1)) with (Z.of_nat (length df) - 1) by lia.
        replace (start + (Z.of_nat (length df) - 1) * day_ns - start)
          with ((Z.of_nat (length df) - 1) * day_ns) by ring.
        by apply Z.div_mul.
      + apply daily_In. exists 0%nat. split; [done|lia].
      + intros t (k & _ & ->)%daily_In. unfold day_ns. lia.
    - apply daily_In. exists (length df - 1)%nat. split; [lia|done].
    - intros t (k & Hk & ->)%daily_In. unfold day_ns. lia. }
  split; [done|].
  destruct (density_check df) as (d & Hd & Hlt). rewrite Hrange in Hlt.
  exists d. split; [done|]. split.
  - rewrite density_eq, Hrange in Hd. injection Hd as <-. cbn [same_value].
    replace (Z.of_nat (length df) - 1 + 1) with (Z.of_nat (length df)) by lia.
    apply Qmult_inv_r. unfold Qeq, inject_Z. simpl. lia.
  - rewrite Hlt. apply Z.ltb_ge. lia.
Qed.

Lemma daily_series_is_dense_witness :
  date_range Example.mti_rows = Some (Z.of_nat (length Example.mti_rows) - 1) /\
  exists d,
    density Example.mti_rows = Ok d /\ same_value d (PFin 1) /\
    Float.lt d density_threshold = false.
Proof.
  apply (daily_series_is_dense Example.mti_rows 0).
  - discriminate.
  - reflexivity.
Defined.



(** ** Clamping *)

(** X23.  The clamp of the supplier forecasts, [min(1.0, max(0.0, x))],
    leaves a value of the unit interval as it is, is idempotent, and turns
    NaN into 0.0. *)
Theorem clamp01_behaviour x :
  clamp01 (clamp01 x) = clamp01 x /\
  (Float.in_unit x = true -> same_value (clamp01 x) x) /\
  (Float.isnan x = true -> clamp01 x = PFin 0).
Proof.
  split; [|split].
  - destruct x as [|[]|q]; try reflexivity.
    unfold clamp01, Float.min, Float.max, Float.gt. cbn [Float.lt].
    destruct (Float.Qltb 0 q) eqn:H0; cbn [Float.lt].
    + destruct (Float.Qltb q 1) eqn:H1; cbn [Float.lt]; rewrite ?H0; cbn [Float.lt];
        rewrite ?H1; reflexivity.
    + reflexivity.
  - destruct x as [|[]|q]; try discriminate. rewrite in_unit_fin. intros [H0 H1].
    unfold clamp01, Float.min, Float.max, Float.gt. cbn [Float.lt].
    destruct (Float.Qltb 0 q) eqn:Hq; cbn [Float.lt].
    + destruct (Float.Qltb q 1) eqn:Hq'; cbn [same_value]; [reflexivity|].
      apply Qltb_ge in Hq'. lra.
    + apply Qltb_ge in Hq. change (Float.Qltb 0 1) with true. cbn [same_value]. lra.
  - by destruct x.
Qed.

(** ** An engine that refuses the history *)

(** X24.  When the engine refuses the cleaned quality ratings (too few
    rows are left, say), the supplier operation answers with the response
    of that exception, 400 "Data processing error" for a [ValueError]:
    the lead time model is never fit and nothing is predicted. *)
Theorem supplier_quality_fit_refused env data df frame cleaned warnings e :
  supplier_checked env data df ->
  metric_frame df "qualityRating" = Ok frame ->
  clean_metric env "qualityRating" frame = (Ok cleaned, warnings) ->
  prophet_fit env (supplier_config (5 # 100)) cleaned = Some e ->
  exists log,
    predict_supplier_performance env data = (data_processing_handler e, log) /\
    List.filter engine_call log = [Fit (supplier_config (5 # 100)) cleaned].
Proof.
  intros Hchecked Hframe Hclean Hfit.
  destruct (supplier_request_checked _ _ _ Hchecked) as (hd & periods & sid & Hdf & Hreq).
  unfold predict_supplier_performance. rewrite Hreq.
  pose proof (density_eq df) as Hd.
  set (d := match date_range df with Some _ => _ | None => _ end) in Hd.
  exists ((if Float.lt d density_threshold then [Warn (LowDensity d)] else [])
          ++ gap_log false (gap_events (map ds (sort_values df)))
          ++ warnings ++ [Fit (supplier_config (5 # 100)) cleaned]).
  split.
  - apply handle_raise. unfold supplier_forecast.
    rewrite (bind_lift_eq _ _ _ Hdf), (bind_lift_eq _ _ _ Hd).
    eapply bind_eq; [unfold when; by destruct (Float.lt d density_threshold)|].
    eapply bind_eq; [apply find_gaps_supplier_eq|].
    apply bind_raise. unfold metric_forecast.
    rewrite (bind_lift_eq _ _ _ Hframe).
    eapply bind_eq; [exact Hclean|].
    apply bind_raise. by apply fit_Some.
  - destruct (clean_metric_spec env "qualityRating" frame)
      as (cleaned' & warnings' & Hclean' & Hwarn & _).
    rewrite Hclean in Hclean'. injection Hclean' as _ <-.
    rewrite !List.filter_app.
    rewrite (warnings_excluded engine_call warnings (fun _ => eq_refl) Hwarn).
    rewrite (warnings_excluded engine_call (gap_log false _) (fun _ => eq_refl)).
    + by destruct (Float.lt d density_threshold).
    + destruct (gap_events _); repeat constructor.
Qed.

Lemma one_rating_checked :
  supplier_checked Naive.env Edge.one_rating (Example.frame Edge.one_rating).
Proof. eexists _, _. split; [reflexivity|]. repeat split; by_evaluation. Qed.

Lemma supplier_quality_fit_refused_witness :
  exists log,
    predict_supplier_performance Naive.env Edge.one_rating
    = (Failure 400
         (DataProcessingError (ValueError "Dataframe has less than 2 non-NaN rows.")), log) /\
    List.filter engine_call log
    = [Fit (supplier_config (5 # 100))
         [HRow (Naive.iso_date "2024-01-01") (JInt 1) {[ "qualityRating" := JInt 1 ]}]].
Proof.
  refine (supplier_quality_fit_refused Naive.env Edge.one_rating
            (Example.frame Edge.one_rating)
            [HRow (Naive.iso_date "2024-01-01") (JInt 1) {[ "qualityRating" := JInt 1 ]};
             HRow (Naive.iso_date "2024-01-02") JNull {[ "qualityRating" := JNull ]};
             HRow (Naive.iso_date "2024-01-03") JNull {[ "qualityRating" := JNull ]}]
            [HRow (Naive.iso_date "2024-01-01") (JInt 1) {[ "qualityRating" := JInt 1 ]}]
            [Warn (NullValues "qualityRating" 2)]
            (ValueError "Dataframe has less than 2 non-NaN rows.")
            one_rating_checked _ _ _).
  - vm_compute. reflexivity.
  - vm_compute. reflexivity.
  - vm_compute. reflexivity.
Defined.

(** ** The history of the [mti] projection *)

Lemma select_map {A B} (f : A -> B) keep mask l :
  select keep mask (map f l) = map f (select keep mask l).
Proof.
  revert l. induction mask as [|b mask IH]; intros [|x l]; simpl; try done.
  destruct (Bool.eqb b keep); simpl; by rewrite IH.
Qed.

(** X25.  When the records declare [mti] and the request carries no
    future values for it, the projection of [mti] is fit on the distinct
    (date, mti) pairs of all the records, whatever their location: no
    filter by location is applied. *)
Theorem mti_projection_history env data body log :
  predict_demand env data = (Success body, log) ->
  In "mti" (regressorsUsed body) ->
  mti_supplied data = Ok false ->
  exists historical_data df mask,
    Py.getitem data "historicalData" = Ok historical_data /\
    DataFrame env historical_data = Ok df /\
    duplicated env (map (fun r => (ds r, cell "mti" r)) df) = Ok mask /\
    In (Fit regressor_config
          (select false mask (map (fun r => HRow (ds r) (cell "mti" r) ∅) df))) log.
Proof.
  intros Hrun Hused' Hsupplied. apply predict_demand_Success in Hrun. open_demand_run Hrun.
  apply resolve_regressors_Ok in Hresolve
    as (fr1 & log1 & fr2 & log2 & Hmti & Hinflation & -> & -> & ->).
  rewrite Hused in Hused'.
  inversion Hmti as [Hm|? ? Hm Hs|mti_data values ? Hm Hs Hall Rm]; subst.
  - inversion Hinflation; subst; simpl in Hused'; [done|]. by destruct Hused' as [[=]|[]].
  - congruence.
  - unfold all_mti_data in Hall.
    destruct (duplicated env _) as [mask|] eqn:Hmask; [|discriminate].
    rewrite bind_lift_value in Hall. injection Hall as <-.
    exists r_data, r_df, mask. split; [done|]. split; [done|]. split; [done|].
    pose proof (rr_scope _ _ _ _ _ _ _ Rm) as Hscope. cbn [Py.truthy andb] in Hscope.
    assert (In (Fit regressor_config
                  (map (fun r => HRow (ds r) (cell "mti" r) ∅)
                     (select false mask
                        (map (fun r => Row (label r) (ds r) {[ "mti" := cell "mti" r ]})
                           r_df)))) log1) as Hin.
    { rewrite (rr_log _ _ _ _ _ _ _ Rm). unfold rr_history. rewrite Hscope.
      right. left. reflexivity. }
    assert (forall r, cell "mti" (Row (label r) (ds r) {[ "mti" := cell "mti" r ]})
                      = cell "mti" r) as Hcell.
    { intros r. generalize (cell "mti" r). intros v. unfold cell. cbn [cells].
      by rewrite lookup_singleton_eq. }
    rewrite select_map, map_map in Hin. cbn [ds] in Hin.
    rewrite (map_ext _ (fun r => HRow (ds r) (cell "mti" r) ∅)) in Hin
      by (intros r; by rewrite Hcell).
    rewrite select_map. solve_in.
Qed.

Lemma mti_projection_history_witness :
  exists body log historical_data df mask,
    predict_demand Naive.env Example.declared_mti = (Success body, log) /\
    Py.getitem Example.declared_mti "historicalData" = Ok historical_data /\
    DataFrame Naive.env historical_data = Ok df /\
    duplicated Naive.env (map (fun r => (ds r, cell "mti" r)) df) = Ok mask /\
    In (Fit regressor_config
          (select false mask (map (fun r => HRow (ds r) (cell "mti" r) ∅) df))) log.
Proof.
  successful (predict_demand Naive.env Example.declared_mti) body log Hrun.
  assert (In "mti" (regressorsUsed body)) as Hused.
  { eval_body (predict_demand Naive.env Example.declared_mti) body Hrun.
    vm_compute. left. reflexivity. }
  pose proof (mti_projection_history Naive.env _ body log Hrun Hused eq_refl)
    as (hd & df & mask & H).
  exists body, log, hd, df, mask. split; [reflexivity|exact H].
Defined.

(** ** [generate_mti_projections] *)

Lemma bind_emit {B} (e : event) (k : unit -> M B) :
  bind (emit e) k = (fst (k tt), e :: snd (k tt)).
Proof. unfold bind, emit. by destruct (k tt). Qed.

Lemma mti_frame_history dates y :
  map (fun r => HRow (ds r) (cell "mti" r) ∅) (mti_frame dates y)
  = zip_with (fun t v => HRow t v ∅) dates y.
Proof.
  unfold mti_frame. revert y. induction dates as [|t dates IH]; intros [|v y]; simpl; try done.
  rewrite IH. reflexivity.
Qed.

(** X26.  [generate_mti_projections] computes what [predict_regressor]
    computes for the regressor [mti] without a location, on the frame that
    holds the same series: the same model, the same horizon, the same
    values or the same exception. *)
Theorem generate_mti_projections_agrees env pd_to_datetime historical_mti periods
    date_col dates y :
  getcol historical_mti "date" = Ok date_col ->
  pd_to_datetime date_col = Ok dates ->
  getcol historical_mti "mti" = Ok y ->
  length dates = length y ->
  let run := generate_mti_projections env pd_to_datetime historical_mti periods in
  predict_regressor env (mti_frame dates y) "mti" (default default_periods periods) JNull
  = (fst run, CallPredictRegressor "mti" :: snd run).
Proof.
  intros Hdate Hdates Hy Hlen. cbn zeta.
  unfold generate_mti_projections, predict_regressor. cbn zeta.
  rewrite (bind_lift_eq _ _ _ Hdate), (bind_lift_eq _ _ _ Hdates), (bind_lift_eq _ _ _ Hy).
  unfold two_columns. rewrite Hlen, Nat.eqb_refl, bind_lift_value.
  rewrite bind_emit. cbn [Py.truthy andb]. rewrite bind_ret, mti_frame_history.
  reflexivity.
Qed.

Lemma generate_mti_projections_agrees_witness :
  let run := generate_mti_projections Naive.env Naive.to_datetime Edge.mti_columns None in
  predict_regressor Naive.env
    (mti_frame [Naive.iso_date "2024-01-01"; Naive.iso_date "2024-01-02";
                Naive.iso_date "2024-01-03"] [JInt 5; JInt 6; JInt 7])
    "mti" (default default_periods None) JNull
  = (fst run, CallPredictRegressor "mti" :: snd run).
Proof.
  refine (generate_mti_projections_agrees Naive.env Naive.to_datetime Edge.mti_columns None
            [JStr "2024-01-01"; JStr "2024-01-02"; JStr "2024-01-03"]
            [Naive.iso_date "2024-01-01"; Naive.iso_date "2024-01-02";
             Naive.iso_date "2024-01-03"] [JInt 5; JInt 6; JInt 7] _ _ _ _).
  - vm_compute. reflexivity.
  - vm_compute. reflexivity.
  - vm_compute. reflexivity.
  - reflexivity.
Defined.

(** X27.  When it returns, [generate_mti_projections] returns [periods]
    values, and 90 values when [periods] is left out: the rows of the
    history, which its future frame includes, are filtered out again. *)
Theorem generate_mti_projections_length env pd_to_datetime historical_mti periods
    values log n :
  env_ok env ->
  generate_mti_projections env pd_to_datetime historical_mti periods = (Ok values, log) ->
  as_int (default default_periods periods) = Ok n ->
  0 <= n ->
  length values = Z.to_nat n /\
  (periods = None -> length values = 90%nat).
Proof.
  intros Henv Hrun Hint Hn. unfold generate_mti_projections in Hrun. cbn zeta in Hrun.
  lift_inv Hrun as date_col Hdate. lift_inv Hrun as dates Hdates.
  lift_inv Hrun as y Hy. lift_inv Hrun as df Hdf.
  bind_inv Hrun as u log_fit Hfit.
  lift_inv Hrun as n' Hint'. rewrite Hint in Hint'. injection Hint' as <-.
  lift_inv Hrun as future Hfuture.
  bind_inv Hrun as fc log_predict Hpredict. apply predict_Ok in Hpredict as [Hpredict _].
  injection Hrun as <- _.
  assert (length (future_values (Ts.max (map h_ds df)) fc) = Z.to_nat n) as Hlength
    by (by eapply future_values_length).
  split; [done|]. intros ->. rewrite Hlength. by injection Hint as <-.
Qed.

Lemma generate_mti_projections_length_witness :
  exists values log,
    generate_mti_projections Naive.env Naive.to_datetime Edge.mti_columns None
    = (Ok values, log) /\
    length values = Z.to_nat 90 /\
    (@None json = None -> length values = 90%nat).
Proof.
  destruct (generate_mti_projections Naive.env Naive.to_datetime Edge.mti_columns None)
    as [r log] eqn:Hrun.
  assert (exists values, r = Ok values) as [values ->].
  { assert (fst (generate_mti_projections Naive.env Naive.to_datetime Edge.mti_columns None)
            = r) as <- by (by rewrite Hrun).
    vm_compute. eauto. }
  exists values, log. split; [reflexivity|].
  apply (generate_mti_projections_length Naive.env Naive.to_datetime Edge.mti_columns None
           values log 90 Naive_env_ok Hrun).
  - reflexivity.
  - lia.
Defined.

(** ** Start-up *)

Lemma last_cons_cons {A} (x y : A) l : last (x :: y :: l) = last (y :: l).
Proof. reflexivity. Qed.

Lemma try_ports_spec app_run all remaining :
  NoDup remaining ->
  last all = last remaining ->
  try_ports app_run all remaining =
  match List.find (fun port => negb (in_use (app_run port))) remaining with
  | Some port =>
      (outcome_on port (app_run port),
       tried_lines (busy_prefix app_run remaining) ++ [Starting port])
  | None =>
      match last remaining with
      | Some port =>
          (outcome_on port (app_run port),
           tried_lines (removelast remaining) ++ [Starting port; AllPortsInUse all])
      | None => (Exhausted, [])
      end
  end.
Proof.
  induction remaining as [|port remaining IH]; intros Hnodup Hlast; [done|].
  cbn [try_ports List.find busy_prefix].
  destruct (app_run port) as [|what|e] eqn:Hrun; cbn [in_use negb]; [by rewrite Hrun| |by rewrite Hrun].
  destruct remaining as [|next remaining].
  - rewrite Hlast. cbn [last]. rewrite bool_decide_eq_true_2 by done.
    cbn. by rewrite Hrun.
  - rewrite last_cons_cons in Hlast.
    assert (last (next :: remaining) <> Some port) as Hne.
    { intros Hin. apply last_Some_elem_of in Hin.
      apply NoDup_cons in Hnodup as [Hnotin _]. done. }
    rewrite Hlast, bool_decide_eq_false_2 by done.
    apply NoDup_cons in Hnodup as [_ Hnodup].
    rewrite (IH Hnodup Hlast).
    destruct (List.find _ (next :: remaining)) as [free|]; [done|].
    rewrite last_cons_cons.
    destruct (last (next :: remaining)) as [final|] eqn:Hfinal; [done|].
    by apply last_None in Hfinal.
Qed.

(** X28.  At start-up the service tries the ports 5001, 5002 and 5000 in
    that order and serves on the first one that is not in use, after a
    warning for each port it found taken.  When [app.run] fails with
    anything other than [OSError] the exception is not caught.  When the
    three ports are in use the [OSError] of port 5000 is raised again,
    after an error line. *)
Theorem main_serves_first_free_port app_run :
  main app_run =
  match List.find (fun port => negb (in_use (app_run port))) ports with
  | Some port =>
      (outcome_on port (app_run port),
       tried_lines (busy_prefix app_run ports) ++ [Starting port])
  | None =>
      (outcome_on 5000 (app_run 5000),
       tried_lines [5001; 5002] ++ [Starting 5000; AllPortsInUse ports])
  end.
Proof.
  unfold main. rewrite try_ports_spec; [done| |done].
  unfold ports. by apply (bool_decide_unpack _).
Qed.

(** With port 5001 taken, the service starts on port 5002. *)
Lemma main_second_port :
  main Edge.first_taken = (Served 5002, [Starting 5001; PortInUse 5001; Starting 5002]).
Proof. reflexivity. Qed.

(** ** Requests that pass the validation and fail before the checks *)




